(** * nnvision: data loaders and multi-session readouts

  A shallow embedding of [nnvision/datasets/monkey_loaders.py] and
  [nnvision/models/readouts.py].  Python exceptions are an error type,
  Python dictionaries are insertion-ordered association lists, numpy
  arrays and torch tensors are a shape together with an indexing function,
  and the file system, the allocated [ImageCache] objects and the emitted
  warnings form an explicit world that is threaded through the loaders. *)

From Stdlib Require Import String Ascii ZArith QArith Bool Arith Lia List DecimalString.
Import ListNotations.
Local Open Scope string_scope.
Local Open Scope nat_scope.

(* ------------------------------------------------------------------ *)
(** ** Python values: exceptions, results, ordered dictionaries        *)
(* ------------------------------------------------------------------ *)

Module Py.

Inductive exn : Type :=
| ValueError (msg : string)
| KeyError (key : string)
| TypeError (msg : string)
| IndexError (msg : string)
| UnboundLocalError (name : string)
| StopIteration
| FileNotFoundError (path : string)
| FileExistsError (path : string)
| UnpicklingError (path : string)
| EinopsError (msg : string)
| ZeroDivisionError
| AttributeError (name : string).

(** Hyperparameters and other values that the code only passes on. *)
Inductive value : Type :=
| PyNone
| PyBool (b : bool)
| PyInt (z : Z)
| PyFloat (q : Q)
| PyStr (s : string)
| PyPair (a b : value).

Inductive res (A : Type) : Type :=
| Ok (a : A)
| Raise (e : exn).
Arguments Ok {A} a.
Arguments Raise {A} e.

Definition bind {A B} (m : res A) (f : A -> res B) : res B :=
  match m with
  | Ok a => f a
  | Raise e => Raise e
  end.

Definition is_ok {A} (m : res A) : bool :=
  match m with Ok _ => true | Raise _ => false end.

(** A keyword argument of a call into a library whose default we do not
    know: either left out or given. *)
Inductive kwarg (A : Type) : Type :=
| Default
| Given (a : A).
Arguments Default {A}.
Arguments Given {A} a.

(** [dict]: a Python dictionary with string keys.  Iteration order is
    insertion order, and assigning to a key that is present keeps its
    position. *)
Definition dict (V : Type) : Type := list (string * V).

Fixpoint dict_get {V} (k : string) (d : dict V) : option V :=
  match d with
  | [] => None
  | (k', v) :: d' => if String.eqb k k' then Some v else dict_get k d'
  end.

Fixpoint dict_set {V} (k : string) (v : V) (d : dict V) : dict V :=
  match d with
  | [] => [(k, v)]
  | (k', v') :: d' =>
      if String.eqb k k' then (k, v) :: d' else (k', v') :: dict_set k v d'
  end.

Definition dict_keys {V} (d : dict V) : list string := map fst d.
Definition dict_values {V} (d : dict V) : list V := map snd d.
Definition dict_mem {V} (k : string) (d : dict V) : bool :=
  match dict_get k d with Some _ => true | None => false end.

(** [d[k]] *)
Definition dict_item {V} (k : string) (d : dict V) : res V :=
  match dict_get k d with
  | Some v => Ok v
  | None => Raise (KeyError k)
  end.

(** [for i, k in enumerate(keys): s = body(i, k, s)], stopping at the first
    exception *)
Fixpoint for_enumerate {St} (body : nat -> string -> St -> res St)
    (i : nat) (keys : list string) (s : St) : res St :=
  match keys with
  | [] => Ok s
  | k :: ks =>
      match body i k s with
      | Ok s' => for_enumerate body (S i) ks s'
      | Raise e => Raise e
      end
  end.

(** [l[0]] on a list *)
Definition list_first {A} (l : list A) : res A :=
  match l with
  | x :: _ => Ok x
  | [] => Raise (IndexError "list index out of range")
  end.

(** [range(t)] *)
Definition py_range (t : Z) : list Z :=
  map Z.of_nat (seq 0 (Z.to_nat t)).

(** [sep in s] *)
Definition str_contains (sep s : string) : bool :=
  match String.index 0 sep s with Some _ => true | None => false end.

(** [s.split(sep)[0]] *)
Definition split_head (sep s : string) : string :=
  match String.index 0 sep s with
  | Some n => String.substring 0 n s
  | None => s
  end.

End Py.
Import Py.

Declare Scope res_scope.
Delimit Scope res_scope with res.
Notation "'do' x <- m ; k" := (Py.bind m (fun x => k))
(at level 10, x pattern, m at level 100, k at level 200) : res_scope.

(* ------------------------------------------------------------------ *)
(** ** numpy arrays and torch tensors                                  *)
(* ------------------------------------------------------------------ *)

Module Np.
Section Arrays.
Context {R : Type}.

Record ndarray : Type := mkArr { shape : list nat; item : list nat -> R }.

Definition ndim (a : ndarray) : nat := length (shape a).

(** Python index [b] into an axis of length [n]: negative indices count
    from the end, anything outside [-n, n) is an [IndexError]. *)
Definition resolve_index (n : nat) (b : Z) : option nat :=
  if ((0 <=? b) && (b <? Z.of_nat n))%Z then Some (Z.to_nat b)
  else if ((- Z.of_nat n <=? b) && (b <? 0))%Z then Some (Z.to_nat (b + Z.of_nat n))
  else None.

Fixpoint resolve_all (n : nat) (bs : list Z) : option (list nat) :=
  match bs with
  | [] => Some []
  | b :: bs' =>
      match resolve_index n b, resolve_all n bs' with
      | Some j, Some js => Some (j :: js)
      | _, _ => None
      end
  end.

(** positions of the [True] entries of a boolean mask, counted from [i] *)
Fixpoint mask_positions (i : nat) (mask : list bool) : list nat :=
  match mask with
  | [] => []
  | b :: mask' =>
      if b then i :: mask_positions (S i) mask' else mask_positions (S i) mask'
  end.

(** [a[None, ...]] *)
Definition expand_dims0 (a : ndarray) : ndarray :=
  mkArr (1 :: shape a) (fun idx => item a (tl idx)).

(** [a.transpose((2, 0, 1))] *)
Definition transpose_201 (a : ndarray) : res ndarray :=
  match shape a with
  | [s0; s1; s2] =>
      Ok (mkArr [s2; s0; s1]
            (fun idx => match idx with
                        | [k; i; j] => item a [i; j; k]
                        | _ => item a idx
                        end))
  | _ => Raise (ValueError "axes don't match array")
  end.

(** [a[:, :, bins]] with [bins] a sequence of integers *)
Definition take_axis2 (a : ndarray) (bins : list Z) : res ndarray :=
  match shape a with
  | s0 :: s1 :: s2 :: rest =>
      match resolve_all s2 bins with
      | Some js =>
          Ok (mkArr (s0 :: s1 :: length js :: rest)
                (fun idx => match idx with
                            | i :: j :: k :: r => item a (i :: j :: nth k js 0 :: r)
                            | _ => item a idx
                            end))
      | None => Raise (IndexError "index out of bounds for axis 2")
      end
  | _ => Raise (IndexError "too many indices for array")
  end.

(** [f(a, axis=-1)] for a reduction [f] such as [np.sum] or [np.mean] *)
Definition reduce_last (f : list R -> R) (a : ndarray) : res ndarray :=
  match rev (shape a) with
  | n :: front =>
      Ok (mkArr (rev front)
            (fun idx => f (map (fun k => item a (idx ++ [k])) (seq 0 n))))
  | [] => Raise (ValueError "axis -1 is out of bounds for array of dimension 0")
  end.

(** [a[mask]] with a one-dimensional boolean [mask] *)
Definition index_mask (a : ndarray) (mask : list bool) : res ndarray :=
  match shape a with
  | s0 :: rest =>
      if s0 =? length mask then
        let pos := mask_positions 0 mask in
        Ok (mkArr (length pos :: rest)
              (fun idx => match idx with
                          | i :: r => item a (nth i pos 0 :: r)
                          | _ => item a idx
                          end))
      else Raise (IndexError "boolean index did not match indexed array")
  | [] => Raise (IndexError "too many indices for array")
  end.

(** [a[idx]] with a one-dimensional integer [idx] *)
Definition index_ints (a : ndarray) (ix : list Z) : res ndarray :=
  match shape a with
  | s0 :: rest =>
      match resolve_all s0 ix with
      | Some pos =>
          Ok (mkArr (length pos :: rest)
                (fun idx => match idx with
                            | i :: r => item a (nth i pos 0 :: r)
                            | _ => item a idx
                            end))
      | None => Raise (IndexError "index out of bounds for axis 0")
      end
  | [] => Raise (IndexError "too many indices for array")
  end.

(** [np.concatenate([a, b], axis=0)] *)
Definition concatenate0 (a b : ndarray) : res ndarray :=
  match shape a, shape b with
  | sa :: ra, sb :: rb =>
      if list_eq_dec Nat.eq_dec ra rb then
        Ok (mkArr (sa + sb :: ra)
              (fun idx => match idx with
                          | i :: r => if i <? sa then item a (i :: r)
                                      else item b (i - sa :: r)
                          | _ => item a idx
                          end))
      else Raise (ValueError "all the input array dimensions except for the concatenation axis must match exactly")
  | _, _ => Raise (ValueError "zero-dimensional arrays cannot be concatenated")
  end.

(** [np.atleast_2d(a)], as [np.vstack] applies it to every operand *)
Definition atleast_2d (a : ndarray) : ndarray :=
  match shape a with
  | [] => mkArr [1; 1] (fun _ => item a [])
  | [n] => mkArr [1; n] (fun idx => item a (tl idx))
  | _ => a
  end.

(** [np.vstack([a, b])] *)
Definition vstack (a b : ndarray) : res ndarray :=
  concatenate0 (atleast_2d a) (atleast_2d b).

(** [a.T] *)
Definition transpose_all (a : ndarray) : ndarray :=
  mkArr (rev (shape a)) (fun idx => item a (rev idx)).

(** [a.astype(t)] for an elementwise cast [cast] *)
Definition astype (cast : R -> R) (a : ndarray) : ndarray :=
  mkArr (shape a) (fun idx => cast (item a idx)).

(** One-dimensional integer arrays (image ids) are lists. *)

(** [np.isin(ids, pool)] *)
Definition isin (ids pool : list Z) : list bool :=
  map (fun x => existsb (Z.eqb x) pool) ids.

(** [ids[mask]] *)
Definition ids_mask (ids : list Z) (mask : list bool) : res (list Z) :=
  if length ids =? length mask then
    Ok (map (fun p => nth p ids 0%Z) (mask_positions 0 mask))
  else Raise (IndexError "boolean index did not match indexed array").

(** [ids[idx]] *)
Definition ids_ints (ids : list Z) (ix : list Z) : res (list Z) :=
  match resolve_all (length ids) ix with
  | Some pos => Ok (map (fun p => nth p ids 0%Z) pos)
  | None => Raise (IndexError "index out of bounds for axis 0")
  end.

(** An index object returned by a library call: an integer or a boolean
    array. *)
Inductive np_index : Type :=
| IntIndex (ix : list Z)
| BoolIndex (mask : list bool).

Definition index_with (a : ndarray) (ix : np_index) : res ndarray :=
  match ix with
  | IntIndex l => index_ints a l
  | BoolIndex m => index_mask a m
  end.

Definition ids_with (ids : list Z) (ix : np_index) : res (list Z) :=
  match ix with
  | IntIndex l => ids_ints ids l
  | BoolIndex m => ids_mask ids m
  end.

End Arrays.
Arguments ndarray R : clear implicits.
End Np.
Import Np.

(* ------------------------------------------------------------------ *)
(** ** nnvision/models/readouts.py                                     *)
(* ------------------------------------------------------------------ *)

Module Readouts.

(** The readout classes of neuralpredictors and the one of this file
    ([DenseReadout]) that the factories instantiate. *)
Inductive readout_class : Type :=
| PointPooled2d | Gaussian2d | Attention2d | MultiHeadAttention2d
| SharedMultiHeadAttention2d | SpatialXFeatureLinear | FullGaussian2d
| RemappedGaussian2d | AttentionReadout | DenseReadout
| FullGaussian2dJointReadout.

(** [{'match_ids': ids, 'shared_grid': None if i == 0 else self[k0].shared_grid}]:
    [shared_from] names the session whose readout owns the shared object. *)
Record shared_arg : Type := mkShared {
  match_ids : value;
  shared_from : option string
}.

(** A readout as its constructor call: class, [in_shape], [outdims] and
    the remaining arguments. *)
Record readout : Type := mkReadout {
  r_class : readout_class;
  r_in_shape : list nat;
  r_outdims : nat;
  r_kwargs : dict value;
  r_shared_features : option shared_arg;
  r_shared_grid : option shared_arg;
  r_source_grid : option value
}.

Inductive module : Type :=
| Readout (r : readout)
| PositionalEncoding2D (d_model width height : nat)
    (learned dropout : value) (stack_channels : bool)
| LayerNorm (normalized_shape : list nat)
| Linear (in_features out_features : nat).

Definition is_readout (m : module) : bool :=
  match m with Readout _ => true | _ => false end.

(** A [torch.nn.ModuleDict] object: the registered submodules
    ([self._modules], which [len], [keys] and [self[k]] read) and the plain
    attributes. *)
Record module_dict : Type := mkModuleDict {
  modules : dict module;
  attrs : dict value
}.

(** What the code uses of torch and neuralpredictors. *)
Class Torch (R Core KW : Type) : Type := {
  (** [get_module_output(core, in_shape)]: the shape of the core's output *)
  get_module_output : Core -> list nat -> res (list nat);
  (** the library constructor of a readout, which may reject its arguments *)
  construct : readout -> res unit;
  (** calling a module on positional and keyword arguments *)
  call_module : module -> list (ndarray R) -> KW -> res (ndarray R);
  (** names that are attributes of every [ModuleDict] object *)
  class_attr : string -> bool
}.

Section Model.
Context {R Core KW : Type} `{T : Torch R Core KW}.
Local Open Scope res_scope.

Abbreviation tensor := (ndarray R).

(** [self.add_module(name, m)], where [own] are the plain attributes the
    object has at that point *)
Definition add_module (own : list string) (name : string) (m : module)
    (mods : dict module) : res (dict module) :=
  if (class_attr name || existsb (String.eqb name) own) && negb (dict_mem name mods)
  then Raise (KeyError "attribute already exists")
  else if str_contains "." name
  then Raise (KeyError "module name can't contain a dot")
  else if String.eqb name ""
  then Raise (KeyError "module name can't be empty string")
  else Ok (dict_set name m mods).

(** [get_module_output(core, in_shape_dict[k])[1:]] *)
Definition session_in_shape (core : Core) (in_shape_dict : dict (list nat))
    (k : string) : res (list nat) :=
  do shp <- dict_item k in_shape_dict;
  do out <- get_module_output core shp;
  Ok (tl out).

(** [self[data_key]]; [self[None]] is a [KeyError] *)
Definition getitem (mods : dict module) (data_key : option string) : res module :=
  match data_key with
  | Some k => dict_item k mods
  | None => Raise (KeyError "None")
  end.

(** *** [MultiReadout.forward] (lines 36-40) *)
Definition MultiReadout_forward (self : module_dict) (args : list tensor)
    (data_key : option string) (kwargs : KW) : res tensor :=
  let data_key :=
    match data_key with
    | None =>
        if length (modules self) =? 1
        then option_map fst (hd_error (modules self))
        else None
    | Some k => Some k
    end in
  do m <- getitem (modules self) data_key;
  call_module m args kwargs.

(** *** [MultipleGaussian2d.forward] (lines 82-85) *)
Definition MultipleGaussian2d_forward (self : module_dict) (args : list tensor)
    (data_key : option string) (kwargs : KW) : res tensor :=
  let data_key :=
    match data_key with
    | None =>
        if length (modules self) =? 1
        then option_map fst (hd_error (modules self))
        else None
    | Some k => Some k
    end in
  do m <- getitem (modules self) data_key;
  call_module m args kwargs.

(** *** [MultipleSelfAttention2d.forward] (lines 126-129) *)
Definition MultipleSelfAttention2d_forward (self : module_dict) (args : list tensor)
    (data_key : option string) (kwargs : KW) : res tensor :=
  let data_key :=
    match data_key with
    | None =>
        if length (modules self) =? 1
        then option_map fst (hd_error (modules self))
        else None
    | Some k => Some k
    end in
  do m <- getitem (modules self) data_key;
  call_module m args kwargs.

(** *** [MultipleMultiHeadAttention2d.forward] (lines 174-177) *)
Definition MultipleMultiHeadAttention2d_forward (self : module_dict)
    (args : list tensor) (data_key : option string) (kwargs : KW) : res tensor :=
  let data_key :=
    match data_key with
    | None =>
        if length (modules self) =? 1
        then option_map fst (hd_error (modules self))
        else None
    | Some k => Some k
    end in
  do m <- getitem (modules self) data_key;
  call_module m args kwargs.


(** *** The factories built on [MultiReadout] *)

Definition plain_readout (c : readout_class) (in_shape : list nat)
    (n_neurons : nat) (kwargs : dict value) : readout :=
  mkReadout c in_shape n_neurons kwargs None None None.

(** [self.add_module(k, cls(in_shape, n_neurons, ...))] for the session [k] *)
Definition register (own : list string) (k : string) (r : readout)
    (mods : dict module) : res (dict module) :=
  do _ <- construct r;
  add_module own k (Readout r) mods.

(** [MultiplePointPooled2d.__init__] (lines 50-63) *)
Definition MultiplePointPooled2d_init (core : Core)
    (in_shape_dict : dict (list nat)) (n_neurons_dict : dict nat)
    (pool_steps pool_kern bias init_range gamma_readout : value)
    : res module_dict :=
  do mods <- for_enumerate (fun _ k mods =>
      do in_shape <- session_in_shape core in_shape_dict k;
      do n_neurons <- dict_item k n_neurons_dict;
      register [] k
        (plain_readout PointPooled2d in_shape n_neurons
           [("pool_steps", pool_steps); ("pool_kern", pool_kern);
            ("bias", bias); ("init_range", init_range)]) mods)
    0 (dict_keys n_neurons_dict) [];
  Ok (mkModuleDict mods [("gamma_readout", gamma_readout)]).

(** [MultipleGaussian2d.__init__] (lines 66-80) *)
Definition MultipleGaussian2d_init (core : Core)
    (in_shape_dict : dict (list nat)) (n_neurons_dict : dict nat)
    (init_mu_range init_sigma_range bias gamma_readout : value)
    : res module_dict :=
  do mods <- for_enumerate (fun _ k mods =>
      do in_shape <- session_in_shape core in_shape_dict k;
      do n_neurons <- dict_item k n_neurons_dict;
      register [] k
        (plain_readout Gaussian2d in_shape n_neurons
           [("init_mu_range", init_mu_range);
            ("init_sigma_range", init_sigma_range); ("bias", bias)]) mods)
    0 (dict_keys n_neurons_dict) [];
  Ok (mkModuleDict mods [("gamma_readout", gamma_readout)]).

(** [MultipleSelfAttention2d.__init__] (lines 91-124) *)
Definition MultipleSelfAttention2d_init (core : Core)
    (in_shape_dict : dict (list nat)) (n_neurons_dict : dict nat)
    (bias gamma_features gamma_query use_pos_enc learned_pos dropout_pos
       stack_pos_encoding n_pos_channels temperature : value)
    : res module_dict :=
  do mods <- for_enumerate (fun _ k mods =>
      do in_shape <- session_in_shape core in_shape_dict k;
      do n_neurons <- dict_item k n_neurons_dict;
      register [] k
        (plain_readout Attention2d in_shape n_neurons
           [("bias", bias); ("use_pos_enc", use_pos_enc);
            ("learned_pos", learned_pos); ("dropout_pos", dropout_pos);
            ("stack_pos_encoding", stack_pos_encoding);
            ("n_pos_channels", n_pos_channels);
            ("temperature", temperature)]) mods)
    0 (dict_keys n_neurons_dict) [];
  Ok (mkModuleDict mods
        [("gamma_features", gamma_features); ("gamma_query", gamma_query)]).

(** [MultipleMultiHeadAttention2d.__init__] (lines 135-172) *)
Definition MultipleMultiHeadAttention2d_init (core : Core)
    (in_shape_dict : dict (list nat)) (n_neurons_dict : dict nat)
    (bias gamma_features gamma_query use_pos_enc learned_pos heads scale
       key_embedding value_embedding temperature dropout_pos layer_norm
       stack_pos_encoding n_pos_channels : value)
    : res module_dict :=
  do mods <- for_enumerate (fun _ k mods =>
      do in_shape <- session_in_shape core in_shape_dict k;
      do n_neurons <- dict_item k n_neurons_dict;
      register [] k
        (plain_readout MultiHeadAttention2d in_shape n_neurons
           [("bias", bias); ("use_pos_enc", use_pos_enc);
            ("learned_pos", learned_pos); ("heads", heads); ("scale", scale);
            ("key_embedding", key_embedding);
            ("value_embedding", value_embedding);
            ("temperature", temperature); ("dropout_pos", dropout_pos);
            ("layer_norm", layer_norm);
            ("stack_pos_encoding", stack_pos_encoding);
            ("n_pos_channels", n_pos_channels)]) mods)
    0 (dict_keys n_neurons_dict) [];
  Ok (mkModuleDict mods
        [("gamma_features", gamma_features); ("gamma_query", gamma_query)]).

(** [MultipleSpatialXFeatureLinear.__init__] (lines 310-326) *)
Definition MultipleSpatialXFeatureLinear_init (core : Core)
    (in_shape_dict : dict (list nat)) (n_neurons_dict : dict nat)
    (init_noise bias normalize gamma_readout constrain_pos : value)
    : res module_dict :=
  do mods <- for_enumerate (fun _ k mods =>
      do in_shape <- session_in_shape core in_shape_dict k;
      do n_neurons <- dict_item k n_neurons_dict;
      register [] k
        (plain_readout SpatialXFeatureLinear in_shape n_neurons
           [("init_noise", init_noise); ("bias", bias);
            ("normalize", normalize); ("constrain_pos", constrain_pos)]) mods)
    0 (dict_keys n_neurons_dict) [];
  Ok (mkModuleDict mods [("gamma_readout", gamma_readout)]).

(** [k0 = k0 or k] *)
Definition first_key (k0 : option string) (k : string) : string :=
  match k0 with
  | Some s => if String.eqb s "" then k else s
  | None => k
  end.

(** [d[k]] where [d] may be [None] *)
Definition subscript {V} (d : option (dict V)) (k : string) : res V :=
  match d with
  | Some d => dict_item k d
  | None => Raise (TypeError "'NoneType' object is not subscriptable")
  end.

(** [{'match_ids': shared_match_ids[k],
      'shared_...': None if i == 0 else self[k0].shared_...}] *)
Definition shared_dict (shared_match_ids : option (dict value)) (i : nat)
    (k k0 : string) (mods : dict module) : res shared_arg :=
  do ids <- subscript shared_match_ids k;
  if i =? 0 then Ok (mkShared ids None)
  else do _ <- dict_item k0 mods; Ok (mkShared ids (Some k0)).

(** The grid and feature sharing set up per session by the Gaussian
    factories (lines 344-363, 402-423, 694-713). *)
Definition grid_setup (grid_mean_predictor : value)
    (grid_mean_predictor_type : option string)
    (source_grids shared_match_ids : option (dict value))
    (share_features share_grid : bool)
    (i : nat) (k k0 : string) (mods : dict module)
    : res (option value * option shared_arg * option shared_arg) :=
  do (source_grid, shared_grid) <-
    match grid_mean_predictor with
    | PyNone =>
        if share_grid
        then do g <- shared_dict shared_match_ids i k k0 mods; Ok (None, Some g)
        else Ok (None, None)
    | _ =>
        match grid_mean_predictor_type with
        | Some "cortex" => do sg <- subscript source_grids k; Ok (Some sg, None)
        | Some other =>
            Raise (KeyError ("grid mean predictor " ++ other ++ " does not exist"))
        | None => Raise (KeyError "grid mean predictor None does not exist")
        end
    end;
  do shared_features <-
    (if share_features
     then do f <- shared_dict shared_match_ids i k k0 mods; Ok (Some f)
     else Ok None);
  Ok (source_grid, shared_grid, shared_features).

(** [MultipleFullGaussian2d.__init__] (lines 332-379) *)
Definition MultipleFullGaussian2d_init (core : Core)
    (in_shape_dict : dict (list nat)) (n_neurons_dict : dict nat)
    (init_mu_range init_sigma bias gamma_readout gauss_type
       grid_mean_predictor : value)
    (grid_mean_predictor_type : option string)
    (source_grids : option (dict value))
    (share_features share_grid : bool)
    (shared_match_ids : option (dict value))
    (gamma_grid_dispersion : value) : res module_dict :=
  do (_, mods) <- for_enumerate (fun i k '(k0, mods) =>
      let k0 := first_key k0 k in
      do in_shape <- session_in_shape core in_shape_dict k;
      do n_neurons <- dict_item k n_neurons_dict;
      do (source_grid, shared_grid, shared_features) <-
        grid_setup grid_mean_predictor grid_mean_predictor_type source_grids
          shared_match_ids share_features share_grid i k k0 mods;
      do mods' <- register [] k
        (mkReadout FullGaussian2d in_shape n_neurons
           [("init_mu_range", init_mu_range); ("init_sigma", init_sigma);
            ("bias", bias); ("gauss_type", gauss_type);
            ("grid_mean_predictor", grid_mean_predictor)]
           shared_features shared_grid source_grid) mods;
      Ok (Some k0, mods'))
    0 (dict_keys n_neurons_dict) (None, []);
  Ok (mkModuleDict mods
        [("gamma_readout", gamma_readout);
         ("gamma_grid_dispersion", gamma_grid_dispersion)]).

(** [MultipleRemappedGaussian2d.__init__] (lines 389-441) *)
Definition MultipleRemappedGaussian2d_init (core : Core)
    (in_shape_dict : dict (list nat)) (n_neurons_dict : dict nat)
    (remap_layers remap_kernel max_remap_amplitude init_mu_range init_sigma
       bias gamma_readout gauss_type grid_mean_predictor : value)
    (grid_mean_predictor_type : option string)
    (source_grids : option (dict value))
    (share_features share_grid : bool)
    (shared_match_ids : option (dict value)) : res module_dict :=
  do (_, mods) <- for_enumerate (fun i k '(k0, mods) =>
      let k0 := first_key k0 k in
      do in_shape <- session_in_shape core in_shape_dict k;
      do n_neurons <- dict_item k n_neurons_dict;
      do (source_grid, shared_grid, shared_features) <-
        grid_setup grid_mean_predictor grid_mean_predictor_type source_grids
          shared_match_ids share_features share_grid i k k0 mods;
      do mods' <- register [] k
        (mkReadout RemappedGaussian2d in_shape n_neurons
           [("remap_layers", remap_layers); ("remap_kernel", remap_kernel);
            ("max_remap_amplitude", max_remap_amplitude);
            ("init_mu_range", init_mu_range); ("init_sigma", init_sigma);
            ("bias", bias); ("gauss_type", gauss_type);
            ("grid_mean_predictor", grid_mean_predictor)]
           shared_features shared_grid source_grid) mods;
      Ok (Some k0, mods'))
    0 (dict_keys n_neurons_dict) (None, []);
  Ok (mkModuleDict mods [("gamma_readout", gamma_readout)]).

(** [MultipleAttention2d.__init__] (lines 444-473) *)
Definition MultipleAttention2d_init (core : Core)
    (in_shape_dict : dict (list nat)) (n_neurons_dict : dict nat)
    (attention_layers attention_kernel bias gamma_readout : value)
    : res module_dict :=
  do (_, mods) <- for_enumerate (fun i k '(k0, mods) =>
      let k0 := first_key k0 k in
      do in_shape <- session_in_shape core in_shape_dict k;
      do n_neurons <- dict_item k n_neurons_dict;
      do mods' <- register [] k
        (plain_readout AttentionReadout in_shape n_neurons
           [("attention_layers", attention_layers);
            ("attention_kernel", attention_kernel); ("bias", bias)]) mods;
      Ok (Some k0, mods'))
    0 (dict_keys n_neurons_dict) (None, []);
  Ok (mkModuleDict mods [("gamma_readout", gamma_readout)]).

(** [DenseReadout.__init__] (lines 481-497): [c, w, h = in_shape] needs
    three dimensions; the linear layer has [c*w*h] inputs. *)
Definition DenseReadout_init (in_shape : list nat) (outdims : nat)
    (bias init_noise : value) : res (readout * module) :=
  match in_shape with
  | [c; w; h] =>
      Ok (plain_readout DenseReadout in_shape outdims
            [("bias", bias); ("init_noise", init_noise)],
          Linear (c * w * h) outdims)
  | _ => Raise (ValueError "not enough or too many values to unpack (expected 3)")
  end.

(** [MultipleDense.__init__] (lines 528-555) *)
Definition MultipleDense_init (core : Core)
    (in_shape_dict : dict (list nat)) (n_neurons_dict : dict nat)
    (bias gamma_readout init_noise : value) : res module_dict :=
  do (_, mods) <- for_enumerate (fun i k '(k0, mods) =>
      let k0 := first_key k0 k in
      do in_shape <- session_in_shape core in_shape_dict k;
      do n_neurons <- dict_item k n_neurons_dict;
      do (r, _) <- DenseReadout_init in_shape n_neurons bias init_noise;
      do mods' <- add_module [] k (Readout r) mods;
      Ok (Some k0, mods'))
    0 (dict_keys n_neurons_dict) (None, []);
  Ok (mkModuleDict mods [("gamma_readout", gamma_readout)]).

(** [MultipleFullGaussian2dJointReadout.__init__] (lines 658-739) *)
Definition MultipleFullGaussian2dJointReadout_init (core : Core)
    (in_shape_dict : dict (list nat)) (n_neurons_dict : dict nat)
    (state_dict : option (dict value))
    (readout_split requires_grad_1 requires_grad_2 fields_to_initialize
       init_features_zeros init_mu_range init_sigma bias gamma_readout
       gauss_type grid_mean_predictor : value)
    (grid_mean_predictor_type : option string)
    (source_grids : option (dict value))
    (share_features share_grid : bool)
    (shared_match_ids : option (dict value))
    (gamma_grid_dispersion : value) : res module_dict :=
  do (_, mods) <- for_enumerate (fun i k '(k0, mods) =>
      let k0 := first_key k0 k in
      do in_shape <- session_in_shape core in_shape_dict k;
      do n_neurons <- dict_item k n_neurons_dict;
      do (source_grid, shared_grid, shared_features) <-
        grid_setup grid_mean_predictor grid_mean_predictor_type source_grids
          shared_match_ids share_features share_grid i k k0 mods;
      do state_dict_key <-
        match state_dict with
        | Some (_ :: _ as d) => dict_item k d
        | _ => Ok PyNone
        end;
      do mods' <- register [] k
        (mkReadout FullGaussian2dJointReadout in_shape n_neurons
           [("state_dict_session", state_dict_key);
            ("readout_split", readout_split);
            ("requires_grad_1", requires_grad_1);
            ("requires_grad_2", requires_grad_2);
            ("fields_to_initialize", fields_to_initialize);
            ("init_features_zeros", init_features_zeros);
            ("init_mu_range", init_mu_range); ("init_sigma", init_sigma);
            ("bias", bias); ("gauss_type", gauss_type);
            ("grid_mean_predictor", grid_mean_predictor)]
           shared_features shared_grid source_grid) mods;
      Ok (Some k0, mods'))
    0 (dict_keys n_neurons_dict) (None, []);
  Ok (mkModuleDict mods
        [("gamma_readout", gamma_readout);
         ("gamma_grid_dispersion", gamma_grid_dispersion)]).


(** *** Tensor reshaping used by the shared attention readout *)

(** [x.size()] unpacked into four names *)
Definition size4 (x : tensor) : res (nat * nat * nat * nat) :=
  match shape x with
  | [i; c; w; h] => Ok (i, c, w, h)
  | _ => Raise (ValueError "not enough or too many values to unpack (expected 4)")
  end.

(** [x.flatten(2, 3)] of a four-dimensional tensor *)
Definition flatten_2_3 (x : tensor) : tensor :=
  match shape x with
  | [i; c; w; h] =>
      mkArr [i; c; w * h]
        (fun idx => match idx with
                    | [a; cc; s] => item x [a; cc; s / h; s mod h]
                    | _ => item x idx
                    end)
  | _ => x
  end.

(** einops: an axis of length [len] split by a known factor [known] *)
Definition divide_axis (len known : nat) : res nat :=
  if known =? 0 then Raise ZeroDivisionError
  else if len mod known =? 0 then Ok (len / known)
  else Raise (EinopsError "Shape mismatch, can't divide axis").

(** [rearrange(t, "i c s -> (i s) c")] *)
Definition rearrange_ics_is_c (t : tensor) : res tensor :=
  match shape t with
  | [i; c; s] =>
      Ok (mkArr [i * s; c]
            (fun idx => match idx with
                        | [p; cc] => item t [p / s; cc; p mod s]
                        | _ => item t idx
                        end))
  | _ => Raise (EinopsError "Wrong shape: expected 3 dims")
  end.

(** [rearrange(t, "(i s) (h d) -> i h d s", h=heads, i=i)] *)
Definition rearrange_is_hd_ihds (t : tensor) (heads i : nat) : res tensor :=
  match shape t with
  | [n; m] =>
      do s <- divide_axis n i;
      do d <- divide_axis m heads;
      Ok (mkArr [i; heads; d; s]
            (fun idx => match idx with
                        | [a; hh; dd; ss] => item t [a * s + ss; hh * d + dd]
                        | _ => item t idx
                        end))
  | _ => Raise (EinopsError "Wrong shape: expected 2 dims")
  end.

(** [rearrange(t, "i (h d) s -> i h d s", h=heads)] *)
Definition rearrange_ihds (t : tensor) (heads : nat) : res tensor :=
  match shape t with
  | [i; c; s] =>
      do d <- divide_axis c heads;
      Ok (mkArr [i; heads; d; s]
            (fun idx => match idx with
                        | [a; hh; dd; ss] => item t [a; hh * d + dd; ss]
                        | _ => item t idx
                        end))
  | _ => Raise (EinopsError "Wrong shape: expected 3 dims")
  end.

(** the index [idx] with its last coordinate shifted by [off] *)
Definition shift_last (off : nat) (idx : list nat) : list nat :=
  match rev idx with
  | j :: front => rev front ++ [j + off]
  | [] => []
  end.

(** [key, value = t.chunk(2, dim=-1)]: chunks of size [ceil(m/2)] along
    the last axis; a last axis of length one gives a single chunk, which
    cannot be unpacked into two names. *)
Definition chunk2 (t : tensor) : res (tensor * tensor) :=
  match rev (shape t) with
  | m :: front =>
      let cs := (m + 1) / 2 in
      if (m =? 0) || (cs <? m) then
        Ok (mkArr (rev front ++ [cs]) (item t),
            mkArr (rev front ++ [m - cs]) (fun idx => item t (shift_last cs idx)))
      else Raise (ValueError "not enough values to unpack (expected 2, got 1)")
  | [] => Raise (IndexError "Dimension out of range")
  end.

(** *** [MultipleSharedMultiHeadAttention2d] *)

Record shared_attention : Type := mkSharedAttention {
  sa_modules : dict module;
  sa_n_data_keys : nat;
  sa_heads : nat;
  sa_key_embedding : bool;
  sa_value_embedding : bool;
  sa_use_pos_enc : bool;
  (** [self.norm] is the plain attribute [None] (no layer norm) *)
  sa_norm_is_none : bool;
  sa_gamma_features : value;
  sa_gamma_query : value;
  sa_gamma_embedding : value
}.

(** [bool(n_pos_channels)] *)
Definition truthy (n : option nat) : bool :=
  match n with
  | Some n => negb (n =? 0)
  | None => false
  end.

Definition pos_encoding_error : string :=
  "when stacking the position embedding, the number of channels must be specified.Similarly, when not stacking the position embedding, n_pos_channels must be None".

(** the plain attributes set before the sessions are registered *)
Definition shared_own_attrs (layer_norm : bool) : list string :=
  ["n_data_keys"; "heads"; "key_embedding"; "value_embedding"; "use_pos_enc"]
  ++ (if layer_norm then [] else ["norm"]).

(** [__init__] (lines 184-266) *)
Definition MultipleSharedMultiHeadAttention2d_init (core : Core)
    (in_shape_dict : dict (list nat)) (n_neurons_dict : dict nat)
    (bias gamma_features gamma_query gamma_embedding : value)
    (use_pos_enc : bool) (learned_pos : value) (heads : nat) (scale : value)
    (key_embedding value_embedding : bool) (temperature dropout_pos : value)
    (layer_norm stack_pos_encoding : bool)
    (n_pos_channels embed_out_dim : option nat) : res shared_attention :=
  if xorb (truthy n_pos_channels) stack_pos_encoding
  then Raise (ValueError pos_encoding_error)
  else
    do k <- list_first (dict_keys in_shape_dict);
    do in_shape <- session_in_shape core in_shape_dict k;
    do (c, w, h) <-
      match in_shape with
      | [c; w; h] => Ok (c, w, h)
      | _ => Raise (ValueError "not enough or too many values to unpack (expected 3)")
      end;
    let c :=
      if truthy n_pos_channels && stack_pos_encoding
      then c + match n_pos_channels with Some n => n | None => 0 end
      else c in
    let c_out := if truthy embed_out_dim
                 then match embed_out_dim with Some n => n | None => 0 end
                 else c in
    let d_model := if truthy n_pos_channels
                   then match n_pos_channels with Some n => n | None => 0 end
                   else c in
    let mods := [] in
    let mods :=
      if use_pos_enc
      then dict_set "position_embedding"
             (PositionalEncoding2D d_model w h learned_pos dropout_pos
                stack_pos_encoding) mods
      else mods in
    let mods :=
      if layer_norm then dict_set "norm" (LayerNorm [c; w * h]) mods else mods in
    let mods :=
      if key_embedding && value_embedding
      then dict_set "to_kv" (Linear c (c_out * 2)) mods
      else if key_embedding
      then dict_set "to_key" (Linear c c_out) mods
      else mods in
    do mods <- for_enumerate (fun _ k mods =>
        do in_shape <- session_in_shape core in_shape_dict k;
        do n_neurons <- dict_item k n_neurons_dict;
        register (shared_own_attrs layer_norm) k
          (plain_readout SharedMultiHeadAttention2d in_shape n_neurons
             [("bias", bias); ("use_pos_enc", PyBool false);
              ("key_embedding", PyBool key_embedding);
              ("value_embedding", PyBool value_embedding);
              ("heads", PyInt (Z.of_nat heads)); ("scale", scale);
              ("temperature", temperature);
              ("layer_norm", PyBool layer_norm);
              ("stack_pos_encoding", PyBool stack_pos_encoding);
              ("n_pos_channels",
               match n_pos_channels with
               | Some n => PyInt (Z.of_nat n) | None => PyNone end);
              ("embed_out_dim",
               match embed_out_dim with
               | Some n => PyInt (Z.of_nat n) | None => PyNone end)]) mods)
      0 (dict_keys n_neurons_dict) mods;
    Ok (mkSharedAttention mods (length n_neurons_dict) heads key_embedding
          value_embedding use_pos_enc (negb layer_norm)
          gamma_features gamma_query gamma_embedding).

(** [self.name] for a registered submodule *)
Definition getattr_module (self : shared_attention) (name : string) : res module :=
  match dict_get name (sa_modules self) with
  | Some m => Ok m
  | None => Raise (AttributeError name)
  end.

(** the embedding of lines 272-278: positional embedding when
    [use_pos_enc], then layer norm when configured *)
Definition embed (self : shared_attention) (x : tensor) (kwargs0 : KW) : res tensor :=
  do x_embed <-
    (if sa_use_pos_enc self
     then do pe <- getattr_module self "position_embedding";
          call_module pe [x] kwargs0
     else Ok x);
  if sa_norm_is_none self then Ok x_embed
  else do nm <- getattr_module self "norm"; call_module nm [x_embed] kwargs0.

(** the [(key, value)] pair that [forward] builds from [x]
    (lines 270-290) *)
Definition key_value (self : shared_attention) (x : tensor) (kwargs0 : KW)
    : res (tensor * tensor) :=
  do (i, c, w, h) <- size4 x;
  let x := flatten_2_3 x in
  do x_embed <- embed self x kwargs0;
  if sa_key_embedding self && sa_value_embedding self then
    do to_kv <- getattr_module self "to_kv";
    do flat <- rearrange_ics_is_c x_embed;
    do kv <- call_module to_kv [flat] kwargs0;
    do (key, value) <- chunk2 kv;
    do key <- rearrange_is_hd_ihds key (sa_heads self) i;
    do value <- rearrange_is_hd_ihds value (sa_heads self) i;
    Ok (key, value)
  else if sa_key_embedding self then
    do to_key <- getattr_module self "to_key";
    do flat <- rearrange_ics_is_c x_embed;
    do key <- call_module to_key [flat] kwargs0;
    do key <- rearrange_is_hd_ihds key (sa_heads self) i;
    do value <- rearrange_ihds x (sa_heads self);
    Ok (key, value)
  else
    do key <- rearrange_ihds x_embed (sa_heads self);
    do value <- rearrange_ihds x (sa_heads self);
    Ok (key, value).

(** [forward] (lines 268-294); [kwargs0] is the empty keyword dictionary of
    the internal calls *)
Definition MultipleSharedMultiHeadAttention2d_forward (kwargs0 : KW)
    (self : shared_attention) (x : tensor) (data_key : option string)
    (kwargs : KW) : res tensor :=
  do (key, value) <- key_value self x kwargs0;
  let data_key :=
    match data_key with
    | None =>
        if length (sa_modules self) =? 1
        then option_map fst (hd_error (sa_modules self))
        else None
    | Some k => Some k
    end in
  do m <- getitem (sa_modules self) data_key;
  call_module m [key; value] kwargs.


(** *** All factories at once *)

(** A factory class together with its hyperparameters. *)
Inductive factory : Type :=
| FPointPooled2d (pool_steps pool_kern bias init_range gamma_readout : value)
| FGaussian2d (init_mu_range init_sigma_range bias gamma_readout : value)
| FSelfAttention2d
    (bias gamma_features gamma_query use_pos_enc learned_pos dropout_pos
       stack_pos_encoding n_pos_channels temperature : value)
| FMultiHeadAttention2d
    (bias gamma_features gamma_query use_pos_enc learned_pos heads scale
       key_embedding value_embedding temperature dropout_pos layer_norm
       stack_pos_encoding n_pos_channels : value)
| FSharedMultiHeadAttention2d
    (bias gamma_features gamma_query gamma_embedding : value)
    (use_pos_enc : bool) (learned_pos : value) (heads : nat) (scale : value)
    (key_embedding value_embedding : bool) (temperature dropout_pos : value)
    (layer_norm stack_pos_encoding : bool)
    (n_pos_channels embed_out_dim : option nat)
| FSpatialXFeatureLinear
    (init_noise bias normalize gamma_readout constrain_pos : value)
| FFullGaussian2d
    (init_mu_range init_sigma bias gamma_readout gauss_type
       grid_mean_predictor : value)
    (grid_mean_predictor_type : option string)
    (source_grids : option (dict value))
    (share_features share_grid : bool)
    (shared_match_ids : option (dict value))
    (gamma_grid_dispersion : value)
| FRemappedGaussian2d
    (remap_layers remap_kernel max_remap_amplitude init_mu_range init_sigma
       bias gamma_readout gauss_type grid_mean_predictor : value)
    (grid_mean_predictor_type : option string)
    (source_grids : option (dict value))
    (share_features share_grid : bool)
    (shared_match_ids : option (dict value))
| FAttention2d (attention_layers attention_kernel bias gamma_readout : value)
| FDense (bias gamma_readout init_noise : value)
| FFullGaussian2dJointReadout
    (state_dict : option (dict value))
    (readout_split requires_grad_1 requires_grad_2 fields_to_initialize
       init_features_zeros init_mu_range init_sigma bias gamma_readout
       gauss_type grid_mean_predictor : value)
    (grid_mean_predictor_type : option string)
    (source_grids : option (dict value))
    (share_features share_grid : bool)
    (shared_match_ids : option (dict value))
    (gamma_grid_dispersion : value).

(** the submodules registered by constructing [f] from a core and the two
    dictionaries *)
Definition construct_factory (f : factory) (core : Core)
    (in_shape_dict : dict (list nat)) (n_neurons_dict : dict nat)
    : res (dict module) :=
  let mods := fun r : res module_dict => Py.bind r (fun s => Ok (modules s)) in
  match f with
  | FPointPooled2d a b c d e =>
      mods (MultiplePointPooled2d_init core in_shape_dict n_neurons_dict a b c d e)
  | FGaussian2d a b c d =>
      mods (MultipleGaussian2d_init core in_shape_dict n_neurons_dict a b c d)
  | FSelfAttention2d a b c d e f g h i =>
      mods (MultipleSelfAttention2d_init core in_shape_dict n_neurons_dict
              a b c d e f g h i)
  | FMultiHeadAttention2d a b c d e f g h i j k l m n =>
      mods (MultipleMultiHeadAttention2d_init core in_shape_dict n_neurons_dict
              a b c d e f g h i j k l m n)
  | FSharedMultiHeadAttention2d a b c d e f g h i j k l m n o p =>
      Py.bind (MultipleSharedMultiHeadAttention2d_init core in_shape_dict
                 n_neurons_dict a b c d e f g h i j k l m n o p)
        (fun s => Ok (sa_modules s))
  | FSpatialXFeatureLinear a b c d e =>
      mods (MultipleSpatialXFeatureLinear_init core in_shape_dict n_neurons_dict
              a b c d e)
  | FFullGaussian2d a b c d e f g h i j k l =>
      mods (MultipleFullGaussian2d_init core in_shape_dict n_neurons_dict
              a b c d e f g h i j k l)
  | FRemappedGaussian2d a b c d e f g h i j k l m n =>
      mods (MultipleRemappedGaussian2d_init core in_shape_dict n_neurons_dict
              a b c d e f g h i j k l m n)
  | FAttention2d a b c d =>
      mods (MultipleAttention2d_init core in_shape_dict n_neurons_dict a b c d)
  | FDense a b c =>
      mods (MultipleDense_init core in_shape_dict n_neurons_dict a b c)
  | FFullGaussian2dJointReadout a b c d e f g h i j k l m n o p q r =>
      mods (MultipleFullGaussian2dJointReadout_init core in_shape_dict
              n_neurons_dict a b c d e f g h i j k l m n o p q r)
  end.

(** [r] is a readout for the session [k]: its output dimension is
    [n_neurons_dict[k]] and its input shape is
    [get_module_output(core, in_shape_dict[k])[1:]]. *)
Definition session_readout (core : Core) (in_shape_dict : dict (list nat))
    (n_neurons_dict : dict nat) (k : string) (r : readout) : Prop :=
  exists shp out n,
    dict_get k in_shape_dict = Some shp /\
    get_module_output core shp = Ok out /\
    r_in_shape r = tl out /\
    dict_get k n_neurons_dict = Some n /\
    r_outdims r = n.

(** After the sessions [done], every one of them has its readout among
    [mods], [mods] holds no other readout, and no key twice. *)
Definition sessions_registered (core : Core) (in_shape_dict : dict (list nat))
    (n_neurons_dict : dict nat) (done : list string) (mods : dict module) : Prop :=
  NoDup (dict_keys mods) /\
  (forall k, In k done ->
     exists r, dict_get k mods = Some (Readout r) /\
               session_readout core in_shape_dict n_neurons_dict k r) /\
  (forall k m, dict_get k mods = Some m -> is_readout m = true -> In k done).


(** *** The forward pass as claim C3 and claim C5 word it *)

(** C3: the readout registered under the session key, applied to [x]. *)
Definition forward_applied_to_x (mods : dict module) (x : tensor)
    (data_key : string) (kwargs : KW) : res tensor :=
  do m <- dict_item data_key mods;
  call_module m [x] kwargs.

(** C5: the key always comes from the shared linear embedding of [x_embed],
    and so does the value whenever [value_embedding] is set. *)
Definition key_value_as_claimed (self : shared_attention) (x : tensor) (kwargs0 : KW)
    : res (tensor * tensor) :=
  do (i, c, w, h) <- size4 x;
  let x := flatten_2_3 x in
  do x_embed <- embed self x kwargs0;
  do flat <- rearrange_ics_is_c x_embed;
  if sa_value_embedding self then
    do to_kv <- getattr_module self "to_kv";
    do kv <- call_module to_kv [flat] kwargs0;
    do (key, value) <- chunk2 kv;
    do key <- rearrange_is_hd_ihds key (sa_heads self) i;
    do value <- rearrange_is_hd_ihds value (sa_heads self) i;
    Ok (key, value)
  else
    do to_key <- getattr_module self "to_key";
    do key <- call_module to_key [flat] kwargs0;
    do key <- rearrange_is_hd_ihds key (sa_heads self) i;
    do value <- rearrange_ihds x (sa_heads self);
    Ok (key, value).

(** *** What the reshaping steps mean, index by index *)

(** [xf] is [x] of shape [(i, c, w, h)] with its two spatial axes merged *)
Definition flattened (x xf : tensor) (i c w h : nat) : Prop :=
  shape xf = [i; c; w * h] /\
  forall a cc s, item xf [a; cc; s] = item x [a; cc; s / h; s mod h].

(** [flat] lists the columns of [t], one row per image and position *)
Definition rows_of (t flat : tensor) : Prop :=
  exists i c s,
    shape t = [i; c; s] /\ shape flat = [i * s; c] /\
    forall p cc, item flat [p; cc] = item t [p / s; cc; p mod s].

(** [v] is [t] of shape [(i, c, s)] with its channels split into [heads]
    groups of [d]: shape [(i, heads, d, s)] with [heads * d = c] *)
Definition split_heads (heads : nat) (t v : tensor) : Prop :=
  exists i c s d,
    shape t = [i; c; s] /\ heads * d = c /\ shape v = [i; heads; d; s] /\
    forall a hh dd ss, item v [a; hh; dd; ss] = item t [a; hh * d + dd; ss].

(** [v] is the matrix [t], one row per image and position, brought to shape
    [(i, heads, d, s)] with [heads * d] the number of columns *)
Definition split_heads_of_rows (heads i : nat) (t v : tensor) : Prop :=
  exists n m s d,
    shape t = [n; m] /\ i * s = n /\ heads * d = m /\
    shape v = [i; heads; d; s] /\
    forall a hh dd ss, item v [a; hh; dd; ss] = item t [a * s + ss; hh * d + dd].

(** [k] and [v] are the left and the right half of the columns of [t] *)
Definition halves (t k v : tensor) : Prop :=
  exists front m,
    shape t = (front ++ [m])%list /\
    shape k = (front ++ [(m + 1) / 2])%list /\
    shape v = (front ++ [m - (m + 1) / 2])%list /\
    (forall idx, item k idx = item t idx) /\
    (forall p q, item v [p; q] = item t [p; q + (m + 1) / 2]).

End Model.
End Readouts.

(* ------------------------------------------------------------------ *)
(** ** nnvision/datasets/monkey_loaders.py                             *)
(* ------------------------------------------------------------------ *)

Module Loaders.

(** [crop]: an int, or a sequence of [(side, side)] tuples *)
Inductive crop_arg : Type :=
| CropInt (c : Z)
| CropSeq (l : list (Z * Z)).

(** [time_bins_sum]: [None], an int, or a sequence of ints *)
Inductive time_bins : Type :=
| TbNone
| TbInt (t : Z)
| TbSeq (l : list Z).

(** [image_frac]: a number or a sequence of numbers *)
Inductive frac_arg : Type :=
| FracOne (q : Q)
| FracSeq (l : list Q).

(** [stimulus_location] of the closed-loop loader: one non-iterable value
    ([None] included), or a sequence with one entry per file *)
Inductive stim_arg : Type :=
| StimOne (v : value)
| StimSeq (l : list value).

(** [raw_data["session_id"]] *)
Inductive session_id : Type :=
| SessStr (s : string)
| SessInt (z : Z).

(** The constructor call of an [ImageCache], and whether
    [zscore_images(update_stats=True)] has run on the object. *)
Record ImageCache : Type := mkCache {
  ic_path : string;
  ic_subsample : value;
  ic_crop : list (Z * Z);
  ic_scale : value;
  ic_img_mean : kwarg value;
  ic_img_std : kwarg value;
  ic_transform : bool;
  ic_normalize : bool;
  ic_zscored : bool
}.

(** [data_info[data_key]] *)
Record session_info : Type := mkInfo {
  input_dimensions : list nat;
  input_channels : nat;
  output_dimension : nat;
  info_img_mean : value;
  info_img_std : value
}.

Record static_args : Type := mkStaticArgs {
  dataset : string;
  neuronal_data_files : list string;
  image_cache_path : string;
  batch_size : Z;
  seed : option Z;
  train_frac : Q;
  subsample : value;
  crop : crop_arg;
  scale : value;
  time_bins_sum : time_bins;
  avg : bool;
  image_file : value;
  return_data_info : bool;
  store_data_info : bool;
  image_frac : frac_arg;
  image_selection_seed : option Z;
  randomize_image_selection : bool;
  img_mean : value;
  img_std : value;
  stimulus_location : option value;
  monitor_scaling_factor : Q;
  train_shuffle : bool;
  validation_shuffle : bool
}.

Record mua_args : Type := mkMuaArgs {
  m_dataset : string;
  m_neuronal_data_files : list string;
  m_mua_data_files : list string;
  m_image_cache_path : string;
  m_batch_size : Z;
  m_seed : option Z;
  m_train_frac : Q;
  m_subsample : value;
  m_crop : crop_arg;
  m_scale : value;
  m_time_bins_sum : time_bins;
  m_avg : bool;
  m_image_file : value;
  m_return_data_info : bool;
  m_store_data_info : bool;
  m_mua_selector : option (dict (list bool));
  m_add_eye_movement : bool
}.

Record closed_loop_args : Type := mkClosedLoopArgs {
  c_dataset : string;
  c_neuronal_data_files : list string;
  c_image_cache_path : string;
  c_batch_size : Z;
  c_seed : option Z;
  c_train_frac : Q;
  c_subsample : value;
  c_crop : crop_arg;
  c_scale : value;
  c_time_bins_sum : time_bins;
  c_avg : bool;
  c_image_file : value;
  c_return_data_info : bool;
  c_store_data_info : bool;
  c_image_frac : frac_arg;
  c_image_selection_seed : option Z;
  c_randomize_image_selection : bool;
  c_stimulus_location : stim_arg;
  c_img_mean : value;
  c_img_std : value;
  c_include_mei_training : bool;
  c_include_control_training : bool
}.

(** [dataset_config = locals()]: the arguments as the call received them *)
Inductive config : Type :=
| StaticConfig (a : static_args)
| MuaConfig (a : mua_args)
| ClosedLoopConfig (a : closed_loop_args).

(** [str(raw_data["session_id"])] *)
Definition session_key (s : session_id) : string :=
  match s with
  | SessStr s => s
  | SessInt z => DecimalString.NilZero.string_of_int (Z.to_int z)
  end.

(** [os.path.join(a, b)] on POSIX paths *)
Definition path_join (a b : string) : string :=
  if String.prefix "/" b then b
  else if String.eqb a "" then b
  else if String.eqb (String.substring (String.length a - 1) 1 a) "/" then a ++ b
  else a ++ "/" ++ b.

(** [int(x)] of a float: truncation towards zero *)
Definition py_int (x : Q) : Z := Z.quot (Qnum x) (Zpos (Qden x)).

(** [x < 1] *)
Definition lt_one (x : Q) : bool := negb (Qle_bool 1 x).


Section Model.
Context {R : Type}.

(** The entries of a pickled session dictionary. *)
Inductive raw_value : Type :=
| RawSession (s : session_id)
| RawValue (v : value)
| RawIds (ids : list Z)
| RawArray (a : ndarray R).

(** What a pickle file holds: the data of a session, or stored statistics. *)
Inductive pickled : Type :=
| PickledRaw (d : dict raw_value)
| PickledInfo (d : dict session_info).

(** A dataloader as the call of [get_cached_loader] that made it.  The
    image cache is a reference to an object of the world, so that two
    loaders can share one cache. *)
Record DataLoader : Type := mkLoader {
  dl_image_ids : list Z;
  dl_responses : ndarray R;
  dl_extra : list (ndarray R);
  dl_batch_size : option Z;
  dl_shuffle : kwarg (option bool);
  dl_image_cache : nat;
  dl_repeat_condition : kwarg (list Z)
}.

Inductive loader_result : Type :=
| Dataloaders (d : dict (dict DataLoader))
| Stored (p : pickled).

Record World : Type := mkWorld {
  files : string -> option pickled;
  dirs : string -> bool;
  caches : list ImageCache;
  warnings : list string;
  printed : list string
}.

(** What the loaders use of numpy, scipy, nnfabrik, neuralpredictors and of
    [nnvision/datasets/utility.py]. *)
Class Deps : Type := {
  to_float32 : R -> R;
  np_sum : list R -> R;
  np_mean : list R -> R;
  scipy_zscore : ndarray R -> ndarray R;
  make_hash : config -> string;
  path_parent : string -> string;
  (** [get_validation_split(n_images, train_frac, seed)] *)
  get_validation_split : Q -> Q -> option Z -> list Z * list Z;
  (** [get_fraction_of_training_images(image_ids, fraction, seed)] *)
  get_fraction_of_training_images : list Z -> frac_arg -> option Z -> @np_index;
  (** [get_crop_from_stimulus_location(location, crop, monitor_scaling_factor)] *)
  get_crop_from_stimulus_location : value -> list (Z * Z) -> Q -> list (Z * Z);
  (** [len(cache)] *)
  cache_len : ImageCache -> nat;
  (** the statistics that [zscore_images(update_stats=True)] computes *)
  zscore_stats : ImageCache -> value * value;
  (** [next(iter(loader))._fields] *)
  batch_fields : DataLoader -> res (list string);
  (** [get_dims_for_loader_dict(loaders)] *)
  get_dims_for_loader_dict : dict DataLoader -> dict (dict (list nat))
}.

Context `{D : Deps}.

(** *** Effects: a state and exception monad over the world *)

Definition M (A : Type) : Type := World -> res A * World.

Definition ret {A} (a : A) : M A := fun w => (Ok a, w).
Definition raise {A} (e : exn) : M A := fun w => (Raise e, w).
Definition lift {A} (r : res A) : M A := fun w => (r, w).
Definition bindM {A B} (m : M A) (f : A -> M B) : M B :=
  fun w => match m w with
           | (Ok a, w') => f a w'
           | (Raise e, w') => (Raise e, w')
           end.

Notation "x <- m ;; k" := (bindM m (fun x => k))
  (at level 61, m at next level, right associativity).
Notation "' pat <- m ;; k" := (bindM m (fun x => match x with pat => k end))
  (at level 61, pat pattern, m at next level, right associativity).

(** [for i, x in enumerate(xs): s = body(i, x, s)] *)
Fixpoint for_files {St} (body : nat -> string -> St -> M St)
    (i : nat) (xs : list string) (s : St) : M St :=
  match xs with
  | [] => ret s
  | x :: xs' => s' <- body i x s ;; for_files body (S i) xs' s'
  end.

(** [os.path.exists(p)] *)
Definition os_path_exists (p : string) : M bool :=
  fun w => (Ok (match files w p with Some _ => true | None => dirs w p end), w).

(** [with open(p, "rb") as pkl: pickle.load(pkl)] *)
Definition pickle_load (p : string) : M pickled :=
  fun w => match files w p with
           | Some c => (Ok c, w)
           | None => (Raise (FileNotFoundError p), w)
           end.

(** [with open(p, "wb") as pkl: pickle.dump(c, pkl)] *)
Definition pickle_dump (p : string) (c : pickled) : M unit :=
  fun w => (Ok tt,
            mkWorld (fun q => if String.eqb q p then Some c else files w q)
              (dirs w) (caches w) (warnings w) (printed w)).

(** [os.mkdir(p)] *)
Definition os_mkdir (p : string) : M unit :=
  fun w =>
    match files w p with
    | Some _ => (Raise (FileExistsError p), w)
    | None =>
        if dirs w p then (Raise (FileExistsError p), w)
        else if dirs w (path_parent p) then
          (Ok tt, mkWorld (files w)
                    (fun q => if String.eqb q p then true else dirs w q)
                    (caches w) (warnings w) (printed w))
        else (Raise (FileNotFoundError p), w)
    end.

(** [ImageCache(...)]: a new object; the result is the reference to it *)
Definition new_cache (c : ImageCache) : M nat :=
  fun w => (Ok (length (caches w)),
            mkWorld (files w) (dirs w) (caches w ++ [c]) (warnings w) (printed w)).

Definition set_nth {A} (n : nat) (x : A) (l : list A) : list A :=
  firstn n l ++ match skipn n l with [] => [] | _ :: t => x :: t end.

(** the object behind a cache reference *)
Definition deref (c : nat) : M ImageCache :=
  fun w => match nth_error (caches w) c with
           | Some o => (Ok o, w)
           | None => (Raise (AttributeError "dangling cache reference"), w)
           end.

(** [cache.zscore_images(update_stats=True)] followed by reading
    [cache.img_mean] and [cache.img_std] *)
Definition zscore_images (c : nat) : M (value * value) :=
  o <- deref c ;;
  let '(mean, std) := zscore_stats o in
  fun w => (Ok (mean, std),
            mkWorld (files w) (dirs w)
              (set_nth c (mkCache (ic_path o) (ic_subsample o) (ic_crop o)
                            (ic_scale o) (Given mean) (Given std)
                            (ic_transform o) (ic_normalize o) true) (caches w))
              (warnings w) (printed w)).

(** [warnings.warn(msg)] *)
Definition warn (msg : string) : M unit :=
  fun w => (Ok tt, mkWorld (files w) (dirs w) (caches w)
                     (warnings w ++ [msg]) (printed w)).

(** [print(msg)] *)
Definition print (msg : string) : M unit :=
  fun w => (Ok tt, mkWorld (files w) (dirs w) (caches w)
                     (warnings w) (printed w ++ [msg])).

(** *** Reading a session dictionary *)

Definition raw_array (raw : dict raw_value) (k : string) : res (ndarray R) :=
  match dict_get k raw with
  | Some (RawArray a) => Ok (astype to_float32 a)
  | Some _ => Raise (AttributeError "astype")
  | None => Raise (KeyError k)
  end.

(** [raw_data[k] - image_id_offset] *)
Definition raw_ids (raw : dict raw_value) (k : string) (offset : Z) : res (list Z) :=
  match dict_get k raw with
  | Some (RawIds ids) => Ok (map (fun x => (x - offset)%Z) ids)
  | Some _ => Raise (TypeError "unsupported operand type(s) for -")
  | None => Raise (KeyError k)
  end.

(** [raw_data[k]] for ids that are used as they are *)
Definition raw_ids0 (raw : dict raw_value) (k : string) : res (list Z) :=
  match dict_get k raw with
  | Some (RawIds ids) => Ok ids
  | Some _ => Raise (TypeError "not an array of image ids")
  | None => Raise (KeyError k)
  end.

(** [str(raw_data["session_id"])] *)
Definition raw_session (raw : dict raw_value) : res string :=
  match dict_get "session_id" raw with
  | Some (RawSession s) => Ok (session_key s)
  | Some _ => Raise (TypeError "not a session id")
  | None => Raise (KeyError "session_id")
  end.

Definition load_raw (p : string) : M (dict raw_value) :=
  c <- pickle_load p ;;
  match c with
  | PickledRaw d => ret d
  | PickledInfo _ => raise (KeyError "subject_id")
  end.

(** *** The steps the three loaders share *)

(** lines 87-88: [if not isinstance(t, Iterable): t = tuple(range(t))];
    [range(None)] is a [TypeError] *)
Definition normalize_time_bins (t : time_bins) : res (list Z) :=
  match t with
  | TbNone => Raise (TypeError "'NoneType' object cannot be interpreted as an integer")
  | TbInt t => Ok (py_range t)
  | TbSeq l => Ok l
  end.

(** lines 90-91: [if isinstance(crop, int): crop = [(crop, crop), (crop, crop)]] *)
Definition normalize_crop (c : crop_arg) : list (Z * Z) :=
  match c with
  | CropInt c => [(c, c); (c, c)]
  | CropSeq l => l
  end.

(** lines 96-97 *)
Definition normalize_image_frac (f : frac_arg) (data_files : list string) : list Q :=
  match f with
  | FracOne q => map (fun _ => q) data_files
  | FracSeq l => l
  end.

(** lines 100-104 *)
Definition stats_path_of (cfg : config) (cache_path : string) : string * string :=
  let cache_path := split_head "individual" cache_path in
  (cache_path, path_join (path_join cache_path "statistics/") (make_hash cfg)).

(** [(np.mean if avg else np.sum)(responses[:, :, time_bins_sum], axis=-1)] *)
Definition reduce_bins (avg : bool) (bins : list Z) (a : ndarray R) : res (ndarray R) :=
  Py.bind (take_axis2 a bins) (reduce_last (if avg then np_mean else np_sum)).

Inductive early (A : Type) : Type :=
| Return (r : loader_result)
| Continue (a : A).
Arguments Return {A} r.
Arguments Continue {A} a.

(** lines 108-116: the statistics file exists *)
Definition cache_from_stats (stats_path : string) (return_info : bool)
    (mk : kwarg value -> kwarg value -> bool -> ImageCache)
    : M (early (nat * value * value)) :=
  data_info <- pickle_load stats_path ;;
  if return_info then ret (Return (Stored data_info))
  else
    match data_info with
    | PickledInfo d =>
        first <- lift (list_first (dict_values d)) ;;
        let mean := info_img_mean first in
        let std := info_img_std first in
        c <- new_cache (mk (Given mean) (Given std) true) ;;
        ret (Continue (c, mean, std))
    | PickledRaw d =>
        _ <- lift (list_first (dict_values d)) ;;
        raise (TypeError "stored statistics have no img_mean")
    end.

(** lines 123-129: a cache without normalization, z-scored on the spot *)
Definition cache_zscored (mk : kwarg value -> kwarg value -> bool -> ImageCache)
    : M (nat * value * value) :=
  c <- new_cache (mk Default Default false) ;;
  '(mean, std) <- zscore_images c ;;
  ret (c, mean, std).

(** lines 119-129: no statistics file *)
Definition cache_from_args (mean std : value)
    (mk : kwarg value -> kwarg value -> bool -> ImageCache)
    : M (nat * value * value) :=
  match mean with
  | PyNone => cache_zscored mk
  | _ => c <- new_cache (mk (Given mean) (Given std) true) ;; ret (c, mean, std)
  end.

(** lines 107-129: the image cache of the call, from the stored statistics
    when their file exists and by [fresh] otherwise, handed to the rest of
    the loader [run]; the stored statistics are returned at once when
    [return_data_info] asks for them *)
Definition with_cache (stats_path : string) (return_info : bool)
    (mk : kwarg value -> kwarg value -> bool -> ImageCache)
    (fresh : M (nat * value * value))
    (run : nat -> value -> value -> M loader_result) : M loader_result :=
  stats_exist <- os_path_exists stats_path ;;
  e <- (if stats_exist
        then cache_from_stats stats_path return_info mk
        else c <- fresh ;; ret (Continue c)) ;;
  match e with
  | Return r => ret r
  | Continue (cache, mean, std) => run cache mean std
  end.

Definition plos : string := "PlosCB19_V1".

(** lines 136-144: [(train_test_split, image_id_offset)] *)
Definition dataset_params (dataset : string) : Q * Z :=
  if String.eqb dataset plos then ((8 # 10)%Q, 1%Z) else (1%Q, 0%Z).

(** lines 185-192: the boolean masks and what they select *)
Definition split_ids (ids : list Z) (responses : ndarray R)
    (all_train_ids all_validation_ids : list Z)
    : res (list Z * ndarray R * list Z * ndarray R * list bool * list bool) :=
  let train_idx := isin ids all_train_ids in
  let val_idx := isin ids all_validation_ids in
  Py.bind (index_mask responses val_idx) (fun responses_val =>
  Py.bind (index_mask responses train_idx) (fun responses_train =>
  Py.bind (ids_mask ids val_idx) (fun validation_ids =>
  Py.bind (ids_mask ids train_idx) (fun training_ids =>
  Ok (training_ids, responses_train, validation_ids, responses_val,
      train_idx, val_idx))))).

(** [dataloaders[tier][data_key] = loader] *)
Definition set_loader (tier data_key : string) (l : DataLoader)
    (dls : dict (dict DataLoader)) : res (dict (dict DataLoader)) :=
  Py.bind (dict_item tier dls) (fun inner =>
  Ok (dict_set tier (dict_set data_key l inner) dls)).

(** [{k: f(v) for k, v in d.items()}] *)
Fixpoint dict_comprehension {A B} (f : A -> res B) (d : dict A) : res (dict B) :=
  match d with
  | [] => Ok []
  | (k, v) :: d' =>
      Py.bind (f v) (fun b =>
      Py.bind (dict_comprehension f d') (fun r => Ok ((k, b) :: r)))
  end.

Definition nth_dim (n : nat) (shp : list nat) : res nat :=
  match nth_error shp n with
  | Some x => Ok x
  | None => Raise (IndexError "tuple index out of range")
  end.

(** lines 208-228: compute and store the statistics of the call;
    [two_fields] tells whether all of [_fields] is unpacked into two names
    or only its first two entries *)
Definition store_info (stats_path : string) (two_fields : bool)
    (train : dict DataLoader) (mean std : value) : M (dict session_info) :=
  first <- lift (list_first (dict_values train)) ;;
  fields <- lift (batch_fields first) ;;
  '(in_name, out_name) <-
    lift (match (if two_fields then fields else firstn 2 fields) with
          | [a; b] => Ok (a, b)
          | _ => Raise (ValueError "not enough or too many values to unpack (expected 2)")
          end) ;;
  let session_shape_dict := get_dims_for_loader_dict train in
  n_neurons_dict <- lift (dict_comprehension
    (fun v => Py.bind (dict_item out_name v) (nth_dim 1)) session_shape_dict) ;;
  in_shapes_dict <- lift (dict_comprehension
    (fun v => dict_item in_name v) session_shape_dict) ;;
  in_channels <- lift (dict_comprehension
    (fun v => Py.bind (dict_item in_name v) (nth_dim 1)) session_shape_dict) ;;
  data_info <- lift (for_enumerate (fun _ k info =>
      Py.bind (dict_item k in_shapes_dict) (fun shp =>
      Py.bind (dict_item k in_channels) (fun ch =>
      Py.bind (dict_item k n_neurons_dict) (fun n =>
      Ok (dict_set k (mkInfo shp ch n mean std) info)))))
    0 (dict_keys session_shape_dict) []) ;;
  let base := path_parent stats_path in
  base_exists <- os_path_exists base ;;
  _ <- (if base_exists then ret tt else os_mkdir base) ;;
  _ <- pickle_dump stats_path (PickledInfo data_info) ;;
  ret data_info.


(** *** [monkey_static_loader] (lines 17-230) *)

(** What lines 153-183 leave of a session file. *)
Record session_data : Type := mkSession {
  sd_key : string;
  sd_training_ids : list Z;
  sd_responses_train : ndarray R;
  sd_testing_ids : list Z;
  sd_responses_test : ndarray R
}.

(** lines 163-176.  After line 88 [time_bins_sum] is a sequence, so the
    test of line 174 always succeeds. *)
Definition static_responses (dataset : string) (avg : bool) (bins : list Z)
    (data_key : string) (responses_train responses_test : ndarray R)
    : M (ndarray R * ndarray R) :=
  if String.eqb dataset plos then ret (responses_train, responses_test)
  else
    '(responses_train, responses_test) <-
      (if ndim responses_test =? 3 then ret (responses_train, responses_test)
       else
         _ <- (if String.eqb data_key "3653663964522" then ret tt
               else warn "Pickle file with invalid response shape detected") ;;
         ret (expand_dims0 responses_train, expand_dims0 responses_test)) ;;
    responses_test <- lift (transpose_201 responses_test) ;;
    responses_train <- lift (transpose_201 responses_train) ;;
    responses_train <- lift (reduce_bins avg bins responses_train) ;;
    responses_test <- lift (reduce_bins avg bins responses_test) ;;
    ret (responses_train, responses_test).

(** lines 178-183 *)
Definition select_fraction (fracs : list Q) (randomize : bool) (i : nat)
    (sel_seed : option Z) (ids : list Z) (responses : ndarray R)
    : res (option Z * list Z * ndarray R) :=
  match nth_error fracs i with
  | None => Raise (IndexError "list index out of range")
  | Some frac =>
      if lt_one frac then
        Py.bind
          (if randomize then
             match sel_seed with
             | Some s => Ok (Some (py_int (inject_Z s * frac)))
             | None => Raise (TypeError "unsupported operand type(s) for *")
             end
           else Ok sel_seed) (fun sel_seed =>
        let idx_out := get_fraction_of_training_images ids (FracOne frac) sel_seed in
        Py.bind (ids_with ids idx_out) (fun ids' =>
        Py.bind (index_with responses idx_out) (fun responses' =>
        Ok (sel_seed, ids', responses'))))
      else Ok (sel_seed, ids, responses)
  end.

(** lines 153-183 *)
Definition static_prepare (a : static_args) (bins : list Z) (fracs : list Q)
    (offset : Z) (i : nat) (datapath : string) (sel_seed : option Z)
    : M (option Z * session_data) :=
  raw <- load_raw datapath ;;
  _ <- lift (dict_item "subject_id" raw) ;;
  data_key <- lift (raw_session raw) ;;
  responses_train <- lift (raw_array raw "training_responses") ;;
  responses_test <- lift (raw_array raw "testing_responses") ;;
  training_image_ids <- lift (raw_ids raw "training_image_ids" offset) ;;
  testing_image_ids <- lift (raw_ids raw "testing_image_ids" offset) ;;
  '(responses_train, responses_test) <-
    static_responses (dataset a) (avg a) bins data_key responses_train responses_test ;;
  '(sel_seed, training_image_ids, responses_train) <-
    lift (select_fraction fracs (randomize_image_selection a) i sel_seed
            training_image_ids responses_train) ;;
  ret (sel_seed,
       mkSession data_key training_image_ids responses_train
         testing_image_ids responses_test).

(** lines 185-201: [(train_loader, val_loader, test_loader)] *)
Definition static_loaders (a : static_args) (all_train_ids all_validation_ids : list Z)
    (cache : nat) (sd : session_data) : res (DataLoader * DataLoader * DataLoader) :=
  Py.bind (split_ids (sd_training_ids sd) (sd_responses_train sd)
             all_train_ids all_validation_ids)
    (fun '(training_ids, responses_train, validation_ids, responses_val, _, _) =>
     Ok (mkLoader training_ids responses_train [] (Some (batch_size a))
           (Given (Some (train_shuffle a))) cache Default,
         mkLoader validation_ids responses_val [] (Some (batch_size a))
           (Given (Some (validation_shuffle a))) cache Default,
         mkLoader (sd_testing_ids sd) (sd_responses_test sd) [] None
           (Given (Some false)) cache (Given (sd_testing_ids sd)))).

(** lines 203-205 *)
Definition store_loaders (data_key : string)
    (ls : DataLoader * DataLoader * DataLoader)
    (dls : dict (dict DataLoader)) : res (dict (dict DataLoader)) :=
  let '(train_loader, val_loader, test_loader) := ls in
  Py.bind (set_loader "train" data_key train_loader dls) (fun dls =>
  Py.bind (set_loader "validation" data_key val_loader dls) (fun dls =>
  set_loader "test" data_key test_loader dls)).

(** one turn of the loop of lines 151-205 *)
Definition static_session (a : static_args) (bins : list Z) (fracs : list Q)
    (offset : Z) (all_train_ids all_validation_ids : list Z) (cache : nat)
    (i : nat) (datapath : string) (st : option Z * dict (dict DataLoader))
    : M (option Z * dict (dict DataLoader)) :=
  '(sel_seed, sd) <- static_prepare a bins fracs offset i datapath (fst st) ;;
  ls <- lift (static_loaders a all_train_ids all_validation_ids cache sd) ;;
  dls <- lift (store_loaders (sd_key sd) ls (snd st)) ;;
  ret (sel_seed, dls).

(** lines 90-94 *)
Definition static_crop (a : static_args) : list (Z * Z) :=
  let crop := normalize_crop (crop a) in
  match stimulus_location a with
  | Some loc => get_crop_from_stimulus_location loc crop (monitor_scaling_factor a)
  | None => crop
  end.

(** lines 208-230 *)
Definition finish (stats_path : string) (store return_info two_fields : bool)
    (mean std : value) (dls : dict (dict DataLoader)) : M loader_result :=
  stats_exist <- os_path_exists stats_path ;;
  data_info <-
    (if store && negb stats_exist then
       train <- lift (dict_item "train" dls) ;;
       store_info stats_path two_fields train mean std
     else ret []) ;;
  ret (if return_info then Stored (PickledInfo data_info) else Dataloaders dls).

(** the dictionary of line 85 *)
Definition empty_dataloaders : dict (dict DataLoader) :=
  [("train", []); ("validation", []); ("test", [])].

(** lines 132-230: the sessions, once the image cache exists *)
Definition static_run (a : static_args) (bins : list Z) (fracs : list Q)
    (stats_path : string) (cache : nat) (mean std : value) : M loader_result :=
  o <- deref cache ;;
  let n_images := cache_len o in
  let offset := snd (dataset_params (dataset a)) in
  let split :=
    get_validation_split
      (inject_Z (Z.of_nat n_images) * fst (dataset_params (dataset a)))
      (train_frac a) (seed a) in
  st <- for_files
          (static_session a bins fracs offset (fst split) (snd split) cache)
          0 (neuronal_data_files a) (image_selection_seed a, empty_dataloaders) ;;
  finish stats_path (store_data_info a) (return_data_info a) true mean std (snd st).

Definition monkey_static_loader (a : static_args) : M loader_result :=
  bins <- lift (normalize_time_bins (time_bins_sum a)) ;;
  let crop := static_crop a in
  let fracs := normalize_image_frac (image_frac a) (neuronal_data_files a) in
  let cache_path := fst (stats_path_of (StaticConfig a) (image_cache_path a)) in
  let stats_path := snd (stats_path_of (StaticConfig a) (image_cache_path a)) in
  let mk := fun mean std normalize =>
    mkCache cache_path (subsample a) crop (scale a) mean std true normalize false in
  with_cache stats_path (return_data_info a) mk
    (cache_from_args (img_mean a) (img_std a) mk)
    (static_run a bins fracs stats_path).

(** *** [monkey_mua_sua_loader] (lines 233-475) *)

(** lines 362-374: the z-scored eye positions of the training and the
    test images.  Line 374 raises a tuple, which is a [TypeError]. *)
Definition eye_positions (raw : dict raw_value) : res (ndarray R * ndarray R) :=
  if dict_mem "avg_horizontal_eye_position_training_images" raw then
    Py.bind (raw_array raw "avg_horizontal_eye_position_training_images") (fun h_train =>
    Py.bind (raw_array raw "avg_vertical_eye_position_training_images") (fun v_train =>
    Py.bind (raw_array raw "avg_horizontal_eye_position_testing_images") (fun h_test =>
    Py.bind (raw_array raw "avg_vertical_eye_position_testing_images") (fun v_test =>
    Py.bind (vstack h_train v_train) (fun e_train =>
    Py.bind (vstack h_test v_test) (fun e_test =>
    Ok (scipy_zscore (transpose_all e_train),
        scipy_zscore (transpose_all e_test))))))))
  else Raise (TypeError "exceptions must derive from BaseException").

(** What lines 382-389 take from the multi-unit file of a session. *)
Record mua_data : Type := mkMua {
  mua_responses_train : ndarray R;
  mua_responses_test : ndarray R;
  mua_training_image_ids : list Z;
  mua_testing_image_ids : list Z
}.

(** lines 377-390: the first multi-unit file of the session, if any;
    [bound] tells whether the loop has bound [mua_data] *)
Fixpoint find_mua (selector : option (dict (list bool))) (offset : Z)
    (data_key : string) (mua_files : list string) (bound : bool)
    : M (bool * option mua_data) :=
  match mua_files with
  | [] => ret (bound, None)
  | p :: rest =>
      raw <- load_raw p ;;
      key <- lift (raw_session raw) ;;
      if String.eqb key data_key then
        selected <-
          lift (match selector with
                | Some sel => dict_item data_key sel
                | None =>
                    Py.bind (raw_ids0 raw "unit_ids") (fun units =>
                    Ok (map (fun _ => true) units))
                end) ;;
        r_train <- lift (Py.bind (raw_array raw "training_responses")
                           (fun r => index_mask r selected)) ;;
        r_test <- lift (Py.bind (raw_array raw "testing_responses")
                          (fun r => index_mask r selected)) ;;
        ids_train <- lift (raw_ids raw "training_image_ids" offset) ;;
        ids_test <- lift (raw_ids raw "testing_image_ids" offset) ;;
        ret (true, Some (mkMua r_train r_test ids_train ids_test))
      else find_mua selector offset data_key rest true
  end.

(** [np.array_equal] on image ids *)
Definition ids_equal (a b : list Z) : bool :=
  if list_eq_dec Z.eq_dec a b then true else false.

(** lines 392-404 *)
Definition merge_mua (data_key : string) (found : bool * option mua_data)
    (training_ids testing_ids : list Z) (responses_train responses_test : ndarray R)
    : M (ndarray R * ndarray R) :=
  match found with
  | (false, _) => raise (UnboundLocalError "mua_data")
  | (true, None) =>
      _ <- print ("session " ++ data_key ++ " does not exist in MUA. Skipping MUA") ;;
      ret (responses_train, responses_test)
  | (true, Some m) =>
      if negb (ids_equal training_ids (mua_training_image_ids m)) then
        raise (ValueError "Training image IDs do not match between the spike sorted data and mua data")
      else if negb (ids_equal testing_ids (mua_testing_image_ids m)) then
        raise (ValueError "Testing image IDs do not match between the spike sorted data and mua data")
      else
        let '(responses_train, responses_test) :=
          if ndim responses_train <? 3
          then (expand_dims0 responses_train, expand_dims0 responses_test)
          else (responses_train, responses_test) in
        responses_train <- lift (concatenate0 responses_train (mua_responses_train m)) ;;
        responses_test <- lift (concatenate0 responses_test (mua_responses_test m)) ;;
        ret (responses_train, responses_test)
  end.

(** lines 407-413 *)
Definition mua_responses (dataset : string) (avg : bool) (bins : list Z)
    (responses_train responses_test : ndarray R) : res (ndarray R * ndarray R) :=
  if String.eqb dataset plos then Ok (responses_train, responses_test)
  else
    Py.bind (transpose_201 responses_test) (fun responses_test =>
    Py.bind (transpose_201 responses_train) (fun responses_train =>
    Py.bind (reduce_bins avg bins responses_train) (fun responses_train =>
    Py.bind (reduce_bins avg bins responses_test) (fun responses_test =>
    Ok (responses_train, responses_test))))).

(** lines 415-447: [(train_loader, val_loader, test_loader)] *)
Definition mua_loaders (a : mua_args) (all_train_ids all_validation_ids : list Z)
    (cache : nat) (sd : session_data) (eye : option (ndarray R * ndarray R))
    : res (DataLoader * DataLoader * DataLoader) :=
  let ids := sd_training_ids sd in
  let train_idx := isin ids all_train_ids in
  let val_idx := isin ids all_validation_ids in
  Py.bind (index_mask (sd_responses_train sd) val_idx) (fun responses_val =>
  Py.bind (index_mask (sd_responses_train sd) train_idx) (fun responses_train =>
  Py.bind
    (match eye with
     | Some (eye_train, eye_test) =>
         Py.bind (index_mask eye_train val_idx) (fun eye_val =>
         Py.bind (index_mask eye_train train_idx) (fun eye_train =>
         Ok ([eye_train], [eye_val], [eye_test])))
     | None => Ok ([], [], [])
     end) (fun '(extra_train, extra_val, extra_test) =>
  Py.bind (ids_mask ids val_idx) (fun validation_ids =>
  Py.bind (ids_mask ids train_idx) (fun training_ids =>
  Ok (mkLoader training_ids responses_train extra_train (Some (m_batch_size a))
        Default cache Default,
      mkLoader validation_ids responses_val extra_val (Some (m_batch_size a))
        Default cache Default,
      mkLoader (sd_testing_ids sd) (sd_responses_test sd) extra_test None
        (Given None) cache (Given (sd_testing_ids sd)))))))).

(** lines 352-413 *)
Definition mua_prepare (a : mua_args) (bins : list Z) (offset : Z)
    (datapath : string) : M (session_data * option (ndarray R * ndarray R)) :=
  raw <- load_raw datapath ;;
  _ <- lift (dict_item "subject_id" raw) ;;
  data_key <- lift (raw_session raw) ;;
  responses_train <- lift (raw_array raw "training_responses") ;;
  responses_test <- lift (raw_array raw "testing_responses") ;;
  training_image_ids <- lift (raw_ids raw "training_image_ids" offset) ;;
  testing_image_ids <- lift (raw_ids raw "testing_image_ids" offset) ;;
  eye <- (if m_add_eye_movement a
          then e <- lift (eye_positions raw) ;; ret (Some e)
          else ret None) ;;
  found <- find_mua (m_mua_selector a) offset data_key (m_mua_data_files a) false ;;
  '(responses_train, responses_test) <-
    merge_mua data_key found training_image_ids testing_image_ids
      responses_train responses_test ;;
  '(responses_train, responses_test) <-
    lift (mua_responses (m_dataset a) (m_avg a) bins responses_train responses_test) ;;
  ret (mkSession data_key training_image_ids responses_train
         testing_image_ids responses_test, eye).

(** one turn of the loop of lines 350-451 *)
Definition mua_session (a : mua_args) (bins : list Z) (offset : Z)
    (all_train_ids all_validation_ids : list Z) (cache : nat)
    (i : nat) (datapath : string) (dls : dict (dict DataLoader))
    : M (dict (dict DataLoader)) :=
  '(sd, eye) <- mua_prepare a bins offset datapath ;;
  ls <- lift (mua_loaders a all_train_ids all_validation_ids cache sd eye) ;;
  lift (store_loaders (sd_key sd) ls dls).

(** lines 331-475: the sessions, once the image cache exists *)
Definition mua_run (a : mua_args) (bins : list Z) (stats_path : string)
    (cache : nat) (mean std : value) : M loader_result :=
  o <- deref cache ;;
  let n_images := cache_len o in
  let offset := snd (dataset_params (m_dataset a)) in
  let split :=
    get_validation_split
      (inject_Z (Z.of_nat n_images) * fst (dataset_params (m_dataset a)))
      (m_train_frac a) (m_seed a) in
  dls <- for_files
           (mua_session a bins offset (fst split) (snd split) cache)
           0 (m_neuronal_data_files a) empty_dataloaders ;;
  finish stats_path (m_store_data_info a) (m_return_data_info a) false mean std dls.

Definition monkey_mua_sua_loader (a : mua_args) : M loader_result :=
  bins <- lift (normalize_time_bins (m_time_bins_sum a)) ;;
  let crop := normalize_crop (m_crop a) in
  let cache_path := fst (stats_path_of (MuaConfig a) (m_image_cache_path a)) in
  let stats_path := snd (stats_path_of (MuaConfig a) (m_image_cache_path a)) in
  let mk := fun mean std normalize =>
    mkCache cache_path (m_subsample a) crop (m_scale a) mean std true normalize false in
  with_cache stats_path (m_return_data_info a) mk (cache_zscored mk)
    (mua_run a bins stats_path).

(** *** [monkey_static_loader_closed_loop] (lines 478-822) *)

Definition both_included_error : string :=
  "the entire test can not be included into the training set. Set either 'include_mei_training' or 'include_control_training' to False.".

(** What lines 629-674 leave of a closed-loop session file. *)
Record closed_session : Type := mkClosed {
  cs_data : session_data;
  cs_mei_uncropped_ids : list Z;
  cs_mei_uncropped : ndarray R;
  cs_control_uncropped_ids : list Z;
  cs_control_uncropped : ndarray R;
  cs_mei_cropped_ids : list Z;
  cs_mei_cropped : ndarray R;
  cs_control_cropped_ids : list Z;
  cs_control_cropped : ndarray R
}.

(** lines 651-666 for one response array *)
Definition closed_transpose (dataset : string) (a : ndarray R) : res (ndarray R) :=
  if String.eqb dataset plos then Ok a else transpose_201 a.

Definition closed_reduce (dataset : string) (avg : bool) (bins : list Z)
    (a : ndarray R) : res (ndarray R) :=
  if String.eqb dataset plos then Ok a else reduce_bins avg bins a.

(** lines 668-674: [image_frac] is a sequence here, so the product of
    line 670 cannot be turned into an int *)
Definition closed_select_fraction (fracs : list Q) (randomize : bool) (i : nat)
    (sel_seed : option Z) (ids : list Z) (responses : ndarray R)
    : res (list Z * ndarray R) :=
  match nth_error fracs i with
  | None => Raise (IndexError "list index out of range")
  | Some frac =>
      if lt_one frac then
        if randomize then
          Raise (TypeError "int() argument must be a string, a bytes-like object or a number")
        else
          let idx_out := get_fraction_of_training_images ids (FracSeq fracs) sel_seed in
          Py.bind (ids_with ids idx_out) (fun ids' =>
          Py.bind (index_with responses idx_out) (fun responses' =>
          Ok (ids', responses')))
      else Ok (ids, responses)
  end.

(** lines 629-674 *)
Definition closed_prepare (a : closed_loop_args) (bins : list Z) (fracs : list Q)
    (offset : Z) (i : nat) (datapath : string) : M closed_session :=
  raw <- load_raw datapath ;;
  _ <- lift (dict_item "subject_id" raw) ;;
  data_key <- lift (raw_session raw) ;;
  responses_train <- lift (raw_array raw "training_responses") ;;
  responses_test <- lift (raw_array raw "testing_responses") ;;
  mei_uncropped <- lift (raw_array raw "mei_uncropped_responses") ;;
  control_uncropped <- lift (raw_array raw "control_uncropped_responses") ;;
  mei_cropped <- lift (raw_array raw "mei_cropped_responses") ;;
  control_cropped <- lift (raw_array raw "control_cropped_responses") ;;
  training_image_ids <- lift (raw_ids raw "training_image_ids" offset) ;;
  testing_image_ids <- lift (raw_ids raw "testing_image_ids" offset) ;;
  mei_uncropped_ids <- lift (raw_ids0 raw "mei_uncropped_ids") ;;
  mei_cropped_ids <- lift (raw_ids0 raw "mei_cropped_ids") ;;
  control_uncropped_ids <- lift (raw_ids0 raw "control_uncropped_ids") ;;
  control_cropped_ids <- lift (raw_ids0 raw "control_cropped_ids") ;;
  let ds := c_dataset a in
  responses_test <- lift (closed_transpose ds responses_test) ;;
  responses_train <- lift (closed_transpose ds responses_train) ;;
  mei_uncropped <- lift (closed_transpose ds mei_uncropped) ;;
  control_uncropped <- lift (closed_transpose ds control_uncropped) ;;
  mei_cropped <- lift (closed_transpose ds mei_cropped) ;;
  control_cropped <- lift (closed_transpose ds control_cropped) ;;
  responses_train <- lift (closed_reduce ds (c_avg a) bins responses_train) ;;
  responses_test <- lift (closed_reduce ds (c_avg a) bins responses_test) ;;
  mei_uncropped <- lift (closed_reduce ds (c_avg a) bins mei_uncropped) ;;
  control_uncropped <- lift (closed_reduce ds (c_avg a) bins control_uncropped) ;;
  mei_cropped <- lift (closed_reduce ds (c_avg a) bins mei_cropped) ;;
  control_cropped <- lift (closed_reduce ds (c_avg a) bins control_cropped) ;;
  '(training_image_ids, responses_train) <-
    lift (closed_select_fraction fracs (c_randomize_image_selection a) i
            (c_image_selection_seed a) training_image_ids responses_train) ;;
  ret (mkClosed
         (mkSession data_key training_image_ids responses_train
            testing_image_ids responses_test)
         mei_uncropped_ids mei_uncropped control_uncropped_ids control_uncropped
         mei_cropped_ids mei_cropped control_cropped_ids control_cropped).

(** lines 680-692: the test images appended to the training set *)
Definition extend_training (include : bool) (ids_cropped ids_uncropped : list Z)
    (cropped uncropped : ndarray R) (ids : list Z) (responses : ndarray R)
    : res (list Z * ndarray R) :=
  if include then
    Py.bind (vstack responses cropped) (fun r =>
    Py.bind (vstack r uncropped) (fun r =>
    Ok (((ids ++ ids_cropped) ++ ids_uncropped)%list, r)))
  else Ok (ids, responses).

(** [np.clip(x, -999, 0)] *)
Definition clip_neg (x : Z) : Z := Z.max (-999) (Z.min x 0).

(** line 713: [crop - np.clip(training_crop, -999, 0)], with numpy's
    broadcasting of the leading axis *)
Definition test_crop_of (crop training_crop : list (Z * Z)) : res (list (Z * Z)) :=
  let sub := fun (c t : Z * Z) =>
    ((fst c - clip_neg (fst t))%Z, (snd c - clip_neg (snd t))%Z) in
  match crop, training_crop with
  | [], [] => Ok []
  | [c], _ :: _ => Ok (map (sub c) training_crop)
  | _ :: _, [t] => Ok (map (fun c => sub c t) crop)
  | _, _ =>
      if length crop =? length training_crop
      then Ok (map (fun p => sub (fst p) (snd p)) (combine crop training_crop))
      else Raise (ValueError "operands could not be broadcast together")
  end.

Definition eval_loader (ids : list Z) (responses : ndarray R) (cache : nat)
    : DataLoader :=
  mkLoader ids responses [] None (Given None) cache (Given ids).

(** the loop state: the dataloaders and the two dictionaries of caches *)
Record closed_state : Type := mkClosedState {
  st_dataloaders : dict (dict DataLoader);
  st_train_caches : dict nat;
  st_test_caches : dict nat
}.

(** lines 676-798.  After line 568 [stimulus_location] is a sequence, so
    the tests of lines 607 and 711 always succeed. *)
Definition closed_session_step (a : closed_loop_args) (bins : list Z)
    (fracs : list Q) (locations : list value) (crop : list (Z * Z))
    (cache_path : string) (offset : Z) (all_train_ids all_validation_ids : list Z)
    (mean std : value) (i : nat) (datapath : string) (st : closed_state)
    : M closed_state :=
  cs <- closed_prepare a bins fracs offset i datapath ;;
  let sd := cs_data cs in
  let data_key := sd_key sd in
  let extended := c_include_mei_training a || c_include_control_training a in
  let ids_original := sd_training_ids sd in
  let responses_original := sd_responses_train sd in
  '(ids, responses) <-
    lift (extend_training (c_include_control_training a)
            (cs_control_cropped_ids cs) (cs_control_uncropped_ids cs)
            (cs_control_cropped cs) (cs_control_uncropped cs)
            ids_original responses_original) ;;
  '(ids, responses) <-
    lift (extend_training (c_include_mei_training a)
            (cs_mei_cropped_ids cs) (cs_mei_uncropped_ids cs)
            (cs_mei_cropped cs) (cs_mei_uncropped cs) ids responses) ;;
  '(training_ids, responses_train, validation_ids, responses_val, _, _) <-
    lift (split_ids ids responses all_train_ids all_validation_ids) ;;
  original <-
    (if extended then
       '(_, _, v_ids, v_resp, _, _) <-
         lift (split_ids ids_original responses_original
                 all_train_ids all_validation_ids) ;;
       ret (Some (v_ids, v_resp))
     else ret None) ;;
  location <- lift (match nth_error locations i with
                    | Some l => Ok l
                    | None => Raise (IndexError "list index out of range")
                    end) ;;
  let training_crop := get_crop_from_stimulus_location location crop (457 # 100) in
  test_crop <- lift (test_crop_of crop training_crop) ;;
  let mk := fun crop mean std normalize =>
    mkCache cache_path (c_subsample a) crop (c_scale a) mean std true normalize false in
  '(train_caches, test_caches) <-
    match mean with
    | PyNone =>
        c <- new_cache (mk training_crop Default Default false) ;;
        _ <- zscore_images c ;;
        ret (dict_set data_key c (st_train_caches st), st_test_caches st)
    | _ =>
        c <- new_cache (mk training_crop (Given mean) (Given std) true) ;;
        t <- new_cache (mk test_crop (Given mean) (Given std) true) ;;
        ret (dict_set data_key c (st_train_caches st),
             dict_set data_key t (st_test_caches st))
    end ;;
  train_cache <- lift (dict_item data_key train_caches) ;;
  let bs := Some (c_batch_size a) in
  let train_loader := mkLoader training_ids responses_train [] bs Default train_cache Default in
  let val_extended := mkLoader validation_ids responses_val [] bs Default train_cache Default in
  let val_loader :=
    match original with
    | Some (v_ids, v_resp) => mkLoader v_ids v_resp [] bs Default train_cache Default
    | None => val_extended
    end in
  test_cache <- lift (dict_item data_key test_caches) ;;
  let dls := st_dataloaders st in
  dls <- lift (set_loader "train" data_key train_loader dls) ;;
  dls <- lift (set_loader "validation" data_key val_loader dls) ;;
  dls <- lift (set_loader "test" data_key
                 (eval_loader (sd_testing_ids sd) (sd_responses_test sd) test_cache) dls) ;;
  dls <- lift (set_loader "test_mei_uncropped" data_key
                 (eval_loader (cs_mei_uncropped_ids cs) (cs_mei_uncropped cs) test_cache) dls) ;;
  dls <- lift (set_loader "test_mei_cropped" data_key
                 (eval_loader (cs_mei_cropped_ids cs) (cs_mei_cropped cs) test_cache) dls) ;;
  dls <- lift (set_loader "test_control_uncropped" data_key
                 (eval_loader (cs_control_uncropped_ids cs) (cs_control_uncropped cs) test_cache) dls) ;;
  dls <- lift (set_loader "test_control_cropped" data_key
                 (eval_loader (cs_control_cropped_ids cs) (cs_control_cropped cs) test_cache) dls) ;;
  dls <- (if extended
          then lift (set_loader "validation_extended" data_key val_extended dls)
          else ret dls) ;;
  ret (mkClosedState dls train_caches test_caches).

(** lines 567-568 *)
Definition normalize_locations (s : stim_arg) (data_files : list string) : list value :=
  match s with
  | StimOne v => map (fun _ => v) data_files
  | StimSeq l => l
  end.

(** the dictionary of lines 547-556 *)
Definition closed_dataloaders (a : closed_loop_args) : dict (dict DataLoader) :=
  let dataloaders : dict (dict DataLoader) :=
    [("train", []); ("validation", []); ("test", []);
     ("test_mei_uncropped", []); ("test_control_uncropped", []);
     ("test_mei_cropped", []); ("test_control_cropped", [])] in
  if c_include_mei_training a || c_include_control_training a
  then dict_set "validation_extended" [] dataloaders
  else dataloaders.

(** lines 605-822: the sessions, once the image cache exists *)
Definition closed_run (a : closed_loop_args) (bins : list Z) (fracs : list Q)
    (locations : list value) (crop : list (Z * Z)) (cache_path stats_path : string)
    (cache : nat) (mean std : value) : M loader_result :=
  o <- deref cache ;;
  let n_images := cache_len o in
  let offset := snd (dataset_params (c_dataset a)) in
  let split :=
    get_validation_split
      (inject_Z (Z.of_nat n_images) * fst (dataset_params (c_dataset a)))
      (c_train_frac a) (c_seed a) in
  st <- for_files
          (closed_session_step a bins fracs locations crop cache_path offset
             (fst split) (snd split) mean std)
          0 (c_neuronal_data_files a)
          (mkClosedState (closed_dataloaders a) [] []) ;;
  finish stats_path (c_store_data_info a) (c_return_data_info a) true
    mean std (st_dataloaders st).

Definition monkey_static_loader_closed_loop (a : closed_loop_args) : M loader_result :=
  if c_include_mei_training a && c_include_control_training a
  then raise (ValueError both_included_error)
  else
    bins <- lift (normalize_time_bins (c_time_bins_sum a)) ;;
    let crop := normalize_crop (c_crop a) in
    let fracs := normalize_image_frac (c_image_frac a) (c_neuronal_data_files a) in
    let locations :=
      normalize_locations (c_stimulus_location a) (c_neuronal_data_files a) in
    let cache_path := fst (stats_path_of (ClosedLoopConfig a) (c_image_cache_path a)) in
    let stats_path := snd (stats_path_of (ClosedLoopConfig a) (c_image_cache_path a)) in
    let mk := fun mean std normalize =>
      mkCache cache_path (c_subsample a) crop (c_scale a) mean std true normalize false in
    with_cache stats_path (c_return_data_info a) mk
      (cache_from_args (c_img_mean a) (c_img_std a) mk)
      (closed_run a bins fracs locations crop cache_path stats_path).

(** *** Vocabulary of the claims about the loaders *)

(** [str(raw_data["session_id"])] of the session file at [path] *)
Definition file_session_key (w : World) (path : string) : option string :=
  match files w path with
  | Some (PickledRaw raw) =>
      match raw_session raw with
      | Ok k => Some k
      | Raise _ => None
      end
  | _ => None
  end.

(** [inner] holds one loader under every session key of [keys] and nothing
    else; when the keys are pairwise distinct, that is one loader per file,
    in the order of the files *)
Definition one_per_session (keys : list string) (inner : dict DataLoader) : Prop :=
  NoDup (dict_keys inner) /\
  (forall k, In k (dict_keys inner) <-> In k keys) /\
  (NoDup keys -> dict_keys inner = keys).

(** the nested dictionary [{'train': .., 'validation': .., 'test': ..}] *)
Definition three_tiers (keys : list string) (d : dict (dict DataLoader)) : Prop :=
  exists train val test,
    d = [("train", train); ("validation", val); ("test", test)] /\
    one_per_session keys train /\
    one_per_session keys val /\
    one_per_session keys test.

(** every loader of every tier satisfies [P] *)
Definition all_loaders (P : DataLoader -> Prop) (d : dict (dict DataLoader)) : Prop :=
  forall tier inner k l,
    dict_get tier d = Some inner -> dict_get k inner = Some l -> P l.


(** [x in pool] for image ids *)
Definition id_in (pool : list Z) (x : Z) : bool := existsb (Z.eqb x) pool.

(** [(ids', responses')] are exactly the entries of [(ids, responses)]
    whose image id lies in [pool]: the positions [pos] of these ids, in
    order, index both the ids and the rows of the responses *)
Definition selects (pool : list Z) (ids : list Z) (responses : ndarray R)
    (ids' : list Z) (responses' : ndarray R) : Prop :=
  let pos := filter (fun p => id_in pool (nth p ids 0%Z)) (seq 0 (length ids)) in
  ids' = filter (id_in pool) ids /\
  ids' = map (fun p => nth p ids 0%Z) pos /\
  shape responses' = length pos :: tl (shape responses) /\
  forall j rest, item responses' (j :: rest) = item responses (nth j pos 0 :: rest).

End Model.

Arguments Return {R A} r.
Arguments Continue {R A} a.

End Loaders.

(* ------------------------------------------------------------------ *)
(** ** Concrete instances, used to run the model                       *)
(* ------------------------------------------------------------------ *)

Module Examples.
Import Readouts.

(** A toy torch: the core keeps the batch and the spatial size and outputs
    eight channels; a readout answers with a tensor whose shape records the
    number of positional arguments it was called on, its output dimension
    and the shape of its first argument; the positional encoding and the
    layer norm are the identity; a linear layer copies its input columns
    cyclically. *)
#[export] Instance toy_torch : Torch nat unit unit := {
  get_module_output := fun _ shp =>
    match shp with
    | [b; _; w; h] => Ok [b; 8; w; h]
    | _ => Raise (ValueError "core expects a batch of images")
    end;
  construct := fun _ => Ok tt;
  call_module := fun m args _ =>
    match m, args with
    | Readout r, _ =>
        Ok (mkArr (length args :: r_outdims r
                     :: match args with t :: _ => shape t | [] => [] end)
              (fun _ => 0))
    | Linear i o, [t] =>
        match shape t with
        | [n; _] =>
            Ok (mkArr [n; o]
                  (fun idx => match idx with
                              | [p; q] => item t [p; q mod i]
                              | _ => 0
                              end))
        | _ => Raise (ValueError "linear layer expects a matrix")
        end
    | (PositionalEncoding2D _ _ _ _ _ _ | LayerNorm _), [t] => Ok t
    | _, _ => Raise (TypeError "forward() got unexpected arguments")
    end;
  class_attr := fun name =>
    existsb (String.eqb name) ["forward"; "regularizer"; "keys"; "values"; "items"; "training"]
}.

(** Two recording sessions seen through one core. *)
Definition two_in_shapes : dict (list nat) :=
  [("3631896544452", [1; 1; 4; 4]); ("3632669014376", [1; 1; 6; 6])].

Definition two_n_neurons : dict nat :=
  [("3631896544452", 5); ("3632669014376", 7)].

Definition no_shared_attention : shared_attention :=
  mkSharedAttention [] 0 0 false false false true PyNone PyNone PyNone.

Definition build_shared (use_pos_enc key_embedding value_embedding layer_norm : bool)
    (stack_pos_encoding : bool) (n_pos_channels : option nat)
    : res (@shared_attention) :=
  MultipleSharedMultiHeadAttention2d_init (R := nat) (KW := unit) tt
    two_in_shapes two_n_neurons
    (PyBool true) (PyInt 0) (PyInt 0) (PyInt 0) use_pos_enc (PyBool false) 2
    (PyBool false) key_embedding value_embedding
    (PyPair (PyBool false) (PyFloat 1)) (PyFloat (1 # 10)) layer_norm
    stack_pos_encoding n_pos_channels None.

Definition unwrap_shared (r : res (@shared_attention)) : shared_attention :=
  match r with Ok s => s | Raise _ => no_shared_attention end.

(** the default configuration: positional encoding, no embeddings *)
Definition shared_default : shared_attention :=
  unwrap_shared (build_shared true false false false false None).

(** key and value embedding, with layer norm *)
Definition shared_kv : shared_attention :=
  unwrap_shared (build_shared true true true true false None).

(** [value_embedding] set without [key_embedding] *)
Definition shared_value_only : shared_attention :=
  unwrap_shared (build_shared true false true false false None).

(** a batch of one image with eight feature channels on a 2 x 2 grid;
    every entry is different *)
Definition features : ndarray nat :=
  mkArr [1; 8; 2; 2]
    (fun idx => match idx with
                | [a; c; y; x] => 1 + 4 * c + 2 * y + x
                | _ => 0
                end).

Definition dense_modules : dict module :=
  match construct_factory (R := nat) (KW := unit)
          (FDense (PyBool true) (PyFloat (1 # 2)) (PyFloat (1 # 1000)))
          tt two_in_shapes two_n_neurons with
  | Ok m => m
  | Raise _ => []
  end.

Definition shared_modules : dict module :=
  match construct_factory (R := nat) (KW := unit)
          (FSharedMultiHeadAttention2d (PyBool true) (PyInt 0) (PyInt 0) (PyInt 0)
             true (PyBool false) 2 (PyBool false) true true
             (PyPair (PyBool false) (PyFloat 1)) (PyFloat (1 # 10)) true false
             None None)
          tt two_in_shapes two_n_neurons with
  | Ok m => m
  | Raise _ => []
  end.

Definition key_value_of (self : shared_attention) (x : ndarray nat)
    : ndarray nat * ndarray nat :=
  match key_value (KW := unit) self x tt with
  | Ok kv => kv
  | Raise _ => (x, x)
  end.

Definition dense_container : module_dict :=
  mkModuleDict dense_modules [("gamma_readout", PyFloat (1 # 2))].

Definition module_at (k : string) (mods : dict module) : module :=
  match dict_get k mods with Some m => m | None => Linear 0 0 end.

End Examples.

Module LoaderExamples.
Import Loaders.

(** the directory part of a path *)
Fixpoint dirname (s : string) : string :=
  match s with
  | EmptyString => ""
  | String c rest => if str_contains "/" rest then String c (dirname rest) else ""
  end.

(** A toy environment over integer responses: the validation split puts the
    first [train_frac] of the image ids into the training set, every cache
    holds ten images, and a batch has the fields [inputs] and [targets]. *)
#[export] Instance toy_deps : @Deps Z := {
  to_float32 := fun x => x;
  np_sum := fun l => fold_right Z.add 0%Z l;
  np_mean := fun l => (fold_right Z.add 0 l / Z.of_nat (length l))%Z;
  scipy_zscore := fun a => a;
  make_hash := fun _ => "0f3a";
  path_parent := dirname;
  get_validation_split := fun n frac _ =>
    let k := Z.to_nat (py_int (n * frac)) in
    (map Z.of_nat (seq 0 k), map Z.of_nat (seq k (Z.to_nat (py_int n) - k)));
  get_fraction_of_training_images := fun ids _ _ =>
    IntIndex (map Z.of_nat (seq 0 (length ids / 2)));
  get_crop_from_stimulus_location := fun _ crop _ =>
    map (fun p => (fst p + 1, snd p + 1)%Z) crop;
  cache_len := fun _ => 10;
  zscore_stats := fun _ => (PyFloat (1 # 2), PyFloat (1 # 4));
  batch_fields := fun l =>
    match dl_image_ids l with
    | [] => Raise StopIteration
    | _ => Ok ["inputs"; "targets"]
    end;
  get_dims_for_loader_dict := fun d =>
    map (fun kl => (fst kl,
                    [("inputs", [64; 1; 8; 8]);
                     ("targets", 64 :: tl (shape (dl_responses (snd kl))))])) d
}.

(** responses of two neurons over three time bins and [trials] trials;
    the entry encodes its own index *)
Definition responses (trials : nat) : ndarray Z :=
  mkArr [2; 3; trials]
    (fun idx => match idx with
                | [u; b; n] => (Z.of_nat u * 100 + Z.of_nat b * 10 + Z.of_nat n)%Z
                | _ => 0%Z
                end).

Definition session_file (id : Z) (training_ids testing_ids : list Z)
    : @pickled Z :=
  PickledRaw
    [("subject_id", RawValue (PyStr "monkey"));
     ("session_id", RawSession (SessInt id));
     ("training_responses", RawArray (responses (length training_ids)));
     ("testing_responses", RawArray (responses (length testing_ids)));
     ("training_image_ids", RawIds training_ids);
     ("testing_image_ids", RawIds testing_ids);
     ("unit_ids", RawIds [0; 1]%Z)].

Definition stored_info : @pickled Z :=
  PickledInfo
    [("3631896544452", mkInfo [64; 1; 8; 8] 1 2 (PyFloat (1 # 2)) (PyFloat (1 # 4)))].

(** Three session files, the last two of the same session; no statistics
    file yet. *)
Definition lab : @World Z :=
  mkWorld
    (fun p =>
       if String.eqb p "data/a.pickle"
       then Some (session_file 3631896544452 [0; 8; 3; 9; 12]%Z [20; 21]%Z)
       else if String.eqb p "data/b.pickle"
       then Some (session_file 3632669014376 [1; 2; 8; 9]%Z [20; 21]%Z)
       else if String.eqb p "data/b_again.pickle"
       then Some (session_file 3632669014376 [5; 9]%Z [22]%Z)
       else None)
    (fun p => String.eqb p "images/" || String.eqb p "images")
    [] [] [].

(** the same, with the statistics of an earlier call in place *)
Definition lab_with_stats : @World Z :=
  mkWorld
    (fun p => if String.eqb p "images/statistics/0f3a" then Some stored_info
              else files lab p)
    (fun p => String.eqb p "images/statistics" || dirs lab p)
    [] [] [].

Definition static_call (data_files : list string) (crop : crop_arg)
    (return_info : bool) : static_args :=
  mkStaticArgs "CSRF19_V1" data_files "images/individual" 64 (Some 1%Z) (8 # 10)
    (PyInt 1) crop (PyFloat 1) (TbInt 2) false PyNone return_info true
    (FracOne 1) None true PyNone PyNone None (457 # 100) true true.

Definition mua_call (data_files : list string) : mua_args :=
  mkMuaArgs "CSRF19_V1" data_files ["data/b.pickle"; "data/a.pickle"]
    "images/individual" 64 (Some 1%Z) (8 # 10) (PyInt 1) (CropInt 10) (PyFloat 1)
    (TbSeq [0; 2]%Z) true PyNone false true None false.

Definition closed_call (mei control : bool) : closed_loop_args :=
  mkClosedLoopArgs "CSRF19_V1" ["data/a.pickle"] "images/individual" 64
    (Some 1%Z) (8 # 10) (PyInt 1) (CropInt 10) (PyFloat 1) (TbInt 2) false PyNone
    false true (FracOne 1) None true (StimOne PyNone) PyNone PyNone mei control.

(** the answer of a call and the world it leaves *)
Definition returned (r : res (@loader_result Z) * @World Z) : @loader_result Z :=
  match fst r with
  | Ok x => x
  | Raise _ => Dataloaders []
  end.

Definition dataloaders_of (r : res (@loader_result Z) * @World Z)
    : dict (dict (@DataLoader Z)) :=
  match fst r with
  | Ok (Dataloaders d) => d
  | _ => []
  end.

(** the call returned dataloaders *)
Definition returns_dataloaders (r : res (@loader_result Z) * @World Z) : bool :=
  match fst r with
  | Ok (Dataloaders _) => true
  | _ => false
  end.

Definition loader_at (tier k : string) (d : dict (dict (@DataLoader Z)))
    : list Z :=
  match dict_get tier d with
  | Some inner =>
      match dict_get k inner with
      | Some l => dl_image_ids l
      | None => []
      end
  | None => []
  end.

Definition no_cache : ImageCache :=
  mkCache "" PyNone [] PyNone Default Default false false false.

(** the first image cache of a world *)
Definition first_cache (w : @World Z) : ImageCache := nth 0 (caches w) no_cache.

(** the tiers of a nested dictionary with the number of loaders in each *)
Definition tier_sizes (d : dict (dict (@DataLoader Z))) : list (string * nat) :=
  map (fun kv => (fst kv, length (snd kv))) d.

Definition two_sessions : list string := ["data/a.pickle"; "data/b.pickle"].
Definition one_session_twice : list string := ["data/b.pickle"; "data/b_again.pickle"].

End LoaderExamples.

(* ------------------------------------------------------------------ *)
(** ** The file system of the loaders                                  *)
(* ------------------------------------------------------------------ *)

Module LoadersWorld.
Import Loaders.

Section Vocabulary.
Context {R : Type} `{D : @Deps R}.

(** [os.path.exists(p)] in the world [w] *)
Definition exists_in (w : @World R) (p : string) : bool :=
  match files w p with Some _ => true | None => dirs w p end.

(** the files and the directories are as they were *)
Definition same_fs (w w' : @World R) : Prop :=
  files w' = files w /\ dirs w' = dirs w.

(** no file but [p] was written and no directory but the parent of [p]
    was made *)
Definition wrote_at_most (p : string) (w w' : @World R) : Prop :=
  (forall q, q <> p -> files w' q = files w q) /\
  (forall q, q <> path_parent p -> dirs w' q = dirs w q).

(** the statistics files of the three loaders (lines 100-104, 308-312 and
    570-574) *)
Definition static_stats_path (a : static_args) : string :=
  snd (stats_path_of (StaticConfig a) (image_cache_path a)).

Definition mua_stats_path (a : mua_args) : string :=
  snd (stats_path_of (MuaConfig a) (m_image_cache_path a)).

Definition closed_stats_path (a : closed_loop_args) : string :=
  snd (stats_path_of (ClosedLoopConfig a) (c_image_cache_path a)).

(** every entry of the stored statistics carries the image statistics of
    the cache [c] *)
Definition statistics_of (c : ImageCache) (info : dict session_info) : Prop :=
  forall k i, dict_get k info = Some i ->
    ic_img_mean c = Given (info_img_mean i) /\ ic_img_std c = Given (info_img_std i).

(** the call returned the stored statistics at once, from the file that
    was in place (lines 108-111) *)
Definition returned_stored_statistics (ri : bool) (sp : string)
    (w : @World R) (r : @loader_result R) (w' : @World R) : Prop :=
  ri = true /\ w' = w /\ exists p, files w sp = Some p /\ r = Stored p.

(** *** The loaders of a closed-loop session *)

(** the loader [l] is stored as [d[tier][key]] *)
Definition stored_under (tier key : string) (l : @DataLoader R)
    (d : dict (dict (@DataLoader R))) : Prop :=
  exists inner, dict_get tier d = Some inner /\ dict_get key inner = Some l.

(** [d] has exactly the tiers [tiers], in this order, and every tier holds
    one loader per session key of [keys] *)
Definition tiers_by_session (tiers keys : list string)
    (d : dict (dict (@DataLoader R))) : Prop :=
  dict_keys d = tiers /\
  forall tier inner, dict_get tier d = Some inner -> one_per_session keys inner.

(** lines 680-692: the image ids after the test images of one kind were
    appended *)
Definition extended_ids (include : bool) (cropped uncropped ids : list Z) : list Z :=
  if include then ((ids ++ cropped) ++ uncropped)%list else ids.

(** lines 718-798: the loaders of a session with the tiers they are stored
    under, in the order of the assignments *)
Definition closed_loaders (a : closed_loop_args) (cs : @closed_session R)
    (tids : list Z) (tresp : ndarray R) (vids : list Z) (vresp : ndarray R)
    (original : option (list Z * ndarray R)) (train_cache test_cache : nat)
    : list (string * @DataLoader R) :=
  let sd := cs_data cs in
  let bs := Some (c_batch_size a) in
  let val_extended := mkLoader vids vresp [] bs Default train_cache Default in
  ([("train", mkLoader tids tresp [] bs Default train_cache Default);
    ("validation",
     match original with
     | Some (v_ids, v_resp) => mkLoader v_ids v_resp [] bs Default train_cache Default
     | None => val_extended
     end);
    ("test", eval_loader (sd_testing_ids sd) (sd_responses_test sd) test_cache);
    ("test_mei_uncropped",
     eval_loader (cs_mei_uncropped_ids cs) (cs_mei_uncropped cs) test_cache);
    ("test_mei_cropped",
     eval_loader (cs_mei_cropped_ids cs) (cs_mei_cropped cs) test_cache);
    ("test_control_uncropped",
     eval_loader (cs_control_uncropped_ids cs) (cs_control_uncropped cs) test_cache);
    ("test_control_cropped",
     eval_loader (cs_control_cropped_ids cs) (cs_control_cropped cs) test_cache)]
   ++ (if c_include_mei_training a || c_include_control_training a
       then [("validation_extended", val_extended)]
       else []))%list.

(** [dataloaders[tier][key] = loader] for every pair, in order *)
Fixpoint store_all (key : string) (pairs : list (string * @DataLoader R))
    (d : dict (dict (@DataLoader R))) : res (dict (dict (@DataLoader R))) :=
  match pairs with
  | [] => Ok d
  | (tier, l) :: rest => Py.bind (set_loader tier key l d) (store_all key rest)
  end.

(** the two image caches that a session constructs (lines 715-721), for
    the image statistics [mean] and [std] of the call *)
Definition session_caches (a : closed_loop_args) (cp : string)
    (training_crop test_crop : list (Z * Z)) (mean std : value) : list ImageCache :=
  [mkCache cp (c_subsample a) training_crop (c_scale a) (Given mean) (Given std)
     true true false;
   mkCache cp (c_subsample a) test_crop (c_scale a) (Given mean) (Given std)
     true true false].

(** the tiers whose loaders read the training cache of the session *)
Definition training_tier (tier : string) : bool :=
  existsb (String.eqb tier) ["train"; "validation"; "validation_extended"].

(** the tiers of the closed-loop loader (lines 547-556) *)
Definition closed_tiers (a : closed_loop_args) : list string :=
  (["train"; "validation"; "test"; "test_mei_uncropped"; "test_control_uncropped";
    "test_mei_cropped"; "test_control_cropped"]
   ++ (if c_include_mei_training a || c_include_control_training a
       then ["validation_extended"] else []))%list.

End Vocabulary.
End LoadersWorld.

(* ------------------------------------------------------------------ *)
(** ** readouts.py: the dense readout, the joint readout and the
       embedding penalty                                               *)
(* ------------------------------------------------------------------ *)

Module ReadoutsMore.
Import Readouts.

(** A result of a torch call: a value, a Python exception, or torch's
    [RuntimeError]. *)
Inductive outcome (A : Type) : Type :=
| Done (a : A)
| Fails (e : exn)
| RuntimeError (msg : string).
Arguments Done {A} a.
Arguments Fails {A} e.
Arguments RuntimeError {A} msg.

(** The arithmetic of torch that the code relies on: the inner product of
    two rows of a matrix product, the addition of two entries, and zero. *)
Class TensorOps (R : Type) : Type := {
  dot : list R -> list R -> R;
  add : R -> R -> R;
  zero : R
}.

Section Model.
Context {R Core KW : Type} `{T : Torch R Core KW} `{O : TensorOps R}.
Local Open Scope res_scope.

(** *** [MultipleSharedMultiHeadAttention2d.embedding_l1] (lines 296-302) *)

(** the layer whose weights are averaged; [None] stands for the result 0 *)
Definition embedding_l1 (self : shared_attention) : res (option module) :=
  if sa_key_embedding self && sa_value_embedding self then
    do m <- getattr_module self "to_kv"; Ok (Some m)
  else if sa_key_embedding self then
    do m <- getattr_module self "to_key"; Ok (Some m)
  else Ok None.

(** *** [DenseReadout] (lines 476-525) *)

(** the parameters of a [DenseReadout]: [self.linear.weight], of shape
    [(outdims, c*w*h)], and [self.bias] *)
Record dense_readout : Type := mkDense {
  dn_weight : ndarray R;
  dn_bias : option (ndarray R)
}.

(** [forward] (lines 512-520).  [viewable] tells whether the strides of
    [x] allow [x.view(b, c*w*h)], as they do for a contiguous tensor.  The
    messages of torch's errors are cut before the sizes they go on to
    print. *)
Definition DenseReadout_forward (self : dense_readout) (viewable : bool)
    (x : ndarray R) : outcome (ndarray R) :=
  match shape x with
  | [b; c; w; h] =>
      if negb viewable
      then RuntimeError "view size is not compatible with input tensor's size and stride"
      else
        let n := c * w * h in
        let row := fun p => map (fun k => item x [p; k / (w * h); (k / h) mod w; k mod h])
                              (seq 0 n) in
        match shape (dn_weight self) with
        | [o; m] =>
            if n =? m then
              let y := fun p q =>
                dot (row p) (map (fun k => item (dn_weight self) [q; k]) (seq 0 n)) in
              Done (mkArr [b; o]
                      (fun idx =>
                         match idx with
                         | [p; q] =>
                             match dn_bias self with
                             | Some bs => add (y p q) (item bs [q])
                             | None => y p q
                             end
                         | _ => zero
                         end))
            else RuntimeError "mat1 and mat2 shapes cannot be multiplied"
        | _ => RuntimeError "mat1 and mat2 shapes cannot be multiplied"
        end
  | s =>
      Fails (ValueError
               (if length s <? 4
                then "not enough values to unpack (expected 4, got "
                     ++ DecimalString.NilZero.string_of_uint (Nat.to_uint (length s))
                     ++ ")"
                else "too many values to unpack (expected 4)"))
  end.

(** *** The shared layers of [MultipleSharedMultiHeadAttention2d] *)

(** lines 218-222: the channels of the embedded input, with the channels
    of the positional encoding when they are stacked *)
Definition embedded_channels (c : nat) (n_pos_channels : option nat)
    (stack_pos_encoding : bool) : nat :=
  if truthy n_pos_channels && stack_pos_encoding
  then c + match n_pos_channels with Some n => n | None => 0 end
  else c.

(** lines 224-227: the output channels of the linear embeddings *)
Definition embedding_out (c : nat) (embed_out_dim : option nat) : nat :=
  if truthy embed_out_dim
  then match embed_out_dim with Some n => n | None => 0 end
  else c.

(** lines 229-246: the shared layers that [__init__] registers before the
    sessions, for the core output [(c, w, h)] of the first session of
    [in_shape_dict] *)
Definition shared_layers (c w h : nat) (use_pos_enc : bool)
    (learned_pos dropout_pos : value) (layer_norm stack_pos_encoding : bool)
    (n_pos_channels embed_out_dim : option nat)
    (key_embedding value_embedding : bool) : dict module :=
  let c := embedded_channels c n_pos_channels stack_pos_encoding in
  let c_out := embedding_out c embed_out_dim in
  let d_model := if truthy n_pos_channels
                 then match n_pos_channels with Some n => n | None => 0 end
                 else c in
  let mods := [] in
  let mods :=
    if use_pos_enc
    then dict_set "position_embedding"
           (PositionalEncoding2D d_model w h learned_pos dropout_pos
              stack_pos_encoding) mods
    else mods in
  let mods :=
    if layer_norm then dict_set "norm" (LayerNorm [c; w * h]) mods else mods in
  if key_embedding && value_embedding
  then dict_set "to_kv" (Linear c (c_out * 2)) mods
  else if key_embedding
  then dict_set "to_key" (Linear c c_out) mods
  else mods.

(** the names under which [__init__] registers the shared layers *)
Definition shared_layer_names : list string :=
  ["position_embedding"; "norm"; "to_kv"; "to_key"].

(** *** The sessions a factory can register *)


(** the session [k] has an input shape that the core accepts, and a name
    that [add_module] accepts *)
Definition usable_session (core : Core) (in_shape_dict : dict (list nat))
    (k : string) : Prop :=
  (exists shp out,
     dict_get k in_shape_dict = Some shp /\ get_module_output core shp = Ok out) /\
  class_attr k = false /\
  str_contains "." k = false /\
  String.eqb k "" = false.

(** *** Sharing between the readouts of the Gaussian factories *)




(** *** [FullGaussian2dJointReadout] (lines 558-655) *)

(** [t.shape[1]] *)
Definition dim1 (t : ndarray R) : res nat :=
  match shape t with
  | _ :: c :: _ => Ok c
  | _ => Raise (IndexError "tuple index out of range")
  end.

(** [t[:, start:, ...]] for a [start] that is not negative *)
Definition slice_from1 (t : ndarray R) (start : nat) : res (ndarray R) :=
  match shape t with
  | s0 :: c :: rest =>
      Ok (mkArr (s0 :: (c - start) :: rest)
            (fun idx => match idx with
                        | a :: j :: r => item t (a :: (j + start) :: r)
                        | _ => item t idx
                        end))
  | _ => Raise (IndexError "too many indices for tensor")
  end.

(** [t[:, :stop, ...]]; a negative [stop] counts from the end *)
Definition slice_to1 (t : ndarray R) (stop : Z) : res (ndarray R) :=
  match shape t with
  | s0 :: c :: rest =>
      let k := if (stop <? 0)%Z
               then Z.to_nat (Z.max 0 (Z.of_nat c + stop))
               else Nat.min (Z.to_nat stop) c in
      Ok (mkArr (s0 :: k :: rest) (item t))
  | _ => Raise (IndexError "too many indices for tensor")
  end.

(** [torch.zeros_like(t)] *)
Definition zeros_like (t : ndarray R) : ndarray R :=
  mkArr (shape t) (fun _ => zero).

(** [torch.cat([a, b], dim=1)]; a one-dimensional empty tensor is passed
    over, as torch does *)
Definition cat1 (a b : ndarray R) : outcome (ndarray R) :=
  match shape a, shape b with
  | [0], _ :: _ :: _ => Done b
  | _ :: _ :: _, [0] => Done a
  | sa :: ca :: ra, sb :: cb :: rb =>
      if (sa =? sb) && (if list_eq_dec Nat.eq_dec ra rb then true else false) then
        Done (mkArr (sa :: (ca + cb) :: ra)
                (fun idx => match idx with
                            | i :: j :: r =>
                                if j <? ca then item a (i :: j :: r)
                                else item b (i :: (j - ca) :: r)
                            | _ => item a idx
                            end))
      else RuntimeError "Sizes of tensors must match except in dimension 1"
  | _, _ => Fails (IndexError "Dimension out of range")
  end.

Definition quote : string := String (Ascii.ascii_of_nat 34) EmptyString.

Definition readout_split_error : string :=
  "readout_split must be " ++ quote ++ "first" ++ quote ++ " or "
  ++ quote ++ "second" ++ quote.

(** lines 599-625: [(_features_1, _features_2)], each with its data and
    its [requires_grad], from the features [existing] of the new readout,
    of which [c] is the number of channels, and the features [pretrained]
    of the state dictionary *)
Definition split_features (c : nat) (existing pretrained : ndarray R)
    (readout_split : string) (requires_grad_1 requires_grad_2 : bool)
    (init_features_zeros : bool)
    : res ((ndarray R * bool) * (ndarray R * bool)) :=
  do n_pre <- dim1 pretrained;
  if String.eqb readout_split "first" then
    do second <- slice_from1 existing n_pre;
    let second := if init_features_zeros then zeros_like second else second in
    Ok ((pretrained, requires_grad_1), (second, requires_grad_2))
  else if String.eqb readout_split "second" then
    do first <- slice_to1 existing (Z.of_nat c - Z.of_nat n_pre);
    let first := if init_features_zeros then zeros_like first else first in
    Ok ((first, requires_grad_1), (pretrained, requires_grad_2))
  else Raise (ValueError readout_split_error).

(** The object after [__init__]: the data of [_features] with its
    [requires_grad] when the constructor set it, the two parts of the split
    features when they exist, and [lib], the rest of the [FullGaussian2d]
    object. *)
Record joint_readout (L : Type) : Type := mkJoint {
  jr_features : ndarray R;
  jr_features_requires_grad : kwarg bool;
  jr_features_1 : option (ndarray R * bool);
  jr_features_2 : option (ndarray R * bool);
  jr_has_pretrained : bool;
  jr_lib : L
}.
Arguments mkJoint {L}.
Arguments jr_features {L}.
Arguments jr_features_requires_grad {L}.
Arguments jr_features_1 {L}.
Arguments jr_features_2 {L}.
Arguments jr_has_pretrained {L}.
Arguments jr_lib {L}.

(** [for field in fields_data: self = body(field, fields_data[field], self)] *)
Fixpoint for_items {V St} (body : string -> V -> St -> res St)
    (items : dict V) (s : St) : res St :=
  match items with
  | [] => Ok s
  | (k, v) :: rest =>
      match body k v s with
      | Ok s' => for_items body rest s'
      | Raise e => Raise e
      end
  end.

(** [__init__] (lines 559-628), after [super().__init__] has left the
    features [existing] and the object [lib].  [assign_data] stands for
    lines 627-628, [if field in dir(self): getattr(self, field).data = v],
    which depend on the attributes of the library object. *)
Definition JointReadout_init {L : Type}
    (assign_data : string -> ndarray R -> joint_readout L -> res (joint_readout L))
    (existing : ndarray R) (lib : L)
    (state_dict_session : option (dict (ndarray R)))
    (readout_split : string) (requires_grad_1 requires_grad_2 : bool)
    (fields_to_initialize : list string) (init_features_zeros : bool)
    : res (joint_readout L) :=
  let has_pretrained :=
    match state_dict_session with Some _ => true | None => false end in
  let listed := existsb (String.eqb "_features") fields_to_initialize in
  let self :=
    if listed then mkJoint existing Default None None has_pretrained lib
    else mkJoint (if init_features_zeros then zeros_like existing else existing)
           (Given (requires_grad_1 || requires_grad_2)) None None has_pretrained lib in
  if negb listed && negb has_pretrained then Ok self
  else
    do c <- dim1 existing;
    do items <-
      match state_dict_session with
      | Some d => Ok d
      | None => Raise (AttributeError "'NoneType' object has no attribute 'items'")
      end;
    let fields_data :=
      filter (fun kv => existsb (String.eqb (fst kv)) fields_to_initialize) items in
    for_items (fun field v self =>
        if String.eqb field "_features" then
          do (f1, f2) <- split_features c existing v readout_split
                           requires_grad_1 requires_grad_2 init_features_zeros;
          Ok (mkJoint (jr_features self) (jr_features_requires_grad self)
                (Some f1) (Some f2) (jr_has_pretrained self) (jr_lib self))
        else assign_data field v self)
      fields_data self.

(** the message of [torch.nn.Module.__getattr__] for a name that is not
    an attribute *)
Definition no_attribute (name : string) : string :=
  "'FullGaussian2dJointReadout' object has no attribute '" ++ name ++ "'".

(** the tensor that the property [features] (lines 636-642) hands to
    [_return_features] *)
Definition joint_features {L : Type} (self : joint_readout L) : outcome (ndarray R) :=
  if negb (jr_has_pretrained self) then Done (jr_features self)
  else
    match jr_features_1 self, jr_features_2 self with
    | Some (f1, _), Some (f2, _) => cat1 f1 f2
    | None, _ => Fails (AttributeError (no_attribute "_features_1"))
    | _, None => Fails (AttributeError (no_attribute "_features_2"))
    end.

(** *** When a factory constructs its container *)



End Model.

Arguments mkJoint {R L}.
Arguments jr_features {R L}.
Arguments jr_features_requires_grad {R L}.
Arguments jr_features_1 {R L}.
Arguments jr_features_2 {R L}.
Arguments jr_has_pretrained {R L}.
Arguments jr_lib {R L}.

End ReadoutsMore.

(* ------------------------------------------------------------------ *)
(** ** More example data                                               *)
(* ------------------------------------------------------------------ *)

Module MoreExamples.
Import Readouts ReadoutsMore Loaders LoadersWorld Examples LoaderExamples.

(** *** Calls of the loaders *)

Definition static_call_with (data_files : list string) (bins : time_bins)
    (return_info store_info : bool) (frac : Q) : static_args :=
  mkStaticArgs "CSRF19_V1" data_files "images/individual" 64 (Some 1%Z) (8 # 10)
    (PyInt 1) (CropInt 10) (PyFloat 1) bins false PyNone return_info store_info
    (FracOne frac) None true PyNone PyNone None (457 # 100) true true.

Definition mua_call_with (data_files mua_files : list string) (bins : time_bins)
    (return_info store_info : bool) : mua_args :=
  mkMuaArgs "CSRF19_V1" data_files mua_files "images/individual" 64 (Some 1%Z)
    (8 # 10) (PyInt 1) (CropInt 10) (PyFloat 1) bins true PyNone return_info
    store_info None false.

Definition closed_call_with (data_files : list string) (bins : time_bins)
    (return_info store_info : bool) (frac : Q) (mei control : bool)
    : closed_loop_args :=
  mkClosedLoopArgs "CSRF19_V1" data_files "images/individual" 64 (Some 1%Z)
    (8 # 10) (PyInt 1) (CropInt 10) (PyFloat 1) bins false PyNone return_info
    store_info (FracOne frac) None true (StimOne PyNone) PyNone PyNone mei control.

(** *** A closed-loop session *)

(** a session file of the closed-loop experiments: the responses to the
    MEIs and to the control images next to the training and the test set *)
Definition closed_session_file (id : Z)
    (training_ids testing_ids mei_ids control_ids : list Z) : @pickled Z :=
  PickledRaw
    [("subject_id", RawValue (PyStr "monkey"));
     ("session_id", RawSession (SessInt id));
     ("training_responses", RawArray (responses (length training_ids)));
     ("testing_responses", RawArray (responses (length testing_ids)));
     ("mei_uncropped_responses", RawArray (responses (length mei_ids)));
     ("control_uncropped_responses", RawArray (responses (length control_ids)));
     ("mei_cropped_responses", RawArray (responses (length mei_ids)));
     ("control_cropped_responses", RawArray (responses (length control_ids)));
     ("training_image_ids", RawIds training_ids);
     ("testing_image_ids", RawIds testing_ids);
     ("mei_uncropped_ids", RawIds mei_ids);
     ("mei_cropped_ids", RawIds (map (Z.add 100) mei_ids));
     ("control_uncropped_ids", RawIds control_ids);
     ("control_cropped_ids", RawIds (map (Z.add 100) control_ids));
     ("unit_ids", RawIds [0; 1]%Z)].

(** two closed-loop sessions next to the files of [lab] *)
Definition closed_lab : @World Z :=
  mkWorld
    (fun p =>
       if String.eqb p "data/c.pickle"
       then Some (closed_session_file 3631896544452 [0; 8; 3; 12]%Z [20; 21]%Z
                    [4; 9]%Z [6]%Z)
       else if String.eqb p "data/d.pickle"
       then Some (closed_session_file 3632669014376 [1; 2; 8; 9]%Z [20; 21]%Z
                    [7]%Z [5; 6]%Z)
       else files lab p)
    (dirs lab) [] [] [].

Definition closed_sessions : list string := ["data/c.pickle"; "data/d.pickle"].

Definition no_closed_state : @closed_state Z := mkClosedState [] [] [].

(** the call over the two sessions with the MEIs in the training set *)
Definition mei_call : closed_loop_args :=
  closed_call_with closed_sessions (TbInt 2) false true 1 true false.

(** its first session, after the image cache was set up with the mean
    [mean] *)
Definition first_closed_session (mean : value) :=
  closed_session_step mei_call [0; 1]%Z [1; 1]%Q [PyNone; PyNone]
    [(10, 10); (10, 10)]%Z "images/individual" 0%Z
    [0; 1; 2; 3; 4; 5; 6; 7]%Z [8; 9]%Z mean (PyFloat (1 # 4)) 0 "data/c.pickle"
    (mkClosedState (closed_dataloaders mei_call) [] []) closed_lab.

(** *** Multi-unit responses *)



(** *** Readouts *)

(** integer tensors: the inner product of two rows *)
#[export] Instance toy_ops : TensorOps nat := {
  dot := fun a b => fold_right Nat.add 0 (map (fun p => fst p * snd p) (combine a b));
  add := Nat.add;
  zero := 0
}.

Definition one_in_shape : dict (list nat) := [("3631896544452", [1; 1; 4; 4])].
Definition one_n_neurons : dict nat := [("3631896544452", 5)].

(** the shared attention readout of one session, in its default
    configuration *)
Definition build_single : res (@shared_attention) :=
  MultipleSharedMultiHeadAttention2d_init (R := nat) (KW := unit) tt
    one_in_shape one_n_neurons
    (PyBool true) (PyInt 0) (PyInt 0) (PyInt 0) true (PyBool false) 2
    (PyBool false) false false
    (PyPair (PyBool false) (PyFloat 1)) (PyFloat (1 # 10)) false false None None.

Definition single_shared : shared_attention := unwrap_shared build_single.





(** the weight of a dense readout with three outputs for eight channels on
    a 2 x 2 grid *)
Definition dense_weight : ndarray nat :=
  mkArr [3; 32]
    (fun idx => match idx with
                | [q; k] => if k =? q then 1 else 0
                | _ => 0
                end).

Definition dense_toy : dense_readout := mkDense dense_weight None.

(** as many entries in another arrangement: two channels on an 8 x 2
    grid *)
Definition features_reshaped : ndarray nat :=
  mkArr [1; 2; 8; 2] (item features).

(** the features of a new joint readout, five channels for three neurons,
    and of a pretrained one with two channels *)
Definition new_features : ndarray nat :=
  mkArr [1; 5; 1; 3]
    (fun idx => match idx with
                | [_; c; _; n] => 100 + 10 * c + n
                | _ => 0
                end).

Definition pretrained_features : ndarray nat :=
  mkArr [1; 2; 1; 3]
    (fun idx => match idx with
                | [_; c; _; n] => 10 * c + n
                | _ => 0
                end).

(** a state dictionary of a pretrained session *)
Definition pretrained_state : dict (ndarray nat) :=
  [("_features", pretrained_features); ("_mu", mkArr [1; 3; 1; 2] (fun _ => 1))].

(** lines 627-628 for a readout none of whose other fields is listed *)
Definition assign_nothing (field : string) (v : ndarray nat)
    (self : @joint_readout nat unit) : res (@joint_readout nat unit) :=
  Ok self.

(** lines 627-628 for a readout whose further parameters are those of
    [jr_lib]: the data of the parameter of that name is replaced, a field
    that is no attribute is passed over *)
Definition assign_parameter (field : string) (v : ndarray nat)
    (self : @joint_readout nat (dict (ndarray nat)))
    : res (@joint_readout nat (dict (ndarray nat))) :=
  Ok (if dict_mem field (jr_lib self)
      then mkJoint (jr_features self) (jr_features_requires_grad self)
             (jr_features_1 self) (jr_features_2 self) (jr_has_pretrained self)
             (dict_set field v (jr_lib self))
      else self).

(** the further parameters of the new readout *)
Definition new_parameters : dict (ndarray nat) :=
  [("_mu", mkArr [1; 3; 1; 2] (fun _ => 0))].



(** Two cores: the core [true] is the one of [toy_torch]; the core [false]
    ends in a pooling over the rows, so that its output has two feature
    dimensions. *)
#[export] Instance pooling_torch : Torch nat bool unit := {
  get_module_output := fun spatial shp =>
    match shp with
    | [b; _; w; h] => Ok (if spatial then [b; 8; w; h] else [b; 8; w])
    | _ => Raise (ValueError "core expects a batch of images")
    end;
  construct := fun _ => Ok tt;
  call_module := call_module (Torch := toy_torch);
  class_attr := class_attr (Torch := toy_torch)
}.


End MoreExamples.

(* ------------------------------------------------------------------ *)
(** ** Facts about dictionaries and loops                              *)
(* ------------------------------------------------------------------ *)

Module PyFacts.

Lemma dict_get_set_eq {V} (k : string) (v : V) (d : dict V) :
  dict_get k (dict_set k v d) = Some v.
Proof.
  induction d as [|[k' v'] d IH]; simpl.
  - now rewrite String.eqb_refl.
  - destruct (String.eqb k k') eqn:E; simpl.
    + now rewrite String.eqb_refl.
    + now rewrite E.
Qed.

Lemma dict_get_set_neq {V} (k k' : string) (v : V) (d : dict V) :
  k <> k' -> dict_get k' (dict_set k v d) = dict_get k' d.
Proof.
  intros Hne. induction d as [|[k0 v0] d IH]; simpl.
  - destruct (String.eqb k' k) eqn:E; auto.
    apply String.eqb_eq in E. congruence.
  - destruct (String.eqb k k0) eqn:E; simpl.
    + apply String.eqb_eq in E. subst k0.
      destruct (String.eqb k' k) eqn:E'; auto.
      apply String.eqb_eq in E'. congruence.
    + destruct (String.eqb k' k0); auto.
Qed.

Lemma dict_get_in_keys {V} (k : string) (d : dict V) :
  In k (dict_keys d) <-> exists v, dict_get k d = Some v.
Proof.
  induction d as [|[k' v'] d IH]; simpl.
  - split; [tauto | intros [v H]; discriminate].
  - destruct (String.eqb k k') eqn:E.
    + apply String.eqb_eq in E. subst. split; eauto.
    + apply String.eqb_neq in E. rewrite <- IH. split.
      * intros [H | H]; [congruence | auto].
      * auto.
Qed.

Lemma dict_get_none {V} (k : string) (d : dict V) :
  ~ In k (dict_keys d) <-> dict_get k d = None.
Proof.
  rewrite dict_get_in_keys. destruct (dict_get k d); split; intros H.
  - exfalso. eauto.
  - discriminate.
  - reflexivity.
  - intros [v Hv]. discriminate.
Qed.

Lemma dict_keys_set_in {V} (k : string) (v : V) (d : dict V) :
  In k (dict_keys d) -> dict_keys (dict_set k v d) = dict_keys d.
Proof.
  induction d as [|[k' v'] d IH]; simpl; [tauto|].
  destruct (String.eqb k k') eqn:E; simpl.
  - apply String.eqb_eq in E. now subst.
  - apply String.eqb_neq in E. intros [H | H]; [congruence|].
    f_equal. auto.
Qed.

Lemma dict_keys_set_fresh {V} (k : string) (v : V) (d : dict V) :
  ~ In k (dict_keys d) -> dict_keys (dict_set k v d) = (dict_keys d ++ [k])%list.
Proof.
  induction d as [|[k' v'] d IH]; simpl; [reflexivity|].
  intros H. destruct (String.eqb k k') eqn:E; simpl.
  - apply String.eqb_eq in E. subst. tauto.
  - f_equal. apply IH. tauto.
Qed.

Lemma dict_keys_set_iff {V} (k k' : string) (v : V) (d : dict V) :
  In k' (dict_keys (dict_set k v d)) <-> k' = k \/ In k' (dict_keys d).
Proof.
  rewrite !dict_get_in_keys.
  destruct (string_dec k k') as [-> | Hne].
  - rewrite dict_get_set_eq. split; eauto.
  - rewrite dict_get_set_neq by assumption. split; [tauto|].
    intros [H | H]; [congruence | assumption].
Qed.

Lemma dict_set_nodup {V} (k : string) (v : V) (d : dict V) :
  NoDup (dict_keys d) -> NoDup (dict_keys (dict_set k v d)).
Proof.
  intros H. destruct (in_dec string_dec k (dict_keys d)) as [Hin | Hnin].
  - now rewrite dict_keys_set_in.
  - rewrite dict_keys_set_fresh by assumption.
    apply NoDup_app; [assumption | constructor; [simpl; tauto | constructor] |].
    intros x Hx [Hk | []]. subst. tauto.
Qed.

Lemma bind_ok {A B} (m : res A) (f : A -> res B) (b : B) :
  Py.bind m f = Ok b -> exists a, m = Ok a /\ f a = Ok b.
Proof. destruct m; simpl; [eauto | discriminate]. Qed.

(** A loop invariant for [for_enumerate]: what every turn preserves holds
    at the end, with the keys seen so far. *)
Lemma for_enumerate_invariant {St} (body : nat -> string -> St -> res St)
    (Inv : list string -> St -> Prop) :
  (forall i k s s' done, Inv done s -> body i k s = Ok s' -> Inv (done ++ [k])%list s') ->
  forall keys i s s' done,
    Inv done s -> for_enumerate body i keys s = Ok s' -> Inv (done ++ keys)%list s'.
Proof.
  intros Hstep keys. induction keys as [|k keys IH]; simpl; intros i s s' done Hinv H.
  - inversion H. subst. now rewrite app_nil_r.
  - destruct (body i k s) as [s1|e] eqn:E; [|discriminate].
    replace (done ++ k :: keys)%list with ((done ++ [k]) ++ keys)%list
      by (rewrite <- app_assoc; reflexivity).
    eapply IH; eauto.
Qed.

End PyFacts.

(* ------------------------------------------------------------------ *)
(** ** Properties of the readouts                                      *)
(* ------------------------------------------------------------------ *)

Module ReadoutsSpec.
Import Readouts PyFacts.

Ltac inv_res :=
  repeat match goal with
  | H : Py.bind ?m _ = Ok _ |- _ =>
      let a := fresh "a" in
      let E := fresh "E" in
      destruct (bind_ok _ _ _ H) as (a & E & ?); clear H; cbv beta in *
  | H : Ok _ = Ok _ |- _ => inversion H; subst; clear H
  | H : Raise _ = Ok _ |- _ => discriminate H
  | H : (let '(_, _) := ?p in _) = Ok _ |- _ => destruct p
  | H : (if ?b then _ else _) = Ok _ |- _ => destruct b eqn:?; try discriminate H
  end.

Section Factories.
Context {R Core KW : Type} `{T : Torch R Core KW}.
Variables (core : Core) (isd : dict (list nat)) (nnd : dict nat).

Lemma dict_item_ok {V} (k : string) (d : dict V) (v : V) :
  dict_item k d = Ok v -> dict_get k d = Some v.
Proof. unfold dict_item. destruct (dict_get k d); congruence. Qed.

Lemma add_module_ok own k m mods mods' :
  add_module own k m mods = Ok mods' -> mods' = dict_set k m mods.
Proof. unfold add_module. intros H. inv_res. reflexivity. Qed.

Lemma register_ok own k r mods mods' :
  register own k r mods = Ok mods' -> mods' = dict_set k (Readout r) mods.
Proof. unfold register. intros H. inv_res. eauto using add_module_ok. Qed.

Lemma session_in_shape_ok k s :
  session_in_shape core isd k = Ok s ->
  exists shp out, dict_get k isd = Some shp /\ get_module_output core shp = Ok out
                  /\ s = tl out.
Proof.
  unfold session_in_shape. intros H. inv_res.
  do 2 eexists. repeat split; eauto using dict_item_ok.
Qed.

Lemma session_readout_intro k r s n :
  session_in_shape core isd k = Ok s -> dict_item k nnd = Ok n ->
  r_in_shape r = s -> r_outdims r = n ->
  session_readout core isd nnd k r.
Proof.
  intros Hs Hn Hi Ho. apply session_in_shape_ok in Hs.
  destruct Hs as (shp & out & H1 & H2 & H3). apply dict_item_ok in Hn.
  exists shp, out, n. subst. auto.
Qed.

Lemma registered_step done mods k r :
  sessions_registered core isd nnd done mods ->
  session_readout core isd nnd k r ->
  sessions_registered core isd nnd (done ++ [k]) (dict_set k (Readout r) mods).
Proof.
  intros (Hnd & Hall & Honly) Hr. split; [|split].
  - now apply dict_set_nodup.
  - intros k' Hin. destruct (string_dec k k') as [-> | Hne].
    + rewrite dict_get_set_eq. eauto.
    + rewrite dict_get_set_neq by assumption.
      apply in_app_or in Hin. destruct Hin as [Hin | [Hin | []]]; [auto | congruence].
  - intros k' m Hget Hm. apply in_or_app.
    destruct (string_dec k k') as [-> | Hne]; [right; simpl; auto|].
    rewrite dict_get_set_neq in Hget by assumption. left. eauto.
Qed.

(** a loop body that registers one session readout per turn *)
Definition registering {St} (proj : St -> dict module)
    (body : nat -> string -> St -> res St) : Prop :=
  forall i k s s', body i k s = Ok s' ->
    exists r, proj s' = dict_set k (Readout r) (proj s) /\
              session_readout core isd nnd k r.

Lemma registering_loop {St} (proj : St -> dict module) body keys i (s s' : St) :
  registering proj body ->
  sessions_registered core isd nnd [] (proj s) ->
  for_enumerate body i keys s = Ok s' ->
  sessions_registered core isd nnd keys (proj s').
Proof.
  intros Hbody Hinit Hloop.
  change keys with ([] ++ keys)%list.
  eapply (for_enumerate_invariant body
            (fun done st => sessions_registered core isd nnd done (proj st)));
    eauto.
  intros i0 k st st' done Hinv Hb.
  destruct (Hbody _ _ _ _ Hb) as (r & -> & Hr).
  now apply registered_step.
Qed.

Lemma registered_nil : sessions_registered core isd nnd [] [].
Proof.
  split; [constructor | split]; simpl.
  - tauto.
  - discriminate.
Qed.


Lemma dense_readout_ok in_shape n b noise r l :
  DenseReadout_init in_shape n b noise = Ok (r, l) ->
  r_in_shape r = in_shape /\ r_outdims r = n.
Proof.
  unfold DenseReadout_init.
  destruct in_shape as [|c [|w [|h [|]]]]; try discriminate.
  intros H. inversion H. subst. simpl. auto.
Qed.

Lemma shared_aux_modules (pe ln ke ve : bool) (m1 m2 m3 m4 : module) :
  is_readout m1 = false -> is_readout m2 = false ->
  is_readout m3 = false -> is_readout m4 = false ->
  sessions_registered core isd nnd []
    (let mods := [] in
     let mods := if pe then dict_set "position_embedding" m1 mods else mods in
     let mods := if ln then dict_set "norm" m2 mods else mods in
     if ke && ve then dict_set "to_kv" m3 mods
     else if ke then dict_set "to_key" m4 mods else mods).
Proof.
  intros H1 H2 H3 H4.
  split; [|split].
  - destruct pe, ln, ke, ve; simpl;
      repeat (constructor; [simpl; intuition discriminate|]); constructor.
  - simpl. tauto.
  - intros k m Hget Hm. exfalso.
    destruct pe, ln, ke, ve; simpl in Hget;
      repeat match type of Hget with
             | (if ?b then _ else _) = _ => destruct b
             end;
      try discriminate; inversion Hget; subst; congruence.
Qed.

End Factories.

Ltac registering_body :=
  let H := fresh "H" in
  intros ? ? ? ? H; inv_res;
  match goal with
  | Hreg : register _ _ _ _ = Ok _ |- _ => apply register_ok in Hreg; simpl
  end;
  eexists; split; [eassumption|];
  eapply session_readout_intro; eauto.

Section FactoryTheorem.
Context {R Core KW : Type} `{T : Torch R Core KW}.

(** A readout factory that was constructed from a core and the dictionaries
    [in_shape_dict] and [n_neurons_dict] has registered exactly one readout
    submodule per key [k] of [n_neurons_dict]: no key is registered twice,
    the module under [k] is a readout whose output dimension is
    [n_neurons_dict[k]] and whose input shape is
    [get_module_output(core, in_shape_dict[k])[1:]], and no readout is
    registered under any other key. *)
Theorem factory_registers_one_readout_per_session :
  forall (f : factory) (core : Core) (in_shape_dict : dict (list nat))
         (n_neurons_dict : dict nat) (mods : dict module),
    construct_factory f core in_shape_dict n_neurons_dict = Ok mods ->
    sessions_registered core in_shape_dict n_neurons_dict
      (dict_keys n_neurons_dict) mods.
Proof.
  intros f core isd nnd mods H.
  destruct f; simpl in H.
  - unfold MultiplePointPooled2d_init in H. inv_res. simpl.
    eapply (registering_loop core isd nnd (fun m => m));
      [| apply registered_nil | eassumption].
    registering_body.
  - unfold MultipleGaussian2d_init in H. inv_res. simpl.
    eapply (registering_loop core isd nnd (fun m => m));
      [| apply registered_nil | eassumption].
    registering_body.
  - unfold MultipleSelfAttention2d_init in H. inv_res. simpl.
    eapply (registering_loop core isd nnd (fun m => m));
      [| apply registered_nil | eassumption].
    registering_body.
  - unfold MultipleMultiHeadAttention2d_init in H. inv_res. simpl.
    eapply (registering_loop core isd nnd (fun m => m));
      [| apply registered_nil | eassumption].
    registering_body.
  - unfold MultipleSharedMultiHeadAttention2d_init in H. inv_res. simpl.
    eapply (registering_loop core isd nnd (fun m => m));
      [| | eassumption].
    + registering_body.
    + apply shared_aux_modules; reflexivity.
  - unfold MultipleSpatialXFeatureLinear_init in H. inv_res. simpl.
    eapply (registering_loop core isd nnd (fun m => m));
      [| apply registered_nil | eassumption].
    registering_body.
  - unfold MultipleFullGaussian2d_init in H. inv_res. simpl.
    match goal with
    | E : for_enumerate _ _ _ _ = Ok (?o, ?d) |- _ => change d with (snd (o, d))
    end.
    eapply (registering_loop core isd nnd snd); [| | eassumption];
      [| apply registered_nil].
    registering_body.
  - unfold MultipleRemappedGaussian2d_init in H. inv_res. simpl.
    match goal with
    | E : for_enumerate _ _ _ _ = Ok (?o, ?d) |- _ => change d with (snd (o, d))
    end.
    eapply (registering_loop core isd nnd snd); [| | eassumption];
      [| apply registered_nil].
    registering_body.
  - unfold MultipleAttention2d_init in H. inv_res. simpl.
    match goal with
    | E : for_enumerate _ _ _ _ = Ok (?o, ?d) |- _ => change d with (snd (o, d))
    end.
    eapply (registering_loop core isd nnd snd); [| | eassumption];
      [| apply registered_nil].
    registering_body.
  - unfold MultipleDense_init in H. inv_res. simpl.
    match goal with
    | E : for_enumerate _ _ _ _ = Ok (?o, ?d) |- _ => change d with (snd (o, d))
    end.
    eapply (registering_loop core isd nnd snd); [| | eassumption];
      [| apply registered_nil].
    intros i k s s' Hb. inv_res.
    match goal with
    | Hd : DenseReadout_init _ _ _ _ = Ok _ |- _ =>
        apply dense_readout_ok in Hd; destruct Hd
    end.
    match goal with
    | Ha : add_module _ _ _ _ = Ok _ |- _ => apply add_module_ok in Ha
    end.
    simpl. eexists; split; [eassumption|].
    eapply session_readout_intro; eauto.
  - unfold MultipleFullGaussian2dJointReadout_init in H. inv_res. simpl.
    match goal with
    | E : for_enumerate _ _ _ _ = Ok (?o, ?d) |- _ => change d with (snd (o, d))
    end.
    eapply (registering_loop core isd nnd snd); [| | eassumption];
      [| apply registered_nil].
    registering_body.
Qed.











(** C3, as amended. In every multi-readout container whose forward pass is
    that of [MultiReadout] (its subclasses, and [MultipleGaussian2d],
    [MultipleSelfAttention2d] and [MultipleMultiHeadAttention2d], which
    repeat it), [forward(x, data_key=k)] applies the module registered
    under [k] to the arguments, and with [data_key=None] and exactly one
    registered module that module is applied.
    [MultipleSharedMultiHeadAttention2d.forward(x, data_key=k)] applies the
    module registered under [k] to the pair [(key, value)] it derives from
    [x]. *)
Theorem forward_applies_session_readout :
  forall (self : module_dict) (args : list (ndarray R)) (kwargs : KW)
         (k : string) (m : module),
    dict_get k (modules self) = Some m ->
    (MultiReadout_forward self args (Some k) kwargs = call_module m args kwargs /\
     MultipleGaussian2d_forward self args (Some k) kwargs = call_module m args kwargs /\
     MultipleSelfAttention2d_forward self args (Some k) kwargs = call_module m args kwargs /\
     MultipleMultiHeadAttention2d_forward self args (Some k) kwargs
       = call_module m args kwargs) /\
    (length (modules self) = 1 ->
     MultiReadout_forward self args None kwargs = call_module m args kwargs /\
     MultipleGaussian2d_forward self args None kwargs = call_module m args kwargs /\
     MultipleSelfAttention2d_forward self args None kwargs = call_module m args kwargs /\
     MultipleMultiHeadAttention2d_forward self args None kwargs
       = call_module m args kwargs) /\
    (forall (kwargs0 : KW) (shared : shared_attention) (x key value : ndarray R),
       dict_get k (sa_modules shared) = Some m ->
       key_value shared x kwargs0 = Ok (key, value) ->
       MultipleSharedMultiHeadAttention2d_forward kwargs0 shared x (Some k) kwargs
         = call_module m [key; value] kwargs).
Proof.
  intros self args kwargs k m Hget. split; [|split].
  - unfold MultiReadout_forward, MultipleGaussian2d_forward,
      MultipleSelfAttention2d_forward, MultipleMultiHeadAttention2d_forward.
    simpl. unfold dict_item. rewrite Hget. simpl. auto.
  - intros Hlen.
    unfold MultiReadout_forward, MultipleGaussian2d_forward,
      MultipleSelfAttention2d_forward, MultipleMultiHeadAttention2d_forward.
    rewrite Hlen. simpl.
    destruct (modules self) as [|[k1 m1] [|? ?]]; try discriminate.
    simpl in *. destruct (String.eqb k k1) eqn:E; [|discriminate].
    inversion Hget. subst. unfold dict_item. simpl.
    rewrite String.eqb_refl. simpl. auto.
  - intros kwargs0 shared x key value Hk Hkv.
    unfold MultipleSharedMultiHeadAttention2d_forward.
    rewrite Hkv. simpl. unfold dict_item. rewrite Hk. reflexivity.
Qed.


Lemma flatten_2_3_ok (x : ndarray R) i c w h :
  shape x = [i; c; w; h] -> flattened x (flatten_2_3 x) i c w h.
Proof.
  intros Hs. unfold flattened, flatten_2_3. rewrite Hs. simpl. auto.
Qed.

Lemma divide_axis_ok len known d :
  divide_axis len known = Ok d -> known * d = len.
Proof.
  unfold divide_axis. intros H. inv_res.
  match goal with
  | Hm : (_ mod _ =? 0) = true |- _ => apply Nat.eqb_eq in Hm
  end.
  symmetry. now apply Nat.Div0.div_exact.
Qed.

Lemma rearrange_ihds_ok (t v : ndarray R) heads :
  rearrange_ihds t heads = Ok v -> split_heads heads t v.
Proof.
  unfold rearrange_ihds, split_heads.
  destruct (shape t) as [|i [|c [|s [|]]]] eqn:Hs; try discriminate.
  intros H. inv_res.
  match goal with
  | Hd : divide_axis _ _ = Ok ?d |- _ => apply divide_axis_ok in Hd; exists i, c, s, d
  end.
  simpl. auto.
Qed.

Lemma rearrange_is_hd_ok (t v : ndarray R) heads i :
  rearrange_is_hd_ihds t heads i = Ok v -> split_heads_of_rows heads i t v.
Proof.
  unfold rearrange_is_hd_ihds, split_heads_of_rows.
  destruct (shape t) as [|n [|m [|]]] eqn:Hs; try discriminate.
  intros H. inv_res.
  repeat match goal with
  | Hd : divide_axis _ _ = Ok _ |- _ => apply divide_axis_ok in Hd
  end.
  do 4 eexists. simpl. repeat split; eauto.
Qed.

Lemma rearrange_ics_ok (t flat : ndarray R) :
  rearrange_ics_is_c t = Ok flat -> rows_of t flat.
Proof.
  unfold rearrange_ics_is_c, rows_of.
  destruct (shape t) as [|i [|c [|s [|]]]] eqn:Hs; try discriminate.
  intros H. inv_res. exists i, c, s. simpl. auto.
Qed.

Lemma chunk2_ok (t k v : ndarray R) :
  chunk2 t = Ok (k, v) -> halves t k v.
Proof.
  unfold chunk2, halves. destruct (rev (shape t)) as [|m front] eqn:Hr; [discriminate|].
  intros H. inv_res. exists (rev front), m.
  assert (Hs : shape t = (rev front ++ [m])%list).
  { rewrite <- (rev_involutive (shape t)), Hr. reflexivity. }
  simpl. repeat split; auto.
Qed.

(** C5, as amended. For every input [x] of shape [(i, c, w, h)] on which
    the key and value are built, [forward] flattens [x] to shape
    [(i, c, w*h)] and embeds it (positional embedding when [use_pos_enc],
    then layer norm when configured) into [x_embed].  With [key_embedding]
    and [value_embedding] both set, key and value are the two halves of the
    shared linear embedding [to_kv] of [x_embed]; with [key_embedding]
    alone the key is the linear embedding [to_key] of [x_embed] and the
    value is the unembedded [x]; without [key_embedding] the key is
    [x_embed] itself and the value is the unembedded [x], whatever
    [value_embedding] says.  Both are brought to shape
    [(i, heads, d, s)] with [heads * d] the channel dimension they come
    from, and the result of [forward] is the session readout applied to
    [(key, value)]. *)
Theorem shared_forward_builds_key_value :
  forall (kwargs0 : KW) (self : shared_attention) (x key value : ndarray R)
         (i c w h : nat),
    shape x = [i; c; w; h] ->
    key_value self x kwargs0 = Ok (key, value) ->
    let xf := flatten_2_3 x in
    flattened x xf i c w h /\
    (exists x_embed,
       embed self xf kwargs0 = Ok x_embed /\
       match sa_key_embedding self, sa_value_embedding self with
       | true, true =>
           exists to_kv flat kv k2 v2,
             getattr_module self "to_kv" = Ok to_kv /\
             rows_of x_embed flat /\
             call_module to_kv [flat] kwargs0 = Ok kv /\
             halves kv k2 v2 /\
             split_heads_of_rows (sa_heads self) i k2 key /\
             split_heads_of_rows (sa_heads self) i v2 value
       | true, false =>
           exists to_key flat emb,
             getattr_module self "to_key" = Ok to_key /\
             rows_of x_embed flat /\
             call_module to_key [flat] kwargs0 = Ok emb /\
             split_heads_of_rows (sa_heads self) i emb key /\
             split_heads (sa_heads self) xf value
       | false, _ =>
           split_heads (sa_heads self) x_embed key /\
           split_heads (sa_heads self) xf value
       end) /\
    (forall (k : string) (m : module) (kwargs : KW),
       dict_get k (sa_modules self) = Some m ->
       MultipleSharedMultiHeadAttention2d_forward kwargs0 self x (Some k) kwargs
         = call_module m [key; value] kwargs).
Proof.
  intros kwargs0 self x key value i c w h Hs Hkv xf.
  split; [now apply flatten_2_3_ok|]. split.
  - unfold key_value in Hkv. unfold size4 in Hkv. rewrite Hs in Hkv.
    simpl in Hkv. fold xf in Hkv.
    destruct (embed self xf kwargs0) as [x_embed|e] eqn:He; [|discriminate].
    simpl in Hkv. exists x_embed. split; [reflexivity|].
    destruct (sa_key_embedding self), (sa_value_embedding self);
      simpl in Hkv; inv_res.
    + do 5 eexists.
      repeat split; eauto using rearrange_ics_ok, chunk2_ok, rearrange_is_hd_ok.
    + do 3 eexists.
      repeat split;
        eauto using rearrange_ics_ok, rearrange_is_hd_ok, rearrange_ihds_ok.
    + split; eauto using rearrange_ihds_ok.
    + split; eauto using rearrange_ihds_ok.
  - intros k m kwargs Hk.
    unfold MultipleSharedMultiHeadAttention2d_forward.
    rewrite Hkv. simpl. unfold dict_item. rewrite Hk. reflexivity.
Qed.

End FactoryTheorem.
End ReadoutsSpec.

(* ------------------------------------------------------------------ *)
(** ** The readout properties on concrete containers                   *)
(* ------------------------------------------------------------------ *)

Module ReadoutsRuns.
Import Readouts Examples ReadoutsSpec.

Example shared_default_modules :
  dict_keys (sa_modules shared_default)
  = ["position_embedding"; "3631896544452"; "3632669014376"].
Proof. reflexivity. Qed.

Example shared_kv_modules :
  dict_keys (sa_modules shared_kv)
  = ["position_embedding"; "norm"; "to_kv"; "3631896544452"; "3632669014376"].
Proof. reflexivity. Qed.

Example shared_value_shape :
  shape (snd (key_value_of shared_default features)) = [1; 2; 4; 4].
Proof. reflexivity. Qed.

(** The factory theorem applied to the dense and to the shared attention
    factory over two sessions. *)
Lemma factory_registers_witness :
  sessions_registered tt two_in_shapes two_n_neurons
    (dict_keys two_n_neurons) dense_modules /\
  sessions_registered tt two_in_shapes two_n_neurons
    (dict_keys two_n_neurons) shared_modules.
Proof.
  split.
  - apply (factory_registers_one_readout_per_session
             (FDense (PyBool true) (PyFloat (1 # 2)) (PyFloat (1 # 1000)))).
    reflexivity.
  - apply (factory_registers_one_readout_per_session
             (FSharedMultiHeadAttention2d (PyBool true) (PyInt 0) (PyInt 0) (PyInt 0)
                true (PyBool false) 2 (PyBool false) true true
                (PyPair (PyBool false) (PyFloat 1)) (PyFloat (1 # 10)) true false
                None None)).
    reflexivity.
Defined.


(** The dispatch theorem applied to the dense container and to the shared
    attention container. *)
Lemma forward_applies_witness :
  MultiReadout_forward dense_container [features] (Some "3632669014376") tt
    = call_module (module_at "3632669014376" dense_modules) [features] tt.
Proof.
  apply (forward_applies_session_readout dense_container [features] tt
           "3632669014376" (module_at "3632669014376" dense_modules)).
  reflexivity.
Defined.

(** C3 as stated fails for [MultipleSharedMultiHeadAttention2d]: its forward
    pass does not apply the session readout to [x] but to the key and the
    value; the toy readout, which reports its arguments, is called on two
    tensors, the first of shape (1, 2, 4, 4), and not on the one tensor [x]
    of shape (1, 8, 2, 2). *)
Lemma shared_forward_not_applied_to_x :
  let called := MultipleSharedMultiHeadAttention2d_forward tt shared_default
                  features (Some "3631896544452") tt in
  let claimed := forward_applied_to_x (sa_modules shared_default) features
                   "3631896544452" tt in
  shape features = [1; 8; 2; 2] /\
  option_map shape (match called with Ok t => Some t | Raise _ => None end)
    = Some [2; 5; 1; 2; 4; 4] /\
  option_map shape (match claimed with Ok t => Some t | Raise _ => None end)
    = Some [1; 5; 1; 8; 2; 2] /\
  called <> claimed.
Proof.
  cbv zeta. split; [reflexivity|]. split; [reflexivity|]. split; [reflexivity|].
  intros H.
  apply (f_equal (fun r => match r with Ok t => shape t | Raise _ => [] end)) in H.
  vm_compute in H. discriminate H.
Qed.

(** The key and value theorem applied to the default container. *)
Lemma shared_forward_witness :
  flattened features (flatten_2_3 features) 1 8 2 2 /\
  MultipleSharedMultiHeadAttention2d_forward tt shared_default features
    (Some "3631896544452") tt
  = call_module (module_at "3631896544452" (sa_modules shared_default))
      [fst (key_value_of shared_default features);
       snd (key_value_of shared_default features)] tt.
Proof.
  assert (Hkv : key_value shared_default features tt
                = Ok (fst (key_value_of shared_default features),
                      snd (key_value_of shared_default features)))
    by (vm_compute; reflexivity).
  destruct (shared_forward_builds_key_value tt shared_default features
              (fst (key_value_of shared_default features))
              (snd (key_value_of shared_default features)) 1 8 2 2
              eq_refl Hkv) as (Hf & _ & Hcall).
  split; [exact Hf|].
  apply Hcall. reflexivity.
Defined.

(** C5 as stated fails when [value_embedding] is set without
    [key_embedding]: no linear embedding exists in the container, the value
    is the unembedded input and the key is [x_embed], while the claimed
    computation would need the layer [to_kv]. *)
Lemma value_embedding_alone_is_ignored :
  sa_value_embedding shared_value_only = true /\
  dict_get "to_kv" (sa_modules shared_value_only) = None /\
  dict_get "to_key" (sa_modules shared_value_only) = None /\
  is_ok (key_value shared_value_only features tt) = true /\
  (forall a hh dd ss,
     item (snd (key_value_of shared_value_only features)) [a; hh; dd; ss]
     = item features [a; hh * 4 + dd; ss / 2; ss mod 2]) /\
  key_value shared_value_only features tt
  <> key_value_as_claimed shared_value_only features tt.
Proof.
  repeat split; try reflexivity.
  intros H. apply (f_equal is_ok) in H. vm_compute in H. discriminate H.
Qed.


End ReadoutsRuns.

(* ------------------------------------------------------------------ *)
(** ** Reasoning about the loaders' effects                            *)
(* ------------------------------------------------------------------ *)

Module LoadersFacts.
Import Loaders PyFacts.

Section Effects.
Context {R : Type} `{D : @Deps R}.
Implicit Types w : @World R.

Lemma bindM_ok {A B} (m : @M R A) (f : A -> @M R B) w b w' :
  bindM m f w = (Ok b, w') ->
  exists a w1, m w = (Ok a, w1) /\ f a w1 = (Ok b, w').
Proof.
  unfold bindM. destruct (m w) as [[a|e] w1]; [eauto | discriminate].
Qed.

Lemma lift_ok {A} (r : res A) w a w' :
  lift r w = (Ok a, w') -> r = Ok a /\ w' = w.
Proof. unfold lift. intros H. inversion H. auto. Qed.

Lemma ret_ok {A} (x : A) w a w' :
  ret x w = (Ok a, w') -> a = x /\ w' = w.
Proof. unfold ret. intros H. inversion H. auto. Qed.

(** [m] relates every world it starts in to the world it ends in, whether
    it returns or raises. *)
Definition stable (Rel : @World R -> @World R -> Prop) {A} (m : @M R A) : Prop :=
  forall w r w', m w = (r, w') -> Rel w w'.

Section Stable.
Variable Rel : @World R -> @World R -> Prop.
Hypothesis Rel_refl : forall w, Rel w w.
Hypothesis Rel_trans : forall w1 w2 w3, Rel w1 w2 -> Rel w2 w3 -> Rel w1 w3.

Lemma stable_ret {A} (a : A) : stable Rel (ret a).
Proof. intros w r w' H. inversion H. auto. Qed.

Lemma stable_raise {A} e : stable Rel (@raise R A e).
Proof. intros w r w' H. inversion H. auto. Qed.

Lemma stable_lift {A} (x : res A) : stable Rel (lift x).
Proof. intros w r w' H. inversion H. auto. Qed.

Lemma stable_bind {A B} (m : @M R A) (f : A -> @M R B) :
  stable Rel m -> (forall a, stable Rel (f a)) -> stable Rel (bindM m f).
Proof.
  intros Hm Hf w r w' H. unfold bindM in H.
  destruct (m w) as [[a|e] w1] eqn:E.
  - eapply Rel_trans; [eapply Hm | eapply Hf]; eauto.
  - inversion H. subst. eapply Hm; eauto.
Qed.

Lemma stable_for_files {St} (body : nat -> string -> St -> @M R St) :
  (forall i x s, stable Rel (body i x s)) ->
  forall xs i s, stable Rel (for_files body i xs s).
Proof.
  intros Hb xs. induction xs as [|x xs IH]; simpl; intros i s.
  - apply stable_ret.
  - apply stable_bind; auto.
Qed.

Lemma stable_exists p : stable Rel (os_path_exists p).
Proof. intros w r w' H. inversion H. auto. Qed.

Lemma stable_load p : stable Rel (pickle_load p).
Proof.
  intros w r w' H. unfold pickle_load in H.
  destruct (files w p); inversion H; auto.
Qed.

Lemma stable_deref c : stable Rel (deref c).
Proof.
  intros w r w' H. unfold deref in H.
  destruct (nth_error (caches w) c); inversion H; auto.
Qed.

End Stable.

(** *** The relations between worlds that the proofs use *)

(** only warnings and printed lines were added *)
Definition same_store (w w' : @World R) : Prop :=
  files w' = files w /\ dirs w' = dirs w /\ caches w' = caches w.

(** the files are as they were *)
Definition same_files (w w' : @World R) : Prop := files w' = files w.

(** no image cache was constructed or changed *)
Definition same_caches (w w' : @World R) : Prop := caches w' = caches w.

(** every cache that existed is still there, with its constructor
    arguments other than the statistics *)
Definition caches_kept (w w' : @World R) : Prop :=
  forall n c, nth_error (caches w) n = Some c ->
    exists c', nth_error (caches w') n = Some c' /\
               ic_crop c' = ic_crop c /\ ic_path c' = ic_path c.


Lemma same_store_refl w : same_store w w.
Proof. unfold same_store. auto. Qed.

Lemma same_store_trans w1 w2 w3 :
  same_store w1 w2 -> same_store w2 w3 -> same_store w1 w3.
Proof. unfold same_store. intros (A & B & C) (A' & B' & C'). repeat split; congruence. Qed.

Lemma same_caches_refl w : same_caches w w.
Proof. reflexivity. Qed.

Lemma same_caches_trans w1 w2 w3 :
  same_caches w1 w2 -> same_caches w2 w3 -> same_caches w1 w3.
Proof. unfold same_caches. congruence. Qed.

Lemma caches_kept_refl w : caches_kept w w.
Proof. intros n c H. eauto. Qed.

Lemma caches_kept_trans w1 w2 w3 :
  caches_kept w1 w2 -> caches_kept w2 w3 -> caches_kept w1 w3.
Proof.
  intros H1 H2 n c Hn.
  destruct (H1 _ _ Hn) as (c1 & Hn1 & Hc1 & Hp1).
  destruct (H2 _ _ Hn1) as (c2 & Hn2 & Hc2 & Hp2).
  exists c2. repeat split; congruence.
Qed.

Lemma same_store_kept w w' : same_store w w' -> caches_kept w w'.
Proof. intros (_ & _ & H) n c Hn. rewrite H. eauto. Qed.

Lemma same_caches_kept w w' : same_caches w w' -> caches_kept w w'.
Proof. intros H n c Hn. unfold same_caches in H. rewrite H. eauto. Qed.

Lemma stable_weaken (P Q : @World R -> @World R -> Prop) {A} (m : @M R A) :
  (forall w w', P w w' -> Q w w') -> stable P m -> stable Q m.
Proof. intros HPQ Hm w r w' H. eauto. Qed.

Lemma warn_same_store msg : stable same_store (warn msg).
Proof. intros w r w' H. inversion H. unfold same_store. simpl. auto. Qed.

Lemma print_same_store msg : stable same_store (print msg).
Proof. intros w r w' H. inversion H. unfold same_store. simpl. auto. Qed.

Lemma dump_same_caches p c : stable same_caches (pickle_dump p c).
Proof. intros w r w' H. inversion H. reflexivity. Qed.

Lemma mkdir_same_caches p : stable same_caches (os_mkdir p).
Proof.
  intros w r w' H. unfold os_mkdir in H.
  destruct (files w p); [inversion H; reflexivity|].
  destruct (dirs w p); [inversion H; reflexivity|].
  destruct (dirs w (path_parent p)); inversion H; reflexivity.
Qed.

Lemma nth_error_set_nth {A} (l : list A) n x m :
  nth_error (set_nth n x l) m
  = if (m =? n) && (n <? length l) then Some x else nth_error l m.
Proof.
  unfold set_nth. revert n m. induction l as [|a l IH]; intros n m.
  - rewrite firstn_nil, skipn_nil. simpl.
    destruct m; simpl; rewrite ?andb_false_r; reflexivity.
  - destruct n as [|n]; simpl.
    + destruct m; reflexivity.
    + destruct m as [|m]; simpl; [reflexivity|].
      rewrite IH. reflexivity.
Qed.

Lemma new_cache_kept c : stable caches_kept (new_cache c).
Proof.
  intros w r w' H. inversion H. subst. intros n o Hn. simpl.
  exists o. rewrite nth_error_app1; [auto|].
  apply nth_error_Some. congruence.
Qed.

Lemma zscore_kept c : stable caches_kept (zscore_images c).
Proof.
  intros w r w' H. unfold zscore_images, bindM, deref in H.
  destruct (nth_error (caches w) c) as [o|] eqn:E.
  - destruct (zscore_stats o) as [mean std]. inversion H. subst.
    intros n o' Hn. simpl. rewrite nth_error_set_nth.
    destruct ((n =? c) && (c <? length (caches w))) eqn:B.
    + apply andb_prop in B. destruct B as [B _]. apply Nat.eqb_eq in B. subst n.
      eexists. split; [reflexivity|]. simpl.
      assert (o' = o) by congruence. subst. auto.
    + eauto.
  - inversion H. subst. apply caches_kept_refl.
Qed.

End Effects.

(** Stability of a composite computation, proved by walking through its
    binds; [leaf] closes the primitive effects. *)
Ltac stable_walk refl trans leaf :=
  repeat first
    [ apply (stable_ret _ refl)
    | apply (stable_raise _ refl)
    | apply (stable_lift _ refl)
    | apply (stable_exists _ refl)
    | apply (stable_load _ refl)
    | apply (stable_deref _ refl)
    | leaf
    | apply (stable_bind _ trans); [|intros]
    | apply (stable_for_files _ refl trans); intros
    | match goal with
      | |- stable _ (match ?x with _ => _ end) => destruct x
      end ].

Ltac store_leaf :=
  first [ apply warn_same_store | apply print_same_store ].

Ltac caches_leaf :=
  first
    [ apply dump_same_caches | apply mkdir_same_caches
    | apply (stable_weaken same_store same_caches);
      [intros ? ? (_ & _ & ?); assumption|];
      first [ apply warn_same_store | apply print_same_store ] ].

Ltac kept_leaf :=
  first
    [ apply new_cache_kept | apply zscore_kept
    | apply (stable_weaken same_store caches_kept);
      [apply same_store_kept|];
      first [ apply warn_same_store | apply print_same_store ]
    | apply (stable_weaken same_caches caches_kept);
      [apply same_caches_kept|];
      first [ apply dump_same_caches | apply mkdir_same_caches ] ].

Section Composite.
Context {R : Type} `{D : @Deps R}.
Implicit Types w : @World R.

Lemma static_session_same_store a bins fracs offset tr va cache i path st :
  stable same_store (static_session a bins fracs offset tr va cache i path st).
Proof.
  unfold static_session, static_prepare, load_raw, static_responses.
  stable_walk (@same_store_refl R) (@same_store_trans R) store_leaf.
Qed.

Lemma find_mua_same_store sel offset key mua_files bound :
  stable same_store (find_mua sel offset key mua_files bound).
Proof.
  revert bound. induction mua_files as [|p rest IH]; intros bound; simpl.
  - apply (stable_ret _ (@same_store_refl R)).
  - unfold load_raw.
    stable_walk (@same_store_refl R) (@same_store_trans R) store_leaf.
    apply IH.
Qed.

Lemma mua_session_same_store a bins offset tr va cache i path st :
  stable same_store (mua_session a bins offset tr va cache i path st).
Proof.
  unfold mua_session, mua_prepare, load_raw, merge_mua.
  stable_walk (@same_store_refl R) (@same_store_trans R)
    ltac:(first [ store_leaf | apply find_mua_same_store ]).
Qed.

Lemma finish_same_caches sp store ri two mean std dls :
  stable same_caches (finish sp store ri two mean std dls).
Proof.
  unfold finish, store_info.
  stable_walk (@same_caches_refl R) (@same_caches_trans R) caches_leaf.
Qed.

Lemma closed_session_kept a bins fracs locs crop cp offset tr va mean std i path st :
  stable caches_kept
    (closed_session_step a bins fracs locs crop cp offset tr va mean std i path st).
Proof.
  unfold closed_session_step, closed_prepare, load_raw.
  stable_walk (@caches_kept_refl R) (@caches_kept_trans R) kept_leaf.
Qed.


End Composite.

(** Inversion of a computation that returned. *)
Ltac minv :=
  repeat match goal with
  | H : bindM _ _ _ = (Ok _, _) |- _ =>
      apply bindM_ok in H; destruct H as (? & ? & ? & H); cbv beta in H
  | H : lift _ _ = (Ok _, _) |- _ =>
      apply lift_ok in H; destruct H as [? ?]; subst
  | H : ret _ _ = (Ok _, _) |- _ =>
      apply ret_ok in H; destruct H as [? ?]; subst
  | H : raise _ _ = (Ok _, _) |- _ => discriminate H
  | H : (let '(_, _) := ?p in _) _ = (Ok _, _) |- _ => destruct p
  | H : @eq (_ * _) (_, _) (_, _) |- _ => inversion H; subst; clear H
  end.

Section Sessions.
Context {R : Type} `{D : @Deps R}.
Implicit Types w : @World R.

Lemma for_files_ok_invariant {St} (body : nat -> string -> St -> @M R St)
    (Inv : list string -> St -> @World R -> Prop) :
  (forall i x s w s' w' done,
     Inv done s w -> body i x s w = (Ok s', w') -> Inv (done ++ [x])%list s' w') ->
  forall xs i s w s' w' done,
    Inv done s w -> for_files body i xs s w = (Ok s', w') ->
    Inv (done ++ xs)%list s' w'.
Proof.
  intros Hstep xs. induction xs as [|x xs IH]; simpl; intros i s w s' w' done Hinv H.
  - apply ret_ok in H. destruct H; subst. now rewrite app_nil_r.
  - apply bindM_ok in H. destruct H as (s1 & w1 & Hb & Hrest).
    replace (done ++ x :: xs)%list with ((done ++ [x]) ++ xs)%list
      by (rewrite <- app_assoc; reflexivity).
    eapply IH; eauto.
Qed.

Lemma file_session_key_same w w' path :
  files w' = files w -> file_session_key w' path = file_session_key w path.
Proof. unfold file_session_key. intros ->. reflexivity. Qed.

Lemma load_raw_ok path w raw w' :
  load_raw path w = (Ok raw, w') -> files w path = Some (PickledRaw raw) /\ w' = w.
Proof.
  unfold load_raw, bindM, pickle_load.
  destruct (files w path) as [[d|d]|]; intros H; inversion H; auto.
Qed.

Lemma static_session_ok a bins fracs offset tr va cache i path st w st' w' :
  static_session a bins fracs offset tr va cache i path st w = (Ok st', w') ->
  exists sd ls,
    static_prepare a bins fracs offset i path (fst st) w = (Ok (fst st', sd), w') /\
    static_loaders a tr va cache sd = Ok ls /\
    store_loaders (sd_key sd) ls (snd st) = Ok (snd st').
Proof.
  unfold static_session. intros H. minv. simpl. eauto.
Qed.

Lemma static_prepare_key a bins fracs offset i path seed w s sd w' :
  static_prepare a bins fracs offset i path seed w = (Ok (s, sd), w') ->
  file_session_key w path = Some (sd_key sd).
Proof.
  unfold static_prepare. intros H.
  apply bindM_ok in H. destruct H as (raw & w1 & Hraw & H).
  apply load_raw_ok in Hraw. destruct Hraw as [Hf ->].
  minv. simpl. unfold file_session_key. rewrite Hf.
  match goal with Hk : raw_session raw = Ok _ |- _ => now rewrite Hk end.
Qed.

Lemma mua_session_ok a bins offset tr va cache i path dls w dls' w' :
  mua_session a bins offset tr va cache i path dls w = (Ok dls', w') ->
  exists sd eye ls,
    mua_prepare a bins offset path w = (Ok (sd, eye), w') /\
    mua_loaders a tr va cache sd eye = Ok ls /\
    store_loaders (sd_key sd) ls dls = Ok dls'.
Proof.
  unfold mua_session. intros H. minv. eauto 6.
Qed.

Lemma mua_prepare_key a bins offset path w sd eye w' :
  mua_prepare a bins offset path w = (Ok (sd, eye), w') ->
  file_session_key w path = Some (sd_key sd).
Proof.
  unfold mua_prepare. intros H.
  apply bindM_ok in H. destruct H as (raw & w1 & Hraw & H).
  apply load_raw_ok in Hraw. destruct Hraw as [Hf ->].
  minv. simpl. unfold file_session_key. rewrite Hf.
  match goal with Hk : raw_session raw = Ok _ |- _ => now rewrite Hk end.
Qed.

Lemma store_loaders_three k lt lv lte (t v te : dict (@DataLoader R)) :
  store_loaders k (lt, lv, lte) [("train", t); ("validation", v); ("test", te)]
  = Ok [("train", dict_set k lt t); ("validation", dict_set k lv v);
        ("test", dict_set k lte te)].
Proof. reflexivity. Qed.

Lemma one_per_session_nil : one_per_session [] (@nil (string * @DataLoader R)).
Proof.
  split; [constructor | split]; simpl; [tauto | reflexivity].
Qed.

Lemma one_per_session_step keys k (l : @DataLoader R) inner :
  one_per_session keys inner ->
  one_per_session (keys ++ [k]) (dict_set k l inner).
Proof.
  intros (Hnd & Hiff & Heq). split; [|split].
  - now apply dict_set_nodup.
  - intros k'. rewrite dict_keys_set_iff, in_app_iff, Hiff. simpl. intuition.
  - intros Hk. apply NoDup_remove in Hk. rewrite app_nil_r in Hk.
    destruct Hk as [Hk Hnin].
    rewrite dict_keys_set_fresh.
    + now rewrite Heq.
    + now rewrite Hiff.
Qed.

Lemma three_tiers_step keys k lt lv lte (d : dict (dict (@DataLoader R))) :
  three_tiers keys d ->
  exists d', store_loaders k (lt, lv, lte) d = Ok d' /\ three_tiers (keys ++ [k]) d'.
Proof.
  intros (t & v & te & -> & Ht & Hv & Hte).
  eexists. split; [apply store_loaders_three|].
  exists (dict_set k lt t), (dict_set k lv v), (dict_set k lte te).
  auto using one_per_session_step.
Qed.

Lemma all_loaders_step (P : @DataLoader R -> Prop) k lt lv lte t v te :
  all_loaders P [("train", t); ("validation", v); ("test", te)] ->
  P lt -> P lv -> P lte ->
  all_loaders P [("train", dict_set k lt t); ("validation", dict_set k lv v);
                 ("test", dict_set k lte te)].
Proof.
  intros Hall Hlt Hlv Hlte tier inner k' l Hget Hl.
  assert (Hold : forall tr x, dict_get tr [("train", t); ("validation", v); ("test", te)]
                              = Some x -> dict_get k' x = Some l -> P l)
    by (intros; eapply Hall; eauto).
  simpl in Hget, Hold.
  destruct (String.eqb tier "train") eqn:E1;
    [|destruct (String.eqb tier "validation") eqn:E2;
      [|destruct (String.eqb tier "test") eqn:E3; [|discriminate]]];
    inversion Hget; subst inner; clear Hget;
    (destruct (string_dec k k') as [-> | Hne];
     [rewrite dict_get_set_eq in Hl; inversion Hl; subst; assumption
     |rewrite dict_get_set_neq in Hl by assumption]).
  - apply (Hold "train" t); [reflexivity | assumption].
  - apply (Hold "validation" v); [reflexivity | assumption].
  - apply (Hold "test" te); [reflexivity | assumption].
Qed.

Lemma all_loaders_empty (P : @DataLoader R -> Prop) : all_loaders P empty_dataloaders.
Proof.
  intros tier inner k l Hget Hl. unfold empty_dataloaders in Hget. simpl in Hget.
  repeat match type of Hget with
         | (if ?b then _ else _) = _ => destruct b
         end; inversion Hget; subst; discriminate.
Qed.

Lemma three_tiers_empty : three_tiers [] (@empty_dataloaders R).
Proof.
  exists [], [], []. split; [reflexivity|].
  auto using one_per_session_nil.
Qed.

Lemma static_loaders_cache a tr va cache sd (lt lv lte : @DataLoader R) :
  static_loaders a tr va cache sd = Ok (lt, lv, lte) ->
  dl_image_cache lt = cache /\ dl_image_cache lv = cache /\ dl_image_cache lte = cache.
Proof.
  unfold static_loaders. intros H. apply bind_ok in H.
  destruct H as ([[[[[a1 a2] a3] a4] a5] a6] & _ & H).
  inversion H. subst. simpl. auto.
Qed.

Lemma mua_loaders_cache a tr va cache sd eye (lt lv lte : @DataLoader R) :
  mua_loaders a tr va cache sd eye = Ok (lt, lv, lte) ->
  dl_image_cache lt = cache /\ dl_image_cache lv = cache /\ dl_image_cache lte = cache.
Proof.
  unfold mua_loaders. intros H.
  repeat (apply bind_ok in H; destruct H as (? & _ & H)).
  match type of H with (let '(_, _) := ?p in _) = _ => destruct p as [[? ?] ?] end.
  repeat (apply bind_ok in H; destruct H as (? & _ & H)).
  inversion H. subst. simpl. auto.
Qed.

(** what holds of the dataloaders after the sessions of the files [done] *)
Definition sessions_done (w0 : @World R) (cache : nat) (done : list string)
    (dls : dict (dict (@DataLoader R))) (w : @World R) : Prop :=
  same_store w0 w /\
  all_loaders (fun l => dl_image_cache l = cache) dls /\
  exists keys,
    map (file_session_key w0) done = map Some keys /\ three_tiers keys dls.

Lemma sessions_done_step w0 cache done dls w path w' (sd : @session_data R)
    (lt lv lte : @DataLoader R) dls' :
  sessions_done w0 cache done dls w ->
  same_store w w' ->
  file_session_key w path = Some (sd_key sd) ->
  dl_image_cache lt = cache -> dl_image_cache lv = cache -> dl_image_cache lte = cache ->
  store_loaders (sd_key sd) (lt, lv, lte) dls = Ok dls' ->
  sessions_done w0 cache (done ++ [path]) dls' w'.
Proof.
  intros (Hs & Hall & keys & Hkeys & Ht) Hs' Hkey Hc1 Hc2 Hc3 Hstore.
  destruct (three_tiers_step keys (sd_key sd) lt lv lte dls Ht) as (d' & Hd' & Ht').
  rewrite Hstore in Hd'. inversion Hd'. subst d'. clear Hd'.
  split; [eauto using same_store_trans|]. split.
  - destruct Ht as (t & v & te & -> & _).
    rewrite store_loaders_three in Hstore. inversion Hstore. subst.
    now apply all_loaders_step.
  - exists (keys ++ [sd_key sd])%list. split; [|assumption].
    rewrite !map_app, Hkeys. simpl. f_equal.
    rewrite <- Hkey. f_equal. apply file_session_key_same.
    symmetry. apply Hs.
Qed.

Lemma static_sessions_done a bins fracs offset tr va cache files0 w0 st w' seed0 :
  for_files (static_session a bins fracs offset tr va cache) 0 files0
    (seed0, empty_dataloaders) w0 = (Ok st, w') ->
  sessions_done w0 cache files0 (snd st) w'.
Proof.
  intros H.
  change files0 with ([] ++ files0)%list.
  eapply (for_files_ok_invariant _
            (fun done s w => sessions_done w0 cache done (snd s) w)); [| |exact H].
  - intros i x s w s1 w1 done Hinv Hb.
    pose proof (static_session_same_store _ _ _ _ _ _ _ _ _ _ _ _ _ Hb) as Hsame.
    apply static_session_ok in Hb. destruct Hb as (sd & [[lt lv] lte] & Hp & Hl & Hst).
    apply static_prepare_key in Hp. apply static_loaders_cache in Hl.
    destruct Hl as (? & ? & ?).
    eapply (sessions_done_step w0 cache done (snd s) w x w1 sd lt lv lte);
      eassumption.
  - split; [apply same_store_refl|]. split; [apply all_loaders_empty|].
    exists []. split; [reflexivity | apply three_tiers_empty].
Qed.

Lemma mua_sessions_done a bins offset tr va cache files0 w0 dls w' :
  for_files (mua_session a bins offset tr va cache) 0 files0 empty_dataloaders w0
    = (Ok dls, w') ->
  sessions_done w0 cache files0 dls w'.
Proof.
  intros H.
  change files0 with ([] ++ files0)%list.
  eapply (for_files_ok_invariant _
            (fun done s w => sessions_done w0 cache done s w)); [| |exact H].
  - intros i x s w s1 w1 done Hinv Hb.
    pose proof (mua_session_same_store _ _ _ _ _ _ _ _ _ _ _ _ Hb) as Hsame.
    apply mua_session_ok in Hb.
    destruct Hb as (sd & eye & [[lt lv] lte] & Hp & Hl & Hst).
    apply mua_prepare_key in Hp. apply mua_loaders_cache in Hl.
    destruct Hl as (? & ? & ?).
    eapply (sessions_done_step w0 cache done s w x w1 sd lt lv lte);
      eassumption.
  - split; [apply same_store_refl|]. split; [apply all_loaders_empty|].
    exists []. split; [reflexivity | apply three_tiers_empty].
Qed.


(** *** The image cache of a call *)

Lemma nth_error_snoc {A} (l : list A) x : nth_error (l ++ [x]) (length l) = Some x.
Proof. rewrite nth_error_app2, Nat.sub_diag by lia. reflexivity. Qed.

Lemma set_nth_snoc {A} (l : list A) x y : set_nth (length l) y (l ++ [x]) = (l ++ [y])%list.
Proof.
  unfold set_nth. rewrite firstn_app, firstn_all, Nat.sub_diag. simpl.
  rewrite skipn_app, skipn_all, Nat.sub_diag. simpl.
  now rewrite app_nil_r.
Qed.

(** [fresh] constructs exactly one cache, with the crop [crop], and returns
    the reference to it *)
Definition constructs_one (crop : list (Z * Z)) (fresh : @M R (nat * value * value))
    : Prop :=
  forall w r w1, fresh w = (r, w1) ->
    files w1 = files w /\
    exists c mean std,
      r = Ok (length (caches w), mean, std) /\
      caches w1 = (caches w ++ [c])%list /\ ic_crop c = crop.

Lemma cache_zscored_one crop mk :
  (forall x y z, ic_crop (mk x y z) = crop) -> constructs_one crop (cache_zscored mk).
Proof.
  intros Hmk w r w1 H.
  unfold cache_zscored, bindM, new_cache, zscore_images, bindM, deref in H.
  simpl in H. rewrite nth_error_snoc in H.
  destruct (zscore_stats (mk Default Default false)) as [mean std] eqn:Ez.
  simpl in H. inversion H. subst. simpl. split; [reflexivity|].
  rewrite set_nth_snoc. do 3 eexists. repeat split. simpl. apply Hmk.
Qed.

Lemma cache_from_args_one crop mk mean std :
  (forall x y z, ic_crop (mk x y z) = crop) ->
  constructs_one crop (cache_from_args mean std mk).
Proof.
  intros Hmk. unfold cache_from_args.
  assert (Hgiven : constructs_one crop
            (bindM (new_cache (mk (Given mean) (Given std) true))
                   (fun c => ret (c, mean, std)))).
  { intros w r w1 H. inversion H. subst. simpl. split; [reflexivity|].
    do 3 eexists. repeat split. apply Hmk. }
  destruct mean; auto using cache_zscored_one.
Qed.

(** what [cache_from_stats] can do: fail or return the stored statistics
    without touching the caches, or construct exactly one cache *)
Lemma cache_from_stats_outcome crop sp ri mk w r w1 :
  (forall x y z, ic_crop (mk x y z) = crop) ->
  cache_from_stats sp ri mk w = (r, w1) ->
  files w1 = files w /\
  ((w1 = w /\ (forall x, r <> Ok (Continue x)) /\
    (forall x, r = Ok (Return x) ->
       ri = true /\ exists p, files w sp = Some p /\ x = Stored p)) \/
   (ri = false /\
    exists c mean std,
      r = Ok (Continue (length (caches w), mean, std)) /\
      caches w1 = (caches w ++ [c])%list /\ ic_crop c = crop)).
Proof.
  intros Hmk H. unfold cache_from_stats, bindM, pickle_load in H.
  destruct (files w sp) as [p|] eqn:Ef.
  - destruct ri.
    + inversion H. subst. split; [reflexivity|]. left.
      split; [reflexivity|]. split; [discriminate|].
      intros x Hx. inversion Hx. eauto.
    + destruct p as [d|d].
      * unfold lift in H.
        destruct (list_first (dict_values d)); inversion H; subst;
          (split; [reflexivity|]); left; repeat split; discriminate.
      * unfold lift in H.
        destruct (list_first (dict_values d)) as [first|e].
        -- inversion H. subst. simpl. split; [reflexivity|]. right.
           split; [reflexivity|]. do 3 eexists. repeat split. apply Hmk.
        -- inversion H. subst. split; [reflexivity|].
           left. repeat split; discriminate.
  - inversion H. subst. split; [reflexivity|]. left. repeat split; discriminate.
Qed.

(** Every outcome of a loader built on [with_cache]: either nothing
    happened to the world, or exactly one cache was constructed, with the
    crop [crop], and the rest of the call, which is [Rel]-stable, ran. *)
Lemma with_cache_outcome (Rel : @World R -> @World R -> Prop) crop sp ri mk
    fresh run w r w' :
  (forall x y z, ic_crop (mk x y z) = crop) ->
  constructs_one crop fresh ->
  (forall c m s, stable Rel (run c m s)) ->
  with_cache sp ri mk fresh run w = (r, w') ->
  w' = w \/
  exists w1 c,
    files w1 = files w /\ caches w1 = (caches w ++ [c])%list /\
    ic_crop c = crop /\ Rel w1 w'.
Proof.
  intros Hmk Hfresh Hrun H. unfold with_cache in H.
  unfold bindM at 1 in H. unfold os_path_exists at 1 in H.
  unfold bindM at 1 in H.
  destruct (match files w sp with Some _ => true | None => dirs w sp end).
  - destruct (cache_from_stats sp ri mk w) as [e w1] eqn:Es.
    destruct (cache_from_stats_outcome crop _ _ _ _ _ _ Hmk Es)
      as (Hf & [(-> & Hno & _) | (_ & c & mean & std & -> & Hc & Hcrop)]).
    + destruct e as [[r0|[[c m] s]]|e].
      * inversion H. auto.
      * exfalso. eapply Hno. reflexivity.
      * inversion H. auto.
    + right. exists w1, c. repeat split; auto. eapply Hrun; eauto.
  - unfold bindM at 1 in H.
    destruct (fresh w) as [e w1] eqn:Es.
    destruct (Hfresh _ _ _ Es) as (Hf & c & mean & std & -> & Hc & Hcrop).
    unfold ret in H. right. exists w1, c. repeat split; auto. eapply Hrun; eauto.
Qed.

(** A loader built on [with_cache] that returns has either returned the
    stored statistics at once, or constructed exactly one cache and run the
    rest of the call on it. *)
Lemma with_cache_ok crop sp ri mk fresh run w r w' :
  (forall x y z, ic_crop (mk x y z) = crop) ->
  constructs_one crop fresh ->
  with_cache sp ri mk fresh run w = (Ok r, w') ->
  (ri = true /\ w' = w /\ exists p, files w sp = Some p /\ r = Stored p) \/
  (exists c mean std w1,
     caches w1 = (caches w ++ [c])%list /\ files w1 = files w /\ ic_crop c = crop /\
     run (length (caches w)) mean std w1 = (Ok r, w')).
Proof.
  intros Hmk Hfresh H. unfold with_cache in H.
  unfold bindM at 1 in H. unfold os_path_exists at 1 in H.
  unfold bindM at 1 in H.
  destruct (match files w sp with Some _ => true | None => dirs w sp end).
  - destruct (cache_from_stats sp ri mk w) as [e w1] eqn:Es.
    destruct (cache_from_stats_outcome crop _ _ _ _ _ _ Hmk Es)
      as (Hf & [(-> & Hno & Hret) | (_ & c & mean & std & -> & Hc & Hcrop)]).
    + destruct e as [[r0|[[c m] s]]|e].
      * inversion H. subst. left.
        destruct (Hret _ eq_refl) as (-> & p & Hp & ->). eauto.
      * exfalso. eapply Hno. reflexivity.
      * discriminate H.
    + right. exists c, mean, std, w1. auto.
  - unfold bindM at 1 in H.
    destruct (fresh w) as [e w1] eqn:Es.
    destruct (Hfresh _ _ _ Es) as (Hf & c & mean & std & -> & Hc & Hcrop).
    unfold ret in H. right. exists c, mean, std, w1. auto.
Qed.

Lemma deref_ok c w o w1 :
  deref c w = (Ok o, w1) -> w1 = w /\ nth_error (caches w) c = Some o.
Proof.
  unfold deref. destruct (nth_error (caches w) c); intros H; inversion H; auto.
Qed.

Lemma finish_ok sp store ri two mean std dls w (r : @loader_result R) w' :
  finish sp store ri two mean std dls w = (Ok r, w') ->
  exists info, r = if ri then Stored (PickledInfo info) else Dataloaders dls.
Proof.
  unfold finish. intros H. minv. eauto.
Qed.


Lemma static_run_same_caches a bins fracs sp cache mean std :
  stable same_caches (static_run a bins fracs sp cache mean std).
Proof.
  unfold static_run.
  apply (stable_bind _ (@same_caches_trans R));
    [apply (stable_deref _ (@same_caches_refl R))|intros o].
  apply (stable_bind _ (@same_caches_trans R)); [|intros st; apply finish_same_caches].
  apply (stable_for_files _ (@same_caches_refl R) (@same_caches_trans R)).
  intros i x st. apply (stable_weaken same_store same_caches).
  - intros ? ? (_ & _ & ?). assumption.
  - apply static_session_same_store.
Qed.

Lemma mua_run_same_caches a bins sp cache mean std :
  stable same_caches (mua_run a bins sp cache mean std).
Proof.
  unfold mua_run.
  apply (stable_bind _ (@same_caches_trans R));
    [apply (stable_deref _ (@same_caches_refl R))|intros o].
  apply (stable_bind _ (@same_caches_trans R)); [|intros st; apply finish_same_caches].
  apply (stable_for_files _ (@same_caches_refl R) (@same_caches_trans R)).
  intros i x st. apply (stable_weaken same_store same_caches).
  - intros ? ? (_ & _ & ?). assumption.
  - apply mua_session_same_store.
Qed.

Lemma closed_run_kept a bins fracs locs crop cp sp cache mean std :
  stable caches_kept (closed_run a bins fracs locs crop cp sp cache mean std).
Proof.
  unfold closed_run.
  apply (stable_bind _ (@caches_kept_trans R));
    [apply (stable_deref _ (@caches_kept_refl R))|intros o].
  apply (stable_bind _ (@caches_kept_trans R)).
  - apply (stable_for_files _ (@caches_kept_refl R) (@caches_kept_trans R)).
    intros. apply closed_session_kept.
  - intros st. apply (stable_weaken same_caches caches_kept).
    + apply same_caches_kept.
    + apply finish_same_caches.
Qed.

(** what a run over the session files returns *)
Lemma static_run_ok a bins fracs sp cache mean std w (r : @loader_result R) w' :
  static_run a bins fracs sp cache mean std w = (Ok r, w') ->
  exists d info,
    r = (if return_data_info a then Stored (PickledInfo info) else Dataloaders d) /\
    all_loaders (fun l => dl_image_cache l = cache) d /\
    exists keys,
      map (file_session_key w) (neuronal_data_files a) = map Some keys /\
      three_tiers keys d.
Proof.
  unfold static_run. intros H.
  apply bindM_ok in H. destruct H as (o & w1 & Ho & H).
  apply deref_ok in Ho. destruct Ho as [-> _].
  apply bindM_ok in H. destruct H as (st & w2 & Hloop & H).
  apply static_sessions_done in Hloop. destruct Hloop as (_ & Hall & Hkeys).
  apply finish_ok in H. destruct H as (info & ->). eauto.
Qed.

Lemma mua_run_ok a bins sp cache mean std w (r : @loader_result R) w' :
  mua_run a bins sp cache mean std w = (Ok r, w') ->
  exists d info,
    r = (if m_return_data_info a then Stored (PickledInfo info) else Dataloaders d) /\
    all_loaders (fun l => dl_image_cache l = cache) d /\
    exists keys,
      map (file_session_key w) (m_neuronal_data_files a) = map Some keys /\
      three_tiers keys d.
Proof.
  unfold mua_run. intros H.
  apply bindM_ok in H. destruct H as (o & w1 & Ho & H).
  apply deref_ok in Ho. destruct Ho as [-> _].
  apply bindM_ok in H. destruct H as (st & w2 & Hloop & H).
  apply mua_sessions_done in Hloop. destruct Hloop as (_ & Hall & Hkeys).
  apply finish_ok in H. destruct H as (info & ->). eauto.
Qed.

Lemma session_keys_same w w1 (paths : list string) :
  files w1 = files w ->
  map (file_session_key w1) paths = map (file_session_key w) paths.
Proof. intros Hf. apply map_ext. intros p. now apply file_session_key_same. Qed.

End Sessions.
End LoadersFacts.

(* ------------------------------------------------------------------ *)
(** ** Properties of the loaders                                       *)
(* ------------------------------------------------------------------ *)

Module LoadersSpec.
Import Loaders PyFacts LoadersFacts.

Section Claims.
Context {R : Type} `{D : @Deps R}.
Implicit Types w : @World R.

Lemma static_mk_crop (a : static_args) cp x y z :
  ic_crop (mkCache cp (subsample a) (static_crop a) (scale a) x y true z false)
  = static_crop a.
Proof. reflexivity. Qed.

(** C1, as amended. Every call of [monkey_static_loader] and of
    [monkey_mua_sua_loader] with [return_data_info=False] that returns,
    returns a nested dictionary with exactly the top-level keys ['train'],
    ['validation'] and ['test'].  Under each of them there is exactly one
    dataloader per session id of the neuronal data files, stored under the
    data-key [str(raw_data['session_id'])]; when the session ids of the
    files are pairwise distinct this is one dataloader per file, in the
    order of the files. *)
Theorem loaders_return_three_tiers_by_session :
  (forall (a : static_args) w (r : @loader_result R) w',
     return_data_info a = false ->
     monkey_static_loader a w = (Ok r, w') ->
     exists d keys,
       r = Dataloaders d /\
       map (file_session_key w) (neuronal_data_files a) = map Some keys /\
       three_tiers keys d) /\
  (forall (a : mua_args) w (r : @loader_result R) w',
     m_return_data_info a = false ->
     monkey_mua_sua_loader a w = (Ok r, w') ->
     exists d keys,
       r = Dataloaders d /\
       map (file_session_key w) (m_neuronal_data_files a) = map Some keys /\
       three_tiers keys d).
Proof.
  split.
  - intros a w r w' Hri H. unfold monkey_static_loader in H.
    apply bindM_ok in H. destruct H as (bins & w0 & Hb & H).
    apply lift_ok in Hb. destruct Hb as [_ ->].
    eapply (with_cache_ok (static_crop a)) in H;
      [| intros; reflexivity | apply cache_from_args_one; intros; reflexivity].
    destruct H as [(Hret & _) | (c & mean & std & w1 & Hc & Hf & _ & Hrun)];
      [congruence|].
    apply static_run_ok in Hrun.
    destruct Hrun as (d & info & -> & _ & keys & Hkeys & Ht).
    rewrite Hri. exists d, keys. repeat split; auto.
    rewrite <- Hkeys. symmetry. now apply session_keys_same.
  - intros a w r w' Hri H. unfold monkey_mua_sua_loader in H.
    apply bindM_ok in H. destruct H as (bins & w0 & Hb & H).
    apply lift_ok in Hb. destruct Hb as [_ ->].
    eapply (with_cache_ok (normalize_crop (m_crop a))) in H;
      [| intros; reflexivity | apply cache_zscored_one; intros; reflexivity].
    destruct H as [(Hret & _) | (c & mean & std & w1 & Hc & Hf & _ & Hrun)];
      [congruence|].
    apply mua_run_ok in Hrun.
    destruct Hrun as (d & info & -> & _ & keys & Hkeys & Ht).
    rewrite Hri. exists d, keys. repeat split; auto.
    rewrite <- Hkeys. symmetry. now apply session_keys_same.
Qed.

(** C6, as amended. A call of [monkey_static_loader] or of
    [monkey_mua_sua_loader] constructs at most one [ImageCache]: none when
    it returns the stored statistics at once (their file exists and
    [return_data_info] is set), and exactly one in every other call that
    returns; every train, validation and test loader of every session of
    the returned dataloaders has that one instance as its [image_cache]. *)
Theorem one_image_cache_shared_by_all_loaders :
  (forall (a : static_args) w (r : @loader_result R) w',
     monkey_static_loader a w = (Ok r, w') ->
     (return_data_info a = true /\ w' = w /\
      exists p, files w (snd (stats_path_of (StaticConfig a) (image_cache_path a)))
                  = Some p /\ r = Stored p) \/
     (exists c,
        caches w' = (caches w ++ [c])%list /\
        forall d, r = Dataloaders d ->
          all_loaders (fun l => dl_image_cache l = length (caches w)) d)) /\
  (forall (a : mua_args) w (r : @loader_result R) w',
     monkey_mua_sua_loader a w = (Ok r, w') ->
     (m_return_data_info a = true /\ w' = w /\
      exists p, files w (snd (stats_path_of (MuaConfig a) (m_image_cache_path a)))
                  = Some p /\ r = Stored p) \/
     (exists c,
        caches w' = (caches w ++ [c])%list /\
        forall d, r = Dataloaders d ->
          all_loaders (fun l => dl_image_cache l = length (caches w)) d)) /\
  (forall (a : static_args) w (r : res (@loader_result R)) w',
     monkey_static_loader a w = (r, w') ->
     caches w' = caches w \/ exists c, caches w' = (caches w ++ [c])%list) /\
  (forall (a : mua_args) w (r : res (@loader_result R)) w',
     monkey_mua_sua_loader a w = (r, w') ->
     caches w' = caches w \/ exists c, caches w' = (caches w ++ [c])%list).
Proof.
  split; [|split; [|split]].
  - intros a w r w' H. unfold monkey_static_loader in H.
    apply bindM_ok in H. destruct H as (bins & w0 & Hb & H).
    apply lift_ok in Hb. destruct Hb as [_ ->].
    eapply (with_cache_ok (static_crop a)) in H;
      [| intros; reflexivity | apply cache_from_args_one; intros; reflexivity].
    destruct H as [(Hret & -> & p & Hp & ->) | (c & mean & std & w1 & Hc & Hf & _ & Hrun)];
      [left; eauto|].
    right. exists c. split.
    + pose proof (static_run_same_caches _ _ _ _ _ _ _ _ _ _ Hrun) as Hs.
      unfold same_caches in Hs. congruence.
    + intros d ->. apply static_run_ok in Hrun.
      destruct Hrun as (d' & info & Hr & Hall & _).
      destruct (return_data_info a); inversion Hr. subst. assumption.
  - intros a w r w' H. unfold monkey_mua_sua_loader in H.
    apply bindM_ok in H. destruct H as (bins & w0 & Hb & H).
    apply lift_ok in Hb. destruct Hb as [_ ->].
    eapply (with_cache_ok (normalize_crop (m_crop a))) in H;
      [| intros; reflexivity | apply cache_zscored_one; intros; reflexivity].
    destruct H as [(Hret & -> & p & Hp & ->) | (c & mean & std & w1 & Hc & Hf & _ & Hrun)];
      [left; eauto|].
    right. exists c. split.
    + pose proof (mua_run_same_caches _ _ _ _ _ _ _ _ _ Hrun) as Hs.
      unfold same_caches in Hs. congruence.
    + intros d ->. apply mua_run_ok in Hrun.
      destruct Hrun as (d' & info & Hr & Hall & _).
      destruct (m_return_data_info a); inversion Hr. subst. assumption.
  - intros a w r w' H. unfold monkey_static_loader, bindM at 1, lift in H.
    destruct (normalize_time_bins (time_bins_sum a)) as [bins|e];
      [|inversion H; auto].
    eapply (with_cache_outcome same_caches (static_crop a)) in H;
      [| intros; reflexivity | apply cache_from_args_one; intros; reflexivity
       | intros; apply static_run_same_caches].
    destruct H as [-> | (w1 & c & _ & Hc & _ & Hs)]; [auto|].
    right. exists c. unfold same_caches in Hs. congruence.
  - intros a w r w' H. unfold monkey_mua_sua_loader, bindM at 1, lift in H.
    destruct (normalize_time_bins (m_time_bins_sum a)) as [bins|e];
      [|inversion H; auto].
    eapply (with_cache_outcome same_caches (normalize_crop (m_crop a))) in H;
      [| intros; reflexivity | apply cache_zscored_one; intros; reflexivity
       | intros; apply mua_run_same_caches].
    destruct H as [-> | (w1 & c & _ & Hc & _ & Hs)]; [auto|].
    right. exists c. unfold same_caches in Hs. congruence.
Qed.

(** C7. In the three loaders an integer crop [c] is brought to the
    four-sided form [[(c, c), (c, c)]] and a crop given as a sequence of
    [(side, side)] tuples is kept as it is, before the [ImageCache] of the
    call is constructed: the cache that [monkey_static_loader] constructs
    has the normalized crop (passed through
    [get_crop_from_stimulus_location] when [stimulus_location] is given),
    and so have the cache of [monkey_mua_sua_loader] and the first cache of
    [monkey_static_loader_closed_loop]. *)
Theorem crop_is_normalized_for_the_cache :
  (forall c, normalize_crop (CropInt c) = [(c, c); (c, c)]) /\
  (forall l, normalize_crop (CropSeq l) = l) /\
  (forall (a : static_args) w (r : res (@loader_result R)) w' c,
     monkey_static_loader a w = (r, w') ->
     In c (skipn (length (caches w)) (caches w')) ->
     ic_crop c =
       match stimulus_location a with
       | None => normalize_crop (crop a)
       | Some loc =>
           get_crop_from_stimulus_location loc (normalize_crop (crop a))
             (monitor_scaling_factor a)
       end) /\
  (forall (a : mua_args) w (r : res (@loader_result R)) w' c,
     monkey_mua_sua_loader a w = (r, w') ->
     In c (skipn (length (caches w)) (caches w')) ->
     ic_crop c = normalize_crop (m_crop a)) /\
  (forall (a : closed_loop_args) w (r : res (@loader_result R)) w' c,
     monkey_static_loader_closed_loop a w = (r, w') ->
     nth_error (caches w') (length (caches w)) = Some c ->
     ic_crop c = normalize_crop (c_crop a)).
Proof.
  assert (Hnone : forall w c, ~ In c (skipn (length (caches w)) (caches w))).
  { intros w c. now rewrite skipn_all. }
  assert (Hone : forall w c c0, In c (skipn (length (caches w)) (caches w ++ [c0])) -> c = c0).
  { intros w c c0. rewrite skipn_app, skipn_all, Nat.sub_diag. simpl.
    intros [H | []]. now symmetry. }
  split; [reflexivity|]. split; [reflexivity|]. split; [|split].
  - intros a w r w' c H Hin. unfold monkey_static_loader, bindM at 1, lift in H.
    destruct (normalize_time_bins (time_bins_sum a)) as [bins|e];
      [|inversion H; subst; exfalso; eapply Hnone; eauto].
    eapply (with_cache_outcome same_caches (static_crop a)) in H;
      [| intros; reflexivity | apply cache_from_args_one; intros; reflexivity
       | intros; apply static_run_same_caches].
    destruct H as [-> | (w1 & c0 & _ & Hc & Hcrop & Hs)];
      [exfalso; eapply Hnone; eauto|].
    unfold same_caches in Hs. rewrite Hs, Hc in Hin.
    apply Hone in Hin. subst c0. exact Hcrop.
  - intros a w r w' c H Hin. unfold monkey_mua_sua_loader, bindM at 1, lift in H.
    destruct (normalize_time_bins (m_time_bins_sum a)) as [bins|e];
      [|inversion H; subst; exfalso; eapply Hnone; eauto].
    eapply (with_cache_outcome same_caches (normalize_crop (m_crop a))) in H;
      [| intros; reflexivity | apply cache_zscored_one; intros; reflexivity
       | intros; apply mua_run_same_caches].
    destruct H as [-> | (w1 & c0 & _ & Hc & Hcrop & Hs)];
      [exfalso; eapply Hnone; eauto|].
    unfold same_caches in Hs. rewrite Hs, Hc in Hin.
    apply Hone in Hin. subst c0. exact Hcrop.
  - intros a w r w' c H Hn.
    assert (Hfresh : forall c0, nth_error (caches w) (length (caches w)) <> Some c0).
    { intros c0 Hc0. apply (f_equal (fun o => match o with Some _ => true | None => false end)) in Hc0.
      rewrite (proj2 (nth_error_None _ _)) in Hc0 by lia. discriminate. }
    unfold monkey_static_loader_closed_loop in H.
    destruct (c_include_mei_training a && c_include_control_training a).
    { inversion H. subst. exfalso. eapply Hfresh; eauto. }
    unfold bindM at 1, lift in H.
    destruct (normalize_time_bins (c_time_bins_sum a)) as [bins|e];
      [|inversion H; subst; exfalso; eapply Hfresh; eauto].
    eapply (with_cache_outcome caches_kept (normalize_crop (c_crop a))) in H;
      [| intros; reflexivity | apply cache_from_args_one; intros; reflexivity
       | intros; apply closed_run_kept].
    destruct H as [-> | (w1 & c0 & _ & Hc & Hcrop & Hk)];
      [exfalso; eapply Hfresh; eauto|].
    destruct (Hk (length (caches w)) c0) as (c' & Hc' & Hcrop' & _).
    { rewrite Hc. apply nth_error_snoc. }
    congruence.
Qed.

(** C9. [monkey_static_loader_closed_loop] raises its [ValueError] whenever
    [include_mei_training] and [include_control_training] are both true,
    and leaves the world as it found it: no image cache was constructed,
    no file or directory written, no warning or output emitted. *)
Theorem closed_loop_rejects_both_inclusions :
  forall (a : closed_loop_args) w,
    c_include_mei_training a = true ->
    c_include_control_training a = true ->
    monkey_static_loader_closed_loop a w
    = (Raise (ValueError both_included_error), w).
Proof.
  intros a w Hm Hc. unfold monkey_static_loader_closed_loop.
  rewrite Hm, Hc. reflexivity.
Qed.


(** *** Selection by a boolean mask *)

Lemma mask_positions_isin pool ids i :
  mask_positions i (isin ids pool)
  = filter (fun p => id_in pool (nth (p - i) ids 0%Z)) (seq i (length ids)).
Proof.
  revert i. induction ids as [|x ids IH]; intros i; simpl; [reflexivity|].
  rewrite Nat.sub_diag. fold (id_in pool x). rewrite IH.
  assert (Hext : filter (fun p => id_in pool (nth (p - S i) ids 0%Z)) (seq (S i) (length ids))
               = filter (fun p => id_in pool
                            match (p - i)%nat with 0%nat => x | S m => nth m ids 0%Z end)
                   (seq (S i) (length ids))).
  { apply filter_ext_in. intros p Hp. apply in_seq in Hp.
    replace (p - i) with (S (p - S i)) by lia. reflexivity. }
  rewrite Hext. destruct (id_in pool x); reflexivity.
Qed.

Lemma positions_select (f : Z -> bool) ids pre :
  map (fun p => nth p (pre ++ ids) 0%Z)
    (filter (fun p => f (nth p (pre ++ ids) 0%Z)) (seq (length pre) (length ids)))
  = filter f ids.
Proof.
  revert pre. induction ids as [|x ids IH]; intros pre; simpl; [reflexivity|].
  rewrite nth_middle.
  specialize (IH (pre ++ [x])%list).
  rewrite <- app_assoc, length_app in IH. simpl in IH.
  rewrite Nat.add_1_r in IH.
  destruct (f x); simpl; [rewrite nth_middle|]; now rewrite IH.
Qed.

Lemma index_mask_ok (a r : ndarray R) mask :
  index_mask a mask = Ok r ->
  shape r = length (mask_positions 0 mask) :: tl (shape a) /\
  forall j rest, item r (j :: rest) = item a (nth j (mask_positions 0 mask) 0 :: rest).
Proof.
  unfold index_mask. destruct (shape a) as [|s0 rest] eqn:Hs; [discriminate|].
  destruct (s0 =? length mask); [|discriminate].
  intros H. inversion H. subst. simpl. auto.
Qed.

Lemma ids_mask_ok ids mask l :
  ids_mask ids mask = Ok l ->
  l = map (fun p => nth p ids 0%Z) (mask_positions 0 mask).
Proof.
  unfold ids_mask. destruct (length ids =? length mask); [|discriminate].
  intros H. now inversion H.
Qed.

Lemma selects_intro pool ids (responses : ndarray R) ids' responses' :
  ids_mask ids (isin ids pool) = Ok ids' ->
  index_mask responses (isin ids pool) = Ok responses' ->
  selects pool ids responses ids' responses'.
Proof.
  intros Hi Hr. apply ids_mask_ok in Hi. apply index_mask_ok in Hr.
  destruct Hr as [Hshape Hitem].
  assert (Hpos : mask_positions 0 (isin ids pool)
                 = filter (fun p => id_in pool (nth p ids 0%Z)) (seq 0 (length ids))).
  { rewrite mask_positions_isin. apply filter_ext. intros p.
    now rewrite Nat.sub_0_r. }
  rewrite Hpos in *. unfold selects. repeat split; auto.
  rewrite Hi. apply (positions_select (id_in pool) ids []).
Qed.

Lemma split_ids_ok ids (responses : ndarray R) tr va tids tresp vids vresp m1 m2 :
  split_ids ids responses tr va = Ok (tids, tresp, vids, vresp, m1, m2) ->
  selects tr ids responses tids tresp /\ selects va ids responses vids vresp.
Proof.
  unfold split_ids. intros H.
  repeat (apply bind_ok in H; destruct H as (? & ? & H)).
  inversion H. subst. split; now apply selects_intro.
Qed.

Lemma id_in_spec pool x : id_in pool x = true <-> In x pool.
Proof.
  unfold id_in. rewrite existsb_exists. split.
  - intros (y & Hy & E). apply Z.eqb_eq in E. now subst.
  - intros H. exists x. split; [assumption | apply Z.eqb_refl].
Qed.

Lemma selects_members pool ids (responses : ndarray R) ids' responses' x :
  selects pool ids responses ids' responses' ->
  (In x ids' <-> In x ids /\ In x pool).
Proof.
  intros (-> & _). rewrite filter_In, id_in_spec. tauto.
Qed.

(** C2. For every session that [monkey_static_loader] or
    [monkey_mua_sua_loader] processes, the split is a selection by
    membership: the train loader receives exactly the training image ids
    that lie in [all_train_ids], with their response rows, and the
    validation loader exactly those that lie in [all_validation_ids]; an
    image id that lies in neither set appears in neither loader, and when
    the two sets are disjoint no image id appears in both loaders. *)
Theorem split_is_selection_by_membership :
  (forall (a : static_args) bins fracs offset tr va cache i path st w st' w',
     static_session a bins fracs offset tr va cache i path st w = (Ok st', w') ->
     exists (sd : @session_data R) lt lv lte,
       static_prepare a bins fracs offset i path (fst st) w = (Ok (fst st', sd), w') /\
       store_loaders (sd_key sd) (lt, lv, lte) (snd st) = Ok (snd st') /\
       selects tr (sd_training_ids sd) (sd_responses_train sd)
         (dl_image_ids lt) (dl_responses lt) /\
       selects va (sd_training_ids sd) (sd_responses_train sd)
         (dl_image_ids lv) (dl_responses lv) /\
       (forall x, ~ In x tr -> ~ In x va ->
          ~ In x (dl_image_ids lt) /\ ~ In x (dl_image_ids lv)) /\
       ((forall x, In x tr -> ~ In x va) ->
        forall x, ~ (In x (dl_image_ids lt) /\ In x (dl_image_ids lv)))) /\
  (forall (a : mua_args) bins offset tr va cache i path dls w dls' w',
     mua_session a bins offset tr va cache i path dls w = (Ok dls', w') ->
     exists (sd : @session_data R) eye lt lv lte,
       mua_prepare a bins offset path w = (Ok (sd, eye), w') /\
       store_loaders (sd_key sd) (lt, lv, lte) dls = Ok dls' /\
       selects tr (sd_training_ids sd) (sd_responses_train sd)
         (dl_image_ids lt) (dl_responses lt) /\
       selects va (sd_training_ids sd) (sd_responses_train sd)
         (dl_image_ids lv) (dl_responses lv) /\
       (forall x, ~ In x tr -> ~ In x va ->
          ~ In x (dl_image_ids lt) /\ ~ In x (dl_image_ids lv)) /\
       ((forall x, In x tr -> ~ In x va) ->
        forall x, ~ (In x (dl_image_ids lt) /\ In x (dl_image_ids lv)))).
Proof.
  assert (Hsets : forall tr va ids (resp : ndarray R) lt_ids lt_resp lv_ids lv_resp,
            selects tr ids resp lt_ids lt_resp ->
            selects va ids resp lv_ids lv_resp ->
            (forall x, ~ In x tr -> ~ In x va -> ~ In x lt_ids /\ ~ In x lv_ids) /\
            ((forall x, In x tr -> ~ In x va) ->
             forall x, ~ (In x lt_ids /\ In x lv_ids))).
  { intros tr va ids resp lt_ids lt_resp lv_ids lv_resp Ht Hv. split.
    - intros x Hxt Hxv.
      rewrite (selects_members _ _ _ _ _ x Ht), (selects_members _ _ _ _ _ x Hv).
      tauto.
    - intros Hdis x.
      rewrite (selects_members _ _ _ _ _ x Ht), (selects_members _ _ _ _ _ x Hv).
      intros [[_ H1] [_ H2]]. exact (Hdis x H1 H2). }
  split.
  - intros a bins fracs offset tr va cache i path st w st' w' H.
    apply static_session_ok in H. destruct H as (sd & [[lt lv] lte] & Hp & Hl & Hs).
    unfold static_loaders in Hl. apply bind_ok in Hl.
    destruct Hl as ([[[[[tids tresp] vids] vresp] m1] m2] & Hsplit & Hl).
    inversion Hl. subst. clear Hl. apply split_ids_ok in Hsplit.
    destruct Hsplit as [Ht Hv].
    do 4 eexists. split; [eassumption|]. split; [eassumption|]. simpl.
    split; [assumption|]. split; [assumption|]. eapply Hsets; eauto.
  - intros a bins offset tr va cache i path dls w dls' w' H.
    apply mua_session_ok in H.
    destruct H as (sd & eye & [[lt lv] lte] & Hp & Hl & Hs).
    unfold mua_loaders in Hl.
    apply bind_ok in Hl. destruct Hl as (vresp & Hvr & Hl).
    apply bind_ok in Hl. destruct Hl as (tresp & Htr & Hl).
    apply bind_ok in Hl. destruct Hl as ([[e1 e2] e3] & _ & Hl).
    apply bind_ok in Hl. destruct Hl as (vids & Hvi & Hl).
    apply bind_ok in Hl. destruct Hl as (tids & Hti & Hl).
    inversion Hl. subst. clear Hl.
    pose proof (selects_intro _ _ _ _ _ Hti Htr) as Ht.
    pose proof (selects_intro _ _ _ _ _ Hvi Hvr) as Hv.
    do 5 eexists. split; [eassumption|]. split; [eassumption|]. simpl.
    split; [assumption|]. split; [assumption|]. eapply Hsets; eauto.
Qed.


(** *** Reduction over time bins *)




End Claims.
End LoadersSpec.


(* ------------------------------------------------------------------ *)
(** ** The loader properties on concrete calls                         *)
(* ------------------------------------------------------------------ *)

Module LoadersRuns.
Import Loaders LoaderExamples LoadersSpec.

Lemma run_returns {A W} (dflt : A) (p : res A * W) :
  is_ok (fst p) = true ->
  p = (Ok (match fst p with Ok x => x | Raise _ => dflt end), snd p).
Proof. destruct p as [[x|e] w]; simpl; [reflexivity | discriminate]. Qed.

Lemma run_returns_dataloaders (p : res (@loader_result Z) * @World Z) :
  returns_dataloaders p = true ->
  p = (Ok (returned p), snd p) /\ returned p = Dataloaders (dataloaders_of p).
Proof.
  unfold returns_dataloaders, returned, dataloaders_of.
  destruct p as [[[d|x]|e] w]; simpl; intros H; try discriminate. auto.
Qed.

Example static_run_tiers :
  tier_sizes (dataloaders_of
                (monkey_static_loader (static_call two_sessions (CropInt 10) false) lab))
  = [("train", 2); ("validation", 2); ("test", 2)].
Proof. vm_compute. reflexivity. Qed.

Example mua_run_tiers :
  tier_sizes (dataloaders_of (monkey_mua_sua_loader (mua_call two_sessions) lab))
  = [("train", 2); ("validation", 2); ("test", 2)].
Proof. vm_compute. reflexivity. Qed.

Example static_run_split :
  let d := dataloaders_of
             (monkey_static_loader (static_call two_sessions (CropInt 10) false) lab) in
  loader_at "train" "3631896544452" d = [0; 3]%Z /\
  loader_at "validation" "3631896544452" d = [8; 9]%Z /\
  loader_at "test" "3631896544452" d = [20; 21]%Z.
Proof. vm_compute. auto. Qed.

(** The three-tier theorem applied to a call over two sessions. *)
Lemma three_tiers_witness :
  exists d keys,
    returned (monkey_static_loader (static_call two_sessions (CropInt 10) false) lab)
      = Dataloaders d /\
    map (file_session_key lab) two_sessions = map Some keys /\
    three_tiers keys d.
Proof.
  apply (proj1 loaders_return_three_tiers_by_session
           (static_call two_sessions (CropInt 10) false) lab _
           (snd (monkey_static_loader (static_call two_sessions (CropInt 10) false) lab))).
  - reflexivity.
  - apply run_returns_dataloaders. vm_compute. reflexivity.
Defined.

(** C1 as stated fails when two files belong to one session: the call
    over two files returns one loader per tier, built from the second
    file. *)
Lemma two_files_of_one_session_give_one_loader :
  let call := static_call one_session_twice (CropInt 10) false in
  let run := monkey_static_loader call lab in
  return_data_info call = false /\
  length (neuronal_data_files call) = 2 /\
  map (file_session_key lab) (neuronal_data_files call)
    = [Some "3632669014376"; Some "3632669014376"] /\
  returns_dataloaders run = true /\
  tier_sizes (dataloaders_of run) = [("train", 1); ("validation", 1); ("test", 1)] /\
  loader_at "test" "3632669014376" (dataloaders_of run) = [22]%Z.
Proof.
  cbv zeta.
  split; [reflexivity|]. split; [reflexivity|].
  split; [vm_compute; reflexivity|].
  split; [vm_compute; reflexivity|].
  split; vm_compute; reflexivity.
Qed.

(** The selection theorem applied to the first session of the call. *)
Lemma split_witness :
  let run := static_session (static_call two_sessions (CropInt 10) false)
               [0; 1]%Z [1; 1]%Q 0%Z [0; 1; 2; 3; 4; 5; 6; 7]%Z [8; 9]%Z 0
               0 "data/a.pickle" (None, empty_dataloaders) lab in
  exists (sd : @session_data Z) lt lv lte st',
    static_prepare (static_call two_sessions (CropInt 10) false) [0; 1]%Z [1; 1]%Q 0%Z
      0 "data/a.pickle" None lab = (Ok (fst st', sd), snd run) /\
    store_loaders (sd_key sd) (lt, lv, lte) empty_dataloaders = Ok (snd st') /\
    selects [0; 1; 2; 3; 4; 5; 6; 7]%Z (sd_training_ids sd) (sd_responses_train sd)
      (dl_image_ids lt) (dl_responses lt) /\
    selects [8; 9]%Z (sd_training_ids sd) (sd_responses_train sd)
      (dl_image_ids lv) (dl_responses lv) /\
    dl_image_ids lt = [0; 3]%Z /\ dl_image_ids lv = [8; 9]%Z.
Proof.
  intros run.
  assert (Hrun : run = (Ok (match fst run with Ok s => s | Raise _ => (None, []) end),
                        snd run))
    by (apply run_returns; vm_compute; reflexivity).
  destruct (proj1 split_is_selection_by_membership _ _ _ _ _ _ _ _ _ _ _ _ _ Hrun)
    as (sd & lt & lv & lte & Hp & Hs & Ht & Hv & _).
  assert (E : [0; 8; 3; 9; 12]%Z = sd_training_ids sd).
  { apply (f_equal (fun p => match fst p with
                             | Ok (_, sd) => sd_training_ids sd
                             | Raise _ => []
                             end)) in Hp.
    vm_compute in Hp. exact Hp. }
  exists sd, lt, lv, lte. eexists.
  split; [exact Hp|]. split; [exact Hs|]. split; [exact Ht|]. split; [exact Hv|].
  destruct Ht as (Ht & _). destruct Hv as (Hv & _).
  rewrite Ht, Hv, <- E. split; reflexivity.
Defined.

(** The cache theorem applied to the call over two sessions. *)
Lemma one_cache_witness :
  let run := monkey_static_loader (static_call two_sessions (CropInt 10) false) lab in
  exists c,
    caches (snd run) = (caches lab ++ [c])%list /\
    all_loaders (fun l => dl_image_cache l = length (caches lab)) (dataloaders_of run).
Proof.
  intros run.
  assert (Hd : returns_dataloaders run = true) by (vm_compute; reflexivity).
  apply run_returns_dataloaders in Hd. destruct Hd as [Hrun Hd].
  destruct (proj1 one_image_cache_shared_by_all_loaders _ _ _ _ Hrun)
    as [(Hri & _) | (c & Hc & Hall)]; [discriminate Hri|].
  exists c. split; [exact Hc|]. apply Hall. exact Hd.
Defined.

(** C6 as stated fails when the statistics file exists and
    [return_data_info] is set: the call returns the stored statistics and
    constructs no [ImageCache] at all. *)
Lemma early_return_constructs_no_cache :
  let run := monkey_static_loader (static_call two_sessions (CropInt 10) true)
               lab_with_stats in
  fst run = Ok (Stored stored_info) /\
  caches (snd run) = caches lab_with_stats /\
  caches (snd run) = [].
Proof. vm_compute. auto. Qed.

(** The crop theorem applied to an integer crop, in the static and in the
    closed-loop loader. *)
Lemma crop_witness :
  ic_crop (first_cache
             (snd (monkey_static_loader (static_call two_sessions (CropInt 10) false) lab)))
    = [(10, 10); (10, 10)]%Z /\
  ic_crop (first_cache
             (snd (monkey_static_loader_closed_loop (closed_call false false) lab)))
    = [(10, 10); (10, 10)]%Z.
Proof.
  split.
  - apply (proj1 (proj2 (proj2 crop_is_normalized_for_the_cache))
             (static_call two_sessions (CropInt 10) false) lab
             (fst (monkey_static_loader (static_call two_sessions (CropInt 10) false) lab))
             (snd (monkey_static_loader (static_call two_sessions (CropInt 10) false) lab))).
    + apply surjective_pairing.
    + vm_compute. left. reflexivity.
  - apply (proj2 (proj2 (proj2 (proj2 crop_is_normalized_for_the_cache)))
             (closed_call false false) lab
             (fst (monkey_static_loader_closed_loop (closed_call false false) lab))
             (snd (monkey_static_loader_closed_loop (closed_call false false) lab))).
    + apply surjective_pairing.
    + vm_compute. reflexivity.
Defined.


(** The guard theorem applied to a call that includes both. *)
Lemma closed_loop_witness :
  monkey_static_loader_closed_loop (closed_call true true) lab
  = (Raise (ValueError both_included_error), lab).
Proof.
  apply (closed_loop_rejects_both_inclusions (closed_call true true) lab);
    reflexivity.
Defined.

End LoadersRuns.

(* ------------------------------------------------------------------ *)
(** ** What the loaders do to the file system                          *)
(* ------------------------------------------------------------------ *)

Module LoadersFiles.
Import Loaders PyFacts LoadersFacts LoadersWorld.

Section Relations.
Context {R : Type} `{D : @Deps R}.
Implicit Types w : @World R.

Lemma same_fs_refl w : same_fs w w.
Proof. split; reflexivity. Qed.

Lemma same_fs_trans w1 w2 w3 : same_fs w1 w2 -> same_fs w2 w3 -> same_fs w1 w3.
Proof. intros [A B] [A' B']. split; congruence. Qed.

Lemma same_store_fs w w' : same_store w w' -> same_fs w w'.
Proof. intros (A & B & _). split; assumption. Qed.

Lemma wrote_at_most_refl p w : wrote_at_most p w w.
Proof. split; reflexivity. Qed.

Lemma wrote_at_most_trans p w1 w2 w3 :
  wrote_at_most p w1 w2 -> wrote_at_most p w2 w3 -> wrote_at_most p w1 w3.
Proof.
  intros [A B] [A' B']. split; intros q Hq.
  - rewrite A', A; auto.
  - rewrite B', B; auto.
Qed.

Lemma same_fs_wrote p w w' : same_fs w w' -> wrote_at_most p w w'.
Proof. intros [A B]. split; intros q _; [now rewrite A | now rewrite B]. Qed.

Lemma exists_in_same w w' p : same_fs w w' -> exists_in w' p = exists_in w p.
Proof. intros [A B]. unfold exists_in. now rewrite A, B. Qed.

Lemma new_cache_fs c : stable (R:=R) same_fs (new_cache c).
Proof. intros w r w' H. inversion H. split; reflexivity. Qed.

Lemma zscore_fs c : stable (R:=R) same_fs (zscore_images c).
Proof.
  intros w r w' H. unfold zscore_images, bindM, deref in H.
  destruct (nth_error (caches w) c) as [o|].
  - destruct (zscore_stats o) as [mean std]. inversion H. split; reflexivity.
  - inversion H. apply same_fs_refl.
Qed.

Lemma dump_wrote p c : stable (R:=R) (wrote_at_most p) (pickle_dump p c).
Proof.
  intros w r w' H. inversion H. split; simpl; intros q Hq; [|reflexivity].
  apply String.eqb_neq in Hq. now rewrite Hq.
Qed.

Lemma mkdir_wrote p : stable (R:=R) (wrote_at_most p) (os_mkdir (path_parent p)).
Proof.
  intros w r w' H. unfold os_mkdir in H.
  destruct (files w (path_parent p)); [inversion H; apply wrote_at_most_refl|].
  destruct (dirs w (path_parent p)); [inversion H; apply wrote_at_most_refl|].
  destruct (dirs w (path_parent (path_parent p)));
    inversion H; [|apply wrote_at_most_refl].
  split; simpl; intros q Hq; [reflexivity|].
  apply String.eqb_neq in Hq. now rewrite Hq.
Qed.

End Relations.

Ltac fs_leaf :=
  first
    [ apply new_cache_fs | apply zscore_fs
    | apply (stable_weaken same_store same_fs);
      [apply same_store_fs|];
      first [ apply warn_same_store | apply print_same_store
            | apply static_session_same_store | apply mua_session_same_store ] ].

Ltac wrote_leaf :=
  first
    [ apply dump_wrote | apply mkdir_wrote
    | apply (stable_weaken same_fs (wrote_at_most _));
      [apply same_fs_wrote|]; fs_leaf ].

Section Files.
Context {R : Type} `{D : @Deps R}.
Implicit Types w : @World R.

Lemma closed_session_fs a bins fracs locs crop cp offset tr va mean std i path st :
  stable (R:=R) same_fs
    (closed_session_step a bins fracs locs crop cp offset tr va mean std i path st).
Proof.
  unfold closed_session_step, closed_prepare, load_raw.
  stable_walk (@same_fs_refl R) (@same_fs_trans R) fs_leaf.
Qed.

Lemma cache_from_stats_fs sp ri mk : stable (R:=R) same_fs (cache_from_stats sp ri mk).
Proof.
  unfold cache_from_stats.
  stable_walk (@same_fs_refl R) (@same_fs_trans R) fs_leaf.
Qed.

Lemma cache_from_args_fs mean std mk : stable (R:=R) same_fs (cache_from_args mean std mk).
Proof.
  unfold cache_from_args, cache_zscored.
  stable_walk (@same_fs_refl R) (@same_fs_trans R) fs_leaf.
Qed.

Lemma cache_zscored_fs mk : stable (R:=R) same_fs (cache_zscored mk).
Proof.
  unfold cache_zscored.
  stable_walk (@same_fs_refl R) (@same_fs_trans R) fs_leaf.
Qed.

Lemma finish_wrote sp store ri two mean std dls :
  stable (R:=R) (wrote_at_most sp) (finish sp store ri two mean std dls).
Proof.
  unfold finish, store_info.
  stable_walk (@wrote_at_most_refl R D sp) (@wrote_at_most_trans R D sp) wrote_leaf.
Qed.

(** a loader built on [with_cache] is stable when its parts are *)
Lemma with_cache_stable (Rel : @World R -> @World R -> Prop) sp ri mk fresh run :
  (forall w, Rel w w) ->
  (forall w1 w2 w3, Rel w1 w2 -> Rel w2 w3 -> Rel w1 w3) ->
  (forall w w', same_fs w w' -> Rel w w') ->
  stable (R:=R) same_fs fresh ->
  (forall c m s, stable Rel (run c m s)) ->
  stable Rel (with_cache sp ri mk fresh run).
Proof.
  intros Hrefl Htrans Hfs Hfresh Hrun. unfold with_cache.
  apply (stable_bind _ Htrans); [apply (stable_exists _ Hrefl)|intros b].
  apply (stable_bind _ Htrans).
  - apply (stable_weaken same_fs Rel); [exact Hfs|].
    destruct b.
    + apply cache_from_stats_fs.
    + apply (stable_bind _ (@same_fs_trans R)); [exact Hfresh|].
      intros c. apply (stable_ret _ (@same_fs_refl R)).
  - intros [r|[[c m] s]]; [apply (stable_ret _ Hrefl) | apply Hrun].
Qed.

Lemma sessions_then_finish_wrote {St}
    (body : ImageCache -> nat -> string -> St -> @M R St)
    (proj : St -> dict (dict (@DataLoader R))) sp store ri two mean std
    cache xs s0 :
  (forall o i x s, stable (R:=R) same_fs (body o i x s)) ->
  stable (R:=R) (wrote_at_most sp)
    (bindM (deref cache) (fun o =>
     bindM (for_files (body o) 0 xs s0) (fun st =>
     finish sp store ri two mean std (proj st)))).
Proof.
  intros Hbody.
  apply (stable_bind _ (@wrote_at_most_trans R D sp));
    [apply (stable_deref _ (@wrote_at_most_refl R D sp))|intros o].
  apply (stable_bind _ (@wrote_at_most_trans R D sp));
    [|intros st; apply finish_wrote].
  apply (stable_weaken same_fs (wrote_at_most sp)); [apply same_fs_wrote|].
  apply (stable_for_files _ (@same_fs_refl R) (@same_fs_trans R)). apply Hbody.
Qed.

Lemma static_session_fs a bins fracs offset tr va cache i path st :
  stable (R:=R) same_fs (static_session a bins fracs offset tr va cache i path st).
Proof.
  apply (stable_weaken same_store same_fs); [apply same_store_fs|].
  apply static_session_same_store.
Qed.

Lemma mua_session_fs a bins offset tr va cache i path st :
  stable (R:=R) same_fs (mua_session a bins offset tr va cache i path st).
Proof.
  apply (stable_weaken same_store same_fs); [apply same_store_fs|].
  apply mua_session_same_store.
Qed.

(** The loaders write nothing but their statistics file, and make no
    directory but the one that holds it; the session files, the image
    files and every other path are as they were, whether the call returns
    or raises. *)
Theorem loaders_write_only_their_statistics :
  (forall (a : static_args) w r w',
     monkey_static_loader a w = (r, w') ->
     wrote_at_most (static_stats_path a) w w') /\
  (forall (a : mua_args) w r w',
     monkey_mua_sua_loader a w = (r, w') ->
     wrote_at_most (mua_stats_path a) w w') /\
  (forall (a : closed_loop_args) w r w',
     monkey_static_loader_closed_loop a w = (r, w') ->
     wrote_at_most (closed_stats_path a) w w').
Proof.
  split; [|split].
  - intros a w r w'. revert w r w'.
    change (stable (R:=R) (wrote_at_most (static_stats_path a)) (monkey_static_loader a)).
    unfold monkey_static_loader.
    apply (stable_bind _ (@wrote_at_most_trans R D _));
      [apply (stable_lift _ (@wrote_at_most_refl R D _))|intros bins].
    apply with_cache_stable;
      [apply wrote_at_most_refl | apply wrote_at_most_trans | apply same_fs_wrote
      | apply cache_from_args_fs |].
    intros c m s. unfold static_run.
    apply (sessions_then_finish_wrote
             (fun o => static_session a bins _ _
                (fst (get_validation_split
                        (inject_Z (Z.of_nat (cache_len o)) * fst (dataset_params (dataset a)))
                        (train_frac a) (seed a)))
                (snd (get_validation_split
                        (inject_Z (Z.of_nat (cache_len o)) * fst (dataset_params (dataset a)))
                        (train_frac a) (seed a))) c) snd).
    intros. apply static_session_fs.
  - intros a w r w'. revert w r w'.
    change (stable (R:=R) (wrote_at_most (mua_stats_path a)) (monkey_mua_sua_loader a)).
    unfold monkey_mua_sua_loader.
    apply (stable_bind _ (@wrote_at_most_trans R D _));
      [apply (stable_lift _ (@wrote_at_most_refl R D _))|intros bins].
    apply with_cache_stable;
      [apply wrote_at_most_refl | apply wrote_at_most_trans | apply same_fs_wrote
      | apply cache_zscored_fs |].
    intros c m s. unfold mua_run.
    apply (sessions_then_finish_wrote
             (fun o => mua_session a bins _
                (fst (get_validation_split
                        (inject_Z (Z.of_nat (cache_len o)) * fst (dataset_params (m_dataset a)))
                        (m_train_frac a) (m_seed a)))
                (snd (get_validation_split
                        (inject_Z (Z.of_nat (cache_len o)) * fst (dataset_params (m_dataset a)))
                        (m_train_frac a) (m_seed a))) c) (fun d => d)).
    intros. apply mua_session_fs.
  - intros a w r w'. revert w r w'.
    change (stable (R:=R) (wrote_at_most (closed_stats_path a))
              (monkey_static_loader_closed_loop a)).
    unfold monkey_static_loader_closed_loop.
    destruct (c_include_mei_training a && c_include_control_training a);
      [apply (stable_raise _ (@wrote_at_most_refl R D _))|].
    apply (stable_bind _ (@wrote_at_most_trans R D _));
      [apply (stable_lift _ (@wrote_at_most_refl R D _))|intros bins].
    apply with_cache_stable;
      [apply wrote_at_most_refl | apply wrote_at_most_trans | apply same_fs_wrote
      | apply cache_from_args_fs |].
    intros c m s. unfold closed_run.
    apply (sessions_then_finish_wrote
             (fun o => closed_session_step a bins _ _ _ _ _
                (fst (get_validation_split
                        (inject_Z (Z.of_nat (cache_len o)) * fst (dataset_params (c_dataset a)))
                        (c_train_frac a) (c_seed a)))
                (snd (get_validation_split
                        (inject_Z (Z.of_nat (cache_len o)) * fst (dataset_params (c_dataset a)))
                        (c_train_frac a) (c_seed a))) m s) st_dataloaders).
    intros. apply closed_session_fs.
Qed.


(** *** Calls that do not store statistics *)

Lemma cond_bind {X A} (C : @World R -> Prop) (pre : @M R X) (k : X -> @M R A) :
  stable (R:=R) same_fs pre ->
  (forall w w', same_fs w w' -> C w -> C w') ->
  (forall x w r w', C w -> k x w = (r, w') -> same_fs w w') ->
  forall w r w', C w -> bindM pre k w = (r, w') -> same_fs w w'.
Proof.
  intros Hpre HC Hk w r w' Hc H. unfold bindM in H.
  destruct (pre w) as [[x|e] w1] eqn:E.
  - pose proof (Hpre _ _ _ E) as H1.
    eapply same_fs_trans; [exact H1|]. eapply Hk; [|exact H]. eauto.
  - inversion H. subst. eapply Hpre; eauto.
Qed.

(** nothing is to be stored: the call does not ask for it, or the
    statistics file exists *)
Definition nothing_to_store (store : bool) (sp : string) (w : @World R) : Prop :=
  store = false \/ exists_in w sp = true.

Lemma nothing_to_store_same store sp w w' :
  same_fs w w' -> nothing_to_store store sp w -> nothing_to_store store sp w'.
Proof.
  intros Hs [H | H]; [left; assumption | right].
  now rewrite (exists_in_same _ _ _ Hs).
Qed.

Lemma finish_fs sp store ri two mean std dls w r w' :
  nothing_to_store store sp w ->
  finish sp store ri two mean std dls w = (r, w') -> same_fs w w'.
Proof.
  intros Hc H. unfold finish, bindM, os_path_exists in H.
  fold (exists_in w sp) in H.
  assert (E : store && negb (exists_in w sp) = false).
  { destruct Hc as [-> | ->]; [reflexivity | apply andb_false_r]. }
  rewrite E in H. inversion H. apply same_fs_refl.
Qed.

Lemma sessions_then_finish_fs {St}
    (body : ImageCache -> nat -> string -> St -> @M R St)
    (proj : St -> dict (dict (@DataLoader R))) sp store ri two mean std
    cache xs s0 w r w' :
  (forall o i x s, stable (R:=R) same_fs (body o i x s)) ->
  nothing_to_store store sp w ->
  bindM (deref cache) (fun o =>
  bindM (for_files (body o) 0 xs s0) (fun st =>
  finish sp store ri two mean std (proj st))) w = (r, w') ->
  same_fs w w'.
Proof.
  intros Hbody Hc H.
  eapply (cond_bind (nothing_to_store store sp)); [| | |exact Hc|exact H].
  - apply (stable_deref _ (@same_fs_refl R)).
  - apply nothing_to_store_same.
  - intros o w1 r1 w2 Hc1 H1. cbv beta in H1.
    eapply (cond_bind (nothing_to_store store sp)); [| | |exact Hc1|exact H1].
    + apply (stable_for_files _ (@same_fs_refl R) (@same_fs_trans R)). apply Hbody.
    + apply nothing_to_store_same.
    + intros st w3 r3 w4 Hc3 H3. cbv beta in H3. eapply finish_fs; eauto.
Qed.

Lemma with_cache_fs sp store ri mk fresh run w r w' :
  stable (R:=R) same_fs fresh ->
  (forall c m s w r w',
     nothing_to_store store sp w -> run c m s w = (r, w') -> same_fs w w') ->
  nothing_to_store store sp w ->
  with_cache sp ri mk fresh run w = (r, w') -> same_fs w w'.
Proof.
  intros Hfresh Hrun Hc H. unfold with_cache in H.
  eapply (cond_bind (nothing_to_store store sp)); [| | |exact Hc|exact H].
  - apply (stable_exists _ (@same_fs_refl R)).
  - apply nothing_to_store_same.
  - intros b w1 r1 w2 Hc1 H1. cbv beta in H1.
    eapply (cond_bind (nothing_to_store store sp)); [| | |exact Hc1|exact H1].
    + destruct b.
      * apply cache_from_stats_fs.
      * apply (stable_bind _ (@same_fs_trans R)); [exact Hfresh|].
        intros c. apply (stable_ret _ (@same_fs_refl R)).
    + apply nothing_to_store_same.
    + intros [x|[[c m] s]] w3 r3 w4 Hc3 H3; cbv beta iota in H3.
      * inversion H3. apply same_fs_refl.
      * eapply Hrun; eauto.
Qed.

(** A call with [store_data_info=False], and a call that finds its
    statistics file in place, leaves every file and every directory as it
    was, whether it returns or raises. *)
Theorem nothing_written_without_new_statistics :
  (forall (a : static_args) w r w',
     store_data_info a = false \/ exists_in w (static_stats_path a) = true ->
     monkey_static_loader a w = (r, w') -> same_fs w w') /\
  (forall (a : mua_args) w r w',
     m_store_data_info a = false \/ exists_in w (mua_stats_path a) = true ->
     monkey_mua_sua_loader a w = (r, w') -> same_fs w w') /\
  (forall (a : closed_loop_args) w r w',
     c_store_data_info a = false \/ exists_in w (closed_stats_path a) = true ->
     monkey_static_loader_closed_loop a w = (r, w') -> same_fs w w').
Proof.
  split; [|split].
  - intros a w r w' Hc H. unfold monkey_static_loader in H.
    unfold bindM at 1 in H. unfold lift at 1 in H.
    destruct (normalize_time_bins (time_bins_sum a)) as [bins|e];
      [|inversion H; apply same_fs_refl].
    eapply (with_cache_fs _ (store_data_info a)); [| |exact Hc|exact H].
    + apply cache_from_args_fs.
    + intros c m s w1 r1 w2 Hc1 H1. unfold static_run in H1.
      eapply (sessions_then_finish_fs
                (fun o => static_session a bins _ _
                   (fst (get_validation_split
                           (inject_Z (Z.of_nat (cache_len o)) * fst (dataset_params (dataset a)))
                           (train_frac a) (seed a)))
                   (snd (get_validation_split
                           (inject_Z (Z.of_nat (cache_len o)) * fst (dataset_params (dataset a)))
                           (train_frac a) (seed a))) c) snd); [|exact Hc1|exact H1].
      intros. apply static_session_fs.
  - intros a w r w' Hc H. unfold monkey_mua_sua_loader in H.
    unfold bindM at 1 in H. unfold lift at 1 in H.
    destruct (normalize_time_bins (m_time_bins_sum a)) as [bins|e];
      [|inversion H; apply same_fs_refl].
    eapply (with_cache_fs _ (m_store_data_info a)); [| |exact Hc|exact H].
    + apply cache_zscored_fs.
    + intros c m s w1 r1 w2 Hc1 H1. unfold mua_run in H1.
      eapply (sessions_then_finish_fs
                (fun o => mua_session a bins _
                   (fst (get_validation_split
                           (inject_Z (Z.of_nat (cache_len o)) * fst (dataset_params (m_dataset a)))
                           (m_train_frac a) (m_seed a)))
                   (snd (get_validation_split
                           (inject_Z (Z.of_nat (cache_len o)) * fst (dataset_params (m_dataset a)))
                           (m_train_frac a) (m_seed a))) c) (fun d => d)); [|exact Hc1|exact H1].
      intros. apply mua_session_fs.
  - intros a w r w' Hc H. unfold monkey_static_loader_closed_loop in H.
    destruct (c_include_mei_training a && c_include_control_training a);
      [inversion H; apply same_fs_refl|].
    unfold bindM at 1 in H. unfold lift at 1 in H.
    destruct (normalize_time_bins (c_time_bins_sum a)) as [bins|e];
      [|inversion H; apply same_fs_refl].
    eapply (with_cache_fs _ (c_store_data_info a)); [| |exact Hc|exact H].
    + apply cache_from_args_fs.
    + intros c m s w1 r1 w2 Hc1 H1. unfold closed_run in H1.
      eapply (sessions_then_finish_fs
                (fun o => closed_session_step a bins _ _ _ _ _
                   (fst (get_validation_split
                           (inject_Z (Z.of_nat (cache_len o)) * fst (dataset_params (c_dataset a)))
                           (c_train_frac a) (c_seed a)))
                   (snd (get_validation_split
                           (inject_Z (Z.of_nat (cache_len o)) * fst (dataset_params (c_dataset a)))
                           (c_train_frac a) (c_seed a))) m s) st_dataloaders);
        [|exact Hc1|exact H1].
      intros. apply closed_session_fs.
Qed.


(** *** What [store_data_info] stores *)

Lemma exists_ok p w b w1 :
  os_path_exists p w = (Ok b, w1) -> b = exists_in w p /\ w1 = w.
Proof. unfold os_path_exists. intros H. inversion H. auto. Qed.

Lemma dump_ok p c w u w1 :
  pickle_dump p c w = (Ok u, w1) -> files w1 p = Some c.
Proof.
  unfold pickle_dump. intros H. inversion H. simpl. now rewrite String.eqb_refl.
Qed.

Lemma info_loop_statistics mean std (shapes : dict (list nat)) (chans neurons : dict nat)
    keys i info0 info :
  for_enumerate (fun _ k info =>
      Py.bind (dict_item k shapes) (fun shp =>
      Py.bind (dict_item k chans) (fun ch =>
      Py.bind (dict_item k neurons) (fun n =>
      Ok (dict_set k (mkInfo shp ch n mean std) info)))))
    i keys info0 = Ok info ->
  (forall k x, dict_get k info0 = Some x ->
     info_img_mean x = mean /\ info_img_std x = std) ->
  forall k x, dict_get k info = Some x ->
    info_img_mean x = mean /\ info_img_std x = std.
Proof.
  revert i info0. induction keys as [|k0 keys IH]; simpl; intros i info0 H H0.
  - inversion H. subst. exact H0.
  - destruct (dict_item k0 shapes) as [shp|]; simpl in H; [|discriminate].
    destruct (dict_item k0 chans) as [ch|]; simpl in H; [|discriminate].
    destruct (dict_item k0 neurons) as [n|]; simpl in H; [|discriminate].
    eapply IH; [exact H|].
    intros k x Hget. destruct (string_dec k0 k) as [-> | Hne].
    + rewrite dict_get_set_eq in Hget. inversion Hget. subst. simpl. auto.
    + rewrite dict_get_set_neq in Hget by assumption. eauto.
Qed.

(** [finish] on a world without the statistics file writes the statistics
    it returns *)
Lemma finish_stores sp ri two mean std dls w r w' :
  finish sp true ri two mean std dls w = (Ok r, w') ->
  exists_in w sp = false ->
  exists info,
    r = (if ri then Stored (PickledInfo info) else Dataloaders dls) /\
    files w' sp = Some (PickledInfo info) /\
    caches w' = caches w /\
    forall k x, dict_get k info = Some x ->
      info_img_mean x = mean /\ info_img_std x = std.
Proof.
  intros H Hex.
  pose proof (finish_same_caches _ _ _ _ _ _ _ _ _ _ H) as Hc.
  unfold finish in H.
  apply bindM_ok in H. destruct H as (b & w1 & Hb & H).
  apply exists_ok in Hb. destruct Hb as [-> ->]. rewrite Hex in H. simpl in H.
  apply bindM_ok in H. destruct H as (info & w2 & Hinfo & H).
  apply ret_ok in H. destruct H as [-> ->].
  exists info. split; [reflexivity|].
  apply bindM_ok in Hinfo. destruct Hinfo as (train & w3 & _ & Hinfo).
  unfold store_info in Hinfo.
  repeat (apply bindM_ok in Hinfo; destruct Hinfo as (? & ? & ? & Hinfo);
          cbv beta in Hinfo).
  match type of Hinfo with
  | (let '(_, _) := ?p in _) _ = _ => destruct p
  end.
  repeat (apply bindM_ok in Hinfo; destruct Hinfo as (? & ? & ? & Hinfo);
          cbv beta in Hinfo).
  apply ret_ok in Hinfo. destruct Hinfo as [-> ->].
  split; [|split; [exact Hc|]].
  - match goal with Hd : pickle_dump _ _ _ = _ |- _ => apply dump_ok in Hd; exact Hd end.
  - match goal with
    | Hl : lift (for_enumerate _ _ _ _) _ = (Ok _, _) |- _ =>
        apply lift_ok in Hl; destruct Hl as [Hl _];
        eapply info_loop_statistics; [exact Hl|]
    end.
    intros k y Hk. discriminate Hk.
Qed.


Lemma with_cache_fresh sp ri mk fresh run w (r : @loader_result R) w' :
  stable (R:=R) same_fs fresh ->
  exists_in w sp = false ->
  with_cache sp ri mk fresh run w = (Ok r, w') ->
  exists c m s w1,
    fresh w = (Ok (c, m, s), w1) /\ same_fs w w1 /\ run c m s w1 = (Ok r, w').
Proof.
  intros Hfresh Hex H. unfold with_cache in H.
  apply bindM_ok in H. destruct H as (b & w0 & Hb & H).
  apply exists_ok in Hb. destruct Hb as [-> ->]. rewrite Hex in H.
  apply bindM_ok in H. destruct H as (e & w1 & He & H).
  apply bindM_ok in He. destruct He as ([[c m] s] & w2 & Hf & He).
  apply ret_ok in He. destruct He as [-> ->].
  exists c, m, s, w2. split; [exact Hf|]. split; [|exact H].
  eapply Hfresh; eauto.
Qed.

(** the cache that [fresh] constructs records the statistics it returns *)
Definition records_statistics (fresh : @M R (nat * value * value)) : Prop :=
  forall w c m s w1, fresh w = (Ok (c, m, s), w1) ->
    c = length (caches w) /\
    exists o, caches w1 = (caches w ++ [o])%list /\
              ic_img_mean o = Given m /\ ic_img_std o = Given s.

Lemma cache_zscored_records mk :
  (forall x y z, ic_img_mean (mk x y z) = x /\ ic_img_std (mk x y z) = y) ->
  records_statistics (cache_zscored mk).
Proof.
  intros Hmk w c m s w1 H.
  unfold cache_zscored, bindM, new_cache, zscore_images, bindM, deref in H.
  simpl in H. rewrite nth_error_snoc in H.
  destruct (zscore_stats (mk Default Default false)) as [mean std] eqn:Ez.
  simpl in H. inversion H. subst. simpl. split; [reflexivity|].
  rewrite set_nth_snoc. eexists. split; [reflexivity|]. simpl. auto.
Qed.

Lemma cache_from_args_records mean std mk :
  (forall x y z, ic_img_mean (mk x y z) = x /\ ic_img_std (mk x y z) = y) ->
  records_statistics (cache_from_args mean std mk).
Proof.
  intros Hmk. unfold cache_from_args.
  assert (Hgiven : records_statistics
            (bindM (new_cache (mk (Given mean) (Given std) true))
                   (fun c => ret (c, mean, std)))).
  { intros w c m s w1 H. inversion H. subst. simpl. split; [reflexivity|].
    eexists. split; [reflexivity|]. apply Hmk. }
  destruct mean; auto using cache_zscored_records.
Qed.

Lemma sessions_then_finish_stores {St}
    (body : ImageCache -> nat -> string -> St -> @M R St)
    (proj : St -> dict (dict (@DataLoader R))) sp ri two mean std
    cache xs s0 w r w' :
  (forall o i x s, stable (R:=R) same_store (body o i x s)) ->
  exists_in w sp = false ->
  bindM (deref cache) (fun o =>
  bindM (for_files (body o) 0 xs s0) (fun st =>
  finish sp true ri two mean std (proj st))) w = (Ok r, w') ->
  exists info,
    (ri = true -> r = Stored (PickledInfo info)) /\
    files w' sp = Some (PickledInfo info) /\
    caches w' = caches w /\
    forall k x, dict_get k info = Some x ->
      info_img_mean x = mean /\ info_img_std x = std.
Proof.
  intros Hbody Hex H.
  apply bindM_ok in H. destruct H as (o & w1 & Ho & H).
  apply deref_ok in Ho. destruct Ho as [-> _].
  apply bindM_ok in H. destruct H as (st & w2 & Hloop & H).
  assert (Hs : same_store w w2).
  { eapply (stable_for_files _ (@same_store_refl R) (@same_store_trans R));
      [|exact Hloop]. apply Hbody. }
  apply finish_stores in H.
  - destruct H as (info & -> & Hf & Hc & Hall).
    exists info. split; [intros ->; reflexivity|]. split; [exact Hf|].
    split; [|exact Hall]. destruct Hs as (_ & _ & Hcs). congruence.
  - rewrite (exists_in_same w w2); [exact Hex|]. now apply same_store_fs.
Qed.

Lemma with_cache_returns_stored sp mk fresh run w p :
  files w sp = Some p ->
  with_cache (R:=R) sp true mk fresh run w = (Ok (Stored p), w).
Proof.
  intros Hf.
  unfold with_cache, bindM, os_path_exists, cache_from_stats, bindM, pickle_load.
  rewrite Hf. cbv beta iota. rewrite ?Hf. reflexivity.
Qed.

(** A call that stores its statistics writes them to its statistics file,
    with the image mean and standard deviation of the one cache it
    constructed in every entry, and returns them when [return_data_info]
    is set.  Every later call that maps to the same statistics file and
    asks for the data info returns exactly what was stored, and changes
    nothing. *)
Theorem stored_statistics_round_trip :
  (forall (a : static_args) w r w',
     store_data_info a = true ->
     exists_in w (static_stats_path a) = false ->
     monkey_static_loader a w = (Ok r, w') ->
     exists info c,
       files w' (static_stats_path a) = Some (PickledInfo info) /\
       caches w' = (caches w ++ [c])%list /\
       statistics_of c info /\
       (return_data_info a = true -> r = Stored (PickledInfo info)) /\
       forall a' : static_args,
         static_stats_path a' = static_stats_path a ->
         return_data_info a' = true ->
         time_bins_sum a' <> TbNone ->
         monkey_static_loader a' w' = (Ok (Stored (PickledInfo info)), w')) /\
  (forall (a : mua_args) w r w',
     m_store_data_info a = true ->
     exists_in w (mua_stats_path a) = false ->
     monkey_mua_sua_loader a w = (Ok r, w') ->
     exists info c,
       files w' (mua_stats_path a) = Some (PickledInfo info) /\
       caches w' = (caches w ++ [c])%list /\
       statistics_of c info /\
       (m_return_data_info a = true -> r = Stored (PickledInfo info)) /\
       forall a' : mua_args,
         mua_stats_path a' = mua_stats_path a ->
         m_return_data_info a' = true ->
         m_time_bins_sum a' <> TbNone ->
         monkey_mua_sua_loader a' w' = (Ok (Stored (PickledInfo info)), w')).
Proof.
  split.
  - intros a w r w' Hstore Hex H. unfold monkey_static_loader in H.
    apply bindM_ok in H. destruct H as (bins & w0 & Hb & H).
    apply lift_ok in Hb. destruct Hb as [_ ->].
    apply with_cache_fresh in H; [|apply cache_from_args_fs|exact Hex].
    destruct H as (c & m & s & w1 & Hfresh & Hfs & Hrun).
    apply cache_from_args_records in Hfresh; [|intros; split; reflexivity].
    destruct Hfresh as (-> & o & Hcaches & Hmean & Hstd).
    unfold static_run in Hrun. rewrite Hstore in Hrun.
    apply (sessions_then_finish_stores
             (fun o => static_session a bins _ _
                (fst (get_validation_split
                        (inject_Z (Z.of_nat (cache_len o)) * fst (dataset_params (dataset a)))
                        (train_frac a) (seed a)))
                (snd (get_validation_split
                        (inject_Z (Z.of_nat (cache_len o)) * fst (dataset_params (dataset a)))
                        (train_frac a) (seed a))) _) snd) in Hrun;
      [|intros; apply static_session_same_store
       |rewrite (exists_in_same w w1); assumption].
    destruct Hrun as (info & Hr & Hf & Hc & Hall).
    exists info, o. split; [exact Hf|]. split; [congruence|].
    split; [|split; [exact Hr|]].
    + intros k x Hk. destruct (Hall _ _ Hk) as [-> ->]. auto.
    + intros a' Hsp Hri Htb. unfold monkey_static_loader.
      assert (Hn : exists bins', normalize_time_bins (time_bins_sum a') = Ok bins')
        by (destruct (time_bins_sum a'); [congruence | eexists; reflexivity ..]).
      destruct Hn as [bins' Hn]. unfold bindM at 1, lift at 1. rewrite Hn, Hri.
      apply with_cache_returns_stored. fold (static_stats_path a').
      rewrite Hsp. exact Hf.
  - intros a w r w' Hstore Hex H. unfold monkey_mua_sua_loader in H.
    apply bindM_ok in H. destruct H as (bins & w0 & Hb & H).
    apply lift_ok in Hb. destruct Hb as [_ ->].
    apply with_cache_fresh in H; [|apply cache_zscored_fs|exact Hex].
    destruct H as (c & m & s & w1 & Hfresh & Hfs & Hrun).
    apply cache_zscored_records in Hfresh; [|intros; split; reflexivity].
    destruct Hfresh as (-> & o & Hcaches & Hmean & Hstd).
    unfold mua_run in Hrun. rewrite Hstore in Hrun.
    apply (sessions_then_finish_stores
             (fun o => mua_session a bins _
                (fst (get_validation_split
                        (inject_Z (Z.of_nat (cache_len o)) * fst (dataset_params (m_dataset a)))
                        (m_train_frac a) (m_seed a)))
                (snd (get_validation_split
                        (inject_Z (Z.of_nat (cache_len o)) * fst (dataset_params (m_dataset a)))
                        (m_train_frac a) (m_seed a))) _) (fun d => d)) in Hrun;
      [|intros; apply mua_session_same_store
       |rewrite (exists_in_same w w1); assumption].
    destruct Hrun as (info & Hr & Hf & Hc & Hall).
    exists info, o. split; [exact Hf|]. split; [congruence|].
    split; [|split; [exact Hr|]].
    + intros k x Hk. destruct (Hall _ _ Hk) as [-> ->]. auto.
    + intros a' Hsp Hri Htb. unfold monkey_mua_sua_loader.
      assert (Hn : exists bins', normalize_time_bins (m_time_bins_sum a') = Ok bins')
        by (destruct (m_time_bins_sum a'); [congruence | eexists; reflexivity ..]).
      destruct Hn as [bins' Hn]. unfold bindM at 1, lift at 1. rewrite Hn, Hri.
      apply with_cache_returns_stored. fold (mua_stats_path a').
      rewrite Hsp. exact Hf.
Qed.


(** *** Edge cases of the arguments *)

Lemma finish_not_stored sp ri two mean std dls w :
  finish (R:=R) sp false ri two mean std dls w
  = (Ok (if ri then Stored (PickledInfo []) else Dataloaders dls), w).
Proof. reflexivity. Qed.

Lemma finish_empty_train sp ri two mean std (dls : dict (dict (@DataLoader R))) w :
  exists_in w sp = false ->
  dict_get "train" dls = Some [] ->
  finish (R:=R) sp true ri two mean std dls w
  = (Raise (IndexError "list index out of range"), w).
Proof.
  intros Hex Ht. unfold finish, bindM, os_path_exists.
  fold (exists_in w sp). rewrite Hex. cbn [andb negb].
  unfold lift, dict_item. rewrite Ht. reflexivity.
Qed.

Lemma with_cache_no_stats crop sp ri mk fresh run w :
  constructs_one crop fresh ->
  stable (R:=R) same_fs fresh ->
  exists_in w sp = false ->
  exists m s w1 o,
    with_cache sp ri mk fresh run w = run (length (caches w)) m s w1 /\
    same_fs w w1 /\ nth_error (caches w1) (length (caches w)) = Some o.
Proof.
  intros Hone Hfs Hex.
  destruct (fresh w) as [e w1] eqn:Ef.
  destruct (Hone _ _ _ Ef) as (_ & o & m & s & -> & Hc & _).
  exists m, s, w1, o. split; [|split].
  - unfold with_cache, bindM, os_path_exists. fold (exists_in w sp).
    rewrite Hex, Ef. reflexivity.
  - eapply Hfs; eauto.
  - rewrite Hc. apply nth_error_snoc.
Qed.

Lemma no_sessions_then_finish {St}
    (body : ImageCache -> nat -> string -> St -> @M R St)
    (proj : St -> dict (dict (@DataLoader R))) sp store ri two mean std
    cache s0 w o :
  nth_error (caches w) cache = Some o ->
  bindM (deref cache) (fun o =>
  bindM (for_files (body o) 0 [] s0) (fun st =>
  finish sp store ri two mean std (proj st))) w
  = finish sp store ri two mean std (proj s0) w.
Proof.
  intros Ho. unfold bindM at 1. unfold deref. rewrite Ho. reflexivity.
Qed.

(** With [time_bins_sum=None] each loader raises a [TypeError] before it
    reads a file or constructs a cache: the world is as it was. *)
Theorem time_bins_none_is_a_type_error :
  (forall (a : static_args) w,
     time_bins_sum a = TbNone ->
     exists msg, monkey_static_loader a w = (Raise (TypeError msg), w)) /\
  (forall (a : mua_args) w,
     m_time_bins_sum a = TbNone ->
     exists msg, monkey_mua_sua_loader a w = (Raise (TypeError msg), w)) /\
  (forall (a : closed_loop_args) w,
     c_time_bins_sum a = TbNone ->
     c_include_mei_training a && c_include_control_training a = false ->
     exists msg, monkey_static_loader_closed_loop a w = (Raise (TypeError msg), w)).
Proof.
  split; [|split].
  - intros a w H. eexists. unfold monkey_static_loader, bindM, lift.
    rewrite H. reflexivity.
  - intros a w H. eexists. unfold monkey_mua_sua_loader, bindM, lift.
    rewrite H. reflexivity.
  - intros a w H Hb. eexists. unfold monkey_static_loader_closed_loop, bindM, lift.
    rewrite Hb, H. reflexivity.
Qed.

(** A call over no session files, on a world without the statistics file:
    with [store_data_info] it raises an [IndexError], because the
    statistics are read off the first training loader; without it, it
    returns the empty tiers, or an empty data info. *)
Theorem no_session_files :
  (forall (a : static_args) w,
     neuronal_data_files a = [] ->
     time_bins_sum a <> TbNone ->
     exists_in w (static_stats_path a) = false ->
     fst (monkey_static_loader a w)
     = if store_data_info a
       then Raise (IndexError "list index out of range")
       else Ok (if return_data_info a then Stored (PickledInfo [])
                else Dataloaders empty_dataloaders)) /\
  (forall (a : mua_args) w,
     m_neuronal_data_files a = [] ->
     m_time_bins_sum a <> TbNone ->
     exists_in w (mua_stats_path a) = false ->
     fst (monkey_mua_sua_loader a w)
     = if m_store_data_info a
       then Raise (IndexError "list index out of range")
       else Ok (if m_return_data_info a then Stored (PickledInfo [])
                else Dataloaders empty_dataloaders)) /\
  (forall (a : closed_loop_args) w,
     c_neuronal_data_files a = [] ->
     c_time_bins_sum a <> TbNone ->
     c_include_mei_training a && c_include_control_training a = false ->
     exists_in w (closed_stats_path a) = false ->
     fst (monkey_static_loader_closed_loop a w)
     = if c_store_data_info a
       then Raise (IndexError "list index out of range")
       else Ok (if c_return_data_info a then Stored (PickledInfo [])
                else Dataloaders (closed_dataloaders a))).
Proof.
  split; [|split].
  - intros a w Hfiles Htb Hex.
    assert (Hn : exists bins, normalize_time_bins (time_bins_sum a) = Ok bins)
      by (destruct (time_bins_sum a); [congruence | eexists; reflexivity ..]).
    destruct Hn as [bins Hn].
    unfold monkey_static_loader. unfold bindM at 1, lift at 1. rewrite Hn. cbv zeta.
    match goal with
    | |- fst (with_cache ?sp ?ri ?mk ?fresh ?run w) = _ =>
        destruct (with_cache_no_stats (static_crop a) sp ri mk fresh run w)
          as (m & s & w1 & o & -> & Hfs & Ho)
    end;
      [apply cache_from_args_one; intros; reflexivity
      |apply cache_from_args_fs | exact Hex |].
    unfold static_run. rewrite Hfiles.
    rewrite (no_sessions_then_finish
               (fun o => static_session a bins _ _ _ _ _) snd _ _ _ _ _ _ _ _ _ o Ho).
    destruct (store_data_info a).
    + rewrite finish_empty_train; [reflexivity | | reflexivity].
      now rewrite (exists_in_same w w1).
    + rewrite finish_not_stored. reflexivity.
  - intros a w Hfiles Htb Hex.
    assert (Hn : exists bins, normalize_time_bins (m_time_bins_sum a) = Ok bins)
      by (destruct (m_time_bins_sum a); [congruence | eexists; reflexivity ..]).
    destruct Hn as [bins Hn].
    unfold monkey_mua_sua_loader. unfold bindM at 1, lift at 1. rewrite Hn. cbv zeta.
    match goal with
    | |- fst (with_cache ?sp ?ri ?mk ?fresh ?run w) = _ =>
        destruct (with_cache_no_stats (normalize_crop (m_crop a)) sp ri mk fresh run w)
          as (m & s & w1 & o & -> & Hfs & Ho)
    end;
      [apply cache_zscored_one; intros; reflexivity
      |apply cache_zscored_fs | exact Hex |].
    unfold mua_run. rewrite Hfiles.
    rewrite (no_sessions_then_finish
               (fun o => mua_session a bins _ _ _ _) (fun d => d)
               _ _ _ _ _ _ _ _ _ o Ho).
    destruct (m_store_data_info a).
    + rewrite finish_empty_train; [reflexivity | | reflexivity].
      now rewrite (exists_in_same w w1).
    + rewrite finish_not_stored. reflexivity.
  - intros a w Hfiles Htb Hboth Hex.
    assert (Hn : exists bins, normalize_time_bins (c_time_bins_sum a) = Ok bins)
      by (destruct (c_time_bins_sum a); [congruence | eexists; reflexivity ..]).
    destruct Hn as [bins Hn].
    unfold monkey_static_loader_closed_loop. rewrite Hboth.
    unfold bindM at 1, lift at 1. rewrite Hn. cbv zeta.
    match goal with
    | |- fst (with_cache ?sp ?ri ?mk ?fresh ?run w) = _ =>
        destruct (with_cache_no_stats (normalize_crop (c_crop a)) sp ri mk fresh run w)
          as (m & s & w1 & o & -> & Hfs & Ho)
    end;
      [apply cache_from_args_one; intros; reflexivity
      |apply cache_from_args_fs | exact Hex |].
    unfold closed_run. rewrite Hfiles.
    rewrite (no_sessions_then_finish
               (fun o => closed_session_step a bins _ _ _ _ _ _ _ _ _) st_dataloaders
               _ _ _ _ _ _ _ _ _ o Ho).
    destruct (c_store_data_info a).
    + rewrite finish_empty_train; [reflexivity | |].
      * now rewrite (exists_in_same w w1).
      * simpl. unfold closed_dataloaders.
        destruct (c_include_mei_training a || c_include_control_training a);
          reflexivity.
    + rewrite finish_not_stored. reflexivity.
Qed.


(** With [return_data_info] but without [store_data_info], a call that
    finds no statistics file returns an empty data info, whatever the
    session files hold. *)
Theorem data_info_is_empty_unless_stored :
  (forall (a : static_args) w r w',
     store_data_info a = false -> return_data_info a = true ->
     exists_in w (static_stats_path a) = false ->
     monkey_static_loader a w = (Ok r, w') -> r = Stored (PickledInfo [])) /\
  (forall (a : mua_args) w r w',
     m_store_data_info a = false -> m_return_data_info a = true ->
     exists_in w (mua_stats_path a) = false ->
     monkey_mua_sua_loader a w = (Ok r, w') -> r = Stored (PickledInfo [])) /\
  (forall (a : closed_loop_args) w r w',
     c_store_data_info a = false -> c_return_data_info a = true ->
     exists_in w (closed_stats_path a) = false ->
     monkey_static_loader_closed_loop a w = (Ok r, w') -> r = Stored (PickledInfo [])).
Proof.
  split; [|split].
  - intros a w r w' Hstore Hri Hex H. unfold monkey_static_loader in H.
    apply bindM_ok in H. destruct H as (bins & w0 & Hb & H).
    apply lift_ok in Hb. destruct Hb as [_ ->].
    apply with_cache_fresh in H; [|apply cache_from_args_fs|exact Hex].
    destruct H as (c & m & s & w1 & _ & _ & Hrun).
    unfold static_run in Hrun. rewrite Hstore, Hri in Hrun.
    apply bindM_ok in Hrun. destruct Hrun as (o & w2 & _ & Hrun).
    apply bindM_ok in Hrun. destruct Hrun as (st & w3 & _ & Hrun).
    rewrite finish_not_stored in Hrun. now inversion Hrun.
  - intros a w r w' Hstore Hri Hex H. unfold monkey_mua_sua_loader in H.
    apply bindM_ok in H. destruct H as (bins & w0 & Hb & H).
    apply lift_ok in Hb. destruct Hb as [_ ->].
    apply with_cache_fresh in H; [|apply cache_zscored_fs|exact Hex].
    destruct H as (c & m & s & w1 & _ & _ & Hrun).
    unfold mua_run in Hrun. rewrite Hstore, Hri in Hrun.
    apply bindM_ok in Hrun. destruct Hrun as (o & w2 & _ & Hrun).
    apply bindM_ok in Hrun. destruct Hrun as (st & w3 & _ & Hrun).
    rewrite finish_not_stored in Hrun. now inversion Hrun.
  - intros a w r w' Hstore Hri Hex H. unfold monkey_static_loader_closed_loop in H.
    destruct (c_include_mei_training a && c_include_control_training a);
      [discriminate H|].
    apply bindM_ok in H. destruct H as (bins & w0 & Hb & H).
    apply lift_ok in Hb. destruct Hb as [_ ->].
    apply with_cache_fresh in H; [|apply cache_from_args_fs|exact Hex].
    destruct H as (c & m & s & w1 & _ & _ & Hrun).
    unfold closed_run in Hrun. rewrite Hstore, Hri in Hrun.
    apply bindM_ok in Hrun. destruct Hrun as (o & w2 & _ & Hrun).
    apply bindM_ok in Hrun. destruct Hrun as (st & w3 & _ & Hrun).
    rewrite finish_not_stored in Hrun. now inversion Hrun.
Qed.

(** *** Calls that cannot get through their sessions *)

Lemma for_files_reaches {St} (body : nat -> string -> St -> @M R St)
    (Inv : St -> Prop) :
  (forall i x s w s' w', Inv s -> body i x s w = (Ok s', w') -> Inv s') ->
  forall xs k s w s' w',
    Inv s -> for_files body k xs s w = (Ok s', w') ->
    forall i x, nth_error xs i = Some x ->
      exists s1 w1 s2 w2, Inv s1 /\ body (k + i) x s1 w1 = (Ok s2, w2).
Proof.
  intros Hstep xs. induction xs as [|y xs IH]; intros k s w s' w' Hinv H i x Hi.
  - destruct i; discriminate Hi.
  - simpl in H. apply bindM_ok in H. destruct H as (s1 & w1 & Hb & H).
    destruct i as [|i]; simpl in Hi.
    + inversion Hi. subst y. rewrite Nat.add_0_r. eauto 6.
    + destruct (IH (S k) s1 w1 s' w' (Hstep _ _ _ _ _ _ Hinv Hb) H i x Hi)
        as (s2 & w2 & s3 & w3 & Hinv2 & Hb2).
      replace (k + S i) with (S k + i) by lia. eauto 6.
Qed.

Lemma with_cache_ran crop sp ri mk fresh run w (r : @loader_result R) w' :
  (forall x y z, ic_crop (mk x y z) = crop) ->
  constructs_one crop fresh ->
  with_cache sp ri mk fresh run w = (Ok r, w') ->
  returned_stored_statistics ri sp w r w' \/
  exists c m s w1, run c m s w1 = (Ok r, w').
Proof.
  intros Hmk Hone H.
  destruct (with_cache_ok crop sp ri mk fresh run w r w' Hmk Hone H)
    as [(Hri & -> & p & Hp & ->) | (c & m & s & w1 & _ & _ & _ & Hrun)].
  - left. unfold returned_stored_statistics. eauto.
  - right. eauto.
Qed.

(** [monkey_mua_sua_loader] without multi-unit files cannot process a
    session: the loop over the multi-unit files never binds [mua_data],
    which line 392 reads.  Such a call over at least one session file
    returns only by handing back statistics that were stored before. *)
Theorem mua_loader_needs_a_mua_file :
  forall (a : mua_args) w r w',
    m_mua_data_files a = [] ->
    m_neuronal_data_files a <> [] ->
    monkey_mua_sua_loader a w = (Ok r, w') ->
    returned_stored_statistics (m_return_data_info a) (mua_stats_path a) w r w'.
Proof.
  intros a w r w' Hmua Hfiles H. unfold monkey_mua_sua_loader in H.
  apply bindM_ok in H. destruct H as (bins & w0 & Hb & H).
  apply lift_ok in Hb. destruct Hb as [_ ->].
  apply (with_cache_ran (normalize_crop (m_crop a))) in H;
    [| intros; reflexivity | apply cache_zscored_one; intros; reflexivity].
  destruct H as [H | (c & m & s & w1 & Hrun)]; [exact H|].
  exfalso. unfold mua_run in Hrun.
  apply bindM_ok in Hrun. destruct Hrun as (o & w2 & _ & Hrun).
  apply bindM_ok in Hrun. destruct Hrun as (st & w3 & Hloop & _).
  destruct (m_neuronal_data_files a) as [|x xs]; [congruence|].
  simpl in Hloop. apply bindM_ok in Hloop. destruct Hloop as (s1 & w4 & Hb & _).
  apply mua_session_ok in Hb. destruct Hb as (sd & eye & ls & Hp & _).
  unfold mua_prepare in Hp. rewrite Hmua in Hp. simpl find_mua in Hp.
  minv.
  match goal with
  | Hm : merge_mua _ _ _ _ _ _ _ = (Ok _, _) |- _ => discriminate Hm
  end.
Qed.

(** In [monkey_static_loader_closed_loop] a number given as [image_frac]
    has become a list by the time line 670 multiplies it with the seed and
    calls [int] on the product.  So with [randomize_image_selection] (the
    default) a fraction below one cannot be used, whatever the seed: over
    at least one session file the call returns only by handing back
    statistics that were stored before. *)
Theorem closed_loop_cannot_subsample_at_random :
  forall (a : closed_loop_args) w r w' q,
    c_randomize_image_selection a = true ->
    c_image_frac a = FracOne q ->
    lt_one q = true ->
    c_neuronal_data_files a <> [] ->
    monkey_static_loader_closed_loop a w = (Ok r, w') ->
    returned_stored_statistics (c_return_data_info a) (closed_stats_path a) w r w'.
Proof.
  intros a w r w' q Hrand Hfrac Hlt Hfiles H.
  unfold monkey_static_loader_closed_loop in H.
  destruct (c_include_mei_training a && c_include_control_training a);
    [discriminate H|].
  apply bindM_ok in H. destruct H as (bins & w0 & Hb & H).
  apply lift_ok in Hb. destruct Hb as [_ ->].
  apply (with_cache_ran (normalize_crop (c_crop a))) in H;
    [| intros; reflexivity | apply cache_from_args_one; intros; reflexivity].
  destruct H as [H | (c & m & s & w1 & Hrun)]; [exact H|].
  exfalso. unfold closed_run in Hrun.
  apply bindM_ok in Hrun. destruct Hrun as (o & w2 & _ & Hrun).
  apply bindM_ok in Hrun. destruct Hrun as (st & w3 & Hloop & _).
  rewrite Hfrac in Hloop.
  destruct (c_neuronal_data_files a) as [|x xs]; [congruence|].
  simpl in Hloop. apply bindM_ok in Hloop. destruct Hloop as (s1 & w4 & Hb & _).
  unfold closed_session_step in Hb.
  apply bindM_ok in Hb. destruct Hb as (cs & w6 & Hp & _).
  unfold closed_prepare in Hp. minv.
  match goal with
  | Hs : closed_select_fraction _ _ _ _ _ _ = Ok _ |- _ =>
      unfold closed_select_fraction in Hs; simpl in Hs;
      rewrite Hlt, Hrand in Hs; discriminate Hs
  end.
Qed.

(** In [monkey_static_loader], line 180 multiplies [image_selection_seed]
    with the fraction.  With the default seed [None] and the default
    [randomize_image_selection=True], a session whose fraction is below
    one cannot be processed: the call returns only by handing back
    statistics that were stored before. *)
Theorem static_subsampling_needs_a_seed :
  forall (a : static_args) w r w' i q,
    randomize_image_selection a = true ->
    image_selection_seed a = None ->
    i < length (neuronal_data_files a) ->
    nth_error (normalize_image_frac (image_frac a) (neuronal_data_files a)) i
      = Some q ->
    lt_one q = true ->
    monkey_static_loader a w = (Ok r, w') ->
    returned_stored_statistics (return_data_info a) (static_stats_path a) w r w'.
Proof.
  intros a w r w' i q Hrand Hseed Hi Hq Hlt H. unfold monkey_static_loader in H.
  apply bindM_ok in H. destruct H as (bins & w0 & Hb & H).
  apply lift_ok in Hb. destruct Hb as [_ ->].
  apply (with_cache_ran (static_crop a)) in H;
    [| intros; reflexivity | apply cache_from_args_one; intros; reflexivity].
  destruct H as [H | (c & m & s & w1 & Hrun)]; [exact H|].
  exfalso. unfold static_run in Hrun.
  apply bindM_ok in Hrun. destruct Hrun as (o & w2 & _ & Hrun).
  apply bindM_ok in Hrun. destruct Hrun as (st & w3 & Hloop & _).
  destruct (nth_error (neuronal_data_files a) i) as [x|] eqn:Ex;
    [|apply nth_error_None in Ex; lia].
  assert (Hkeep : forall j y (s0 : option Z * dict (dict (@DataLoader R))) w0 s0' w0',
             fst s0 = None ->
             static_session a bins
               (normalize_image_frac (image_frac a) (neuronal_data_files a))
               (snd (dataset_params (dataset a)))
               (fst (get_validation_split
                       (inject_Z (Z.of_nat (cache_len o)) * fst (dataset_params (dataset a)))
                       (train_frac a) (seed a)))
               (snd (get_validation_split
                       (inject_Z (Z.of_nat (cache_len o)) * fst (dataset_params (dataset a)))
                       (train_frac a) (seed a)))
               c j y s0 w0 = (Ok s0', w0') ->
             fst s0' = None).
  { intros j y s0 w0 s0' w0' Hs0 Hb.
    apply static_session_ok in Hb. destruct Hb as (sd & ls & Hp & _).
    unfold static_prepare in Hp. rewrite Hs0 in Hp. minv.
    match goal with
    | Hs : select_fraction _ _ _ _ _ _ = Ok _ |- _ =>
        unfold select_fraction in Hs; rewrite Hrand in Hs;
        destruct (nth_error _ j) as [f|]; [|discriminate Hs];
        destruct (lt_one f); simpl in Hs; [discriminate Hs|];
        inversion Hs; congruence
    end. }
  rewrite Hseed in Hloop.
  destruct (for_files_reaches _ (fun s0 => fst s0 = None) Hkeep
              _ _ (None, empty_dataloaders) _ _ _ eq_refl Hloop i x Ex)
    as (s1 & w4 & s2 & w5 & Hs1 & Hb).
  simpl in Hb.
  apply static_session_ok in Hb. destruct Hb as (sd & ls & Hp & _).
  unfold static_prepare in Hp. rewrite Hs1 in Hp. minv.
  match goal with
  | Hs : select_fraction _ _ _ _ _ _ = Ok _ |- _ =>
      unfold select_fraction in Hs; rewrite Hq, Hlt, Hrand in Hs;
      simpl in Hs; discriminate Hs
  end.
Qed.

End Files.
End LoadersFiles.

(* ------------------------------------------------------------------ *)
(** ** The closed-loop loader                                          *)
(* ------------------------------------------------------------------ *)

Module ClosedLoop.
Import Loaders PyFacts LoadersFacts LoadersWorld LoadersFiles.

Section Steps.
Context {R : Type} `{D : @Deps R}.
Implicit Types w : @World R.
Implicit Types d : dict (dict (@DataLoader R)).

Lemma new_cache_ok c w n w' :
  new_cache c w = (Ok n, w') ->
  n = length (caches w) /\ caches w' = (caches w ++ [c])%list.
Proof. unfold new_cache. intros H. inversion H. subst. simpl. auto. Qed.

Lemma zscore_ok c w x w' :
  zscore_images c w = (Ok x, w') -> length (caches w') = length (caches w).
Proof.
  unfold zscore_images, bindM, deref.
  destruct (nth_error (caches w) c) as [o|]; [|discriminate].
  destruct (zscore_stats o) as [mean std]. intros H. inversion H. subst. simpl.
  unfold set_nth.
  rewrite <- (firstn_skipn c (caches w)) at 3.
  rewrite !length_app. f_equal.
  destruct (skipn c (caches w)); reflexivity.
Qed.

(** *** Storing loaders *)

Lemma set_loader_ok tier key (l : @DataLoader R) d d' :
  set_loader tier key l d = Ok d' ->
  exists inner,
    dict_get tier d = Some inner /\
    dict_get tier d' = Some (dict_set key l inner) /\
    dict_keys d' = dict_keys d /\
    forall t, t <> tier -> dict_get t d' = dict_get t d.
Proof.
  unfold set_loader, dict_item. destruct (dict_get tier d) as [inner|] eqn:E;
    simpl; intros H; inversion H. subst.
  exists inner. split; [reflexivity|]. split; [apply dict_get_set_eq|]. split.
  - apply dict_keys_set_in. apply dict_get_in_keys. eauto.
  - intros t Ht. apply dict_get_set_neq. congruence.
Qed.

(** what [store_all] leaves under a tier: the old inner dictionary, with
    the loader of the tier set when the tier is one of the pairs *)
Lemma store_all_ok key (pairs : list (string * @DataLoader R)) d d' :
  NoDup (map fst pairs) ->
  store_all key pairs d = Ok d' ->
  dict_keys d' = dict_keys d /\
  (forall tier l, In (tier, l) pairs ->
     exists inner, dict_get tier d = Some inner /\
                   dict_get tier d' = Some (dict_set key l inner)) /\
  (forall tier, ~ In tier (map fst pairs) -> dict_get tier d' = dict_get tier d).
Proof.
  revert d. induction pairs as [|[t l] pairs IH]; intros d Hnd H; simpl in H.
  - inversion H. subst. split; [reflexivity|]. split; [intros ? ? []|reflexivity].
  - apply bind_ok in H. destruct H as (d1 & H1 & H).
    apply set_loader_ok in H1. destruct H1 as (inner & Hget & Hget1 & Hkeys & Hother).
    inversion Hnd as [|? ? Hnin Hnd']. subst.
    destruct (IH d1 Hnd' H) as (Hk & Hin & Hout). split; [congruence|]. split.
    + intros tier l0 [E | Hl].
      * inversion E. subst. exists inner. split; [assumption|].
        rewrite Hout by assumption. assumption.
      * destruct (Hin _ _ Hl) as (inner0 & Hg & Hg').
        exists inner0. split; [|assumption].
        rewrite <- Hg. symmetry. apply Hother.
        intros ->. apply Hnin. apply (in_map fst) in Hl. exact Hl.
    + intros tier Hnin0. simpl in Hnin0.
      rewrite Hout by tauto. apply Hother. intros ->. tauto.
Qed.

Lemma store_all_stored key (pairs : list (string * @DataLoader R)) d d' tier l :
  NoDup (map fst pairs) ->
  store_all key pairs d = Ok d' ->
  In (tier, l) pairs -> stored_under tier key l d'.
Proof.
  intros Hnd H Hin. destruct (store_all_ok _ _ _ _ Hnd H) as (_ & Hall & _).
  destruct (Hall _ _ Hin) as (inner & _ & Hg).
  exists (dict_set key l inner). split; [assumption | apply dict_get_set_eq].
Qed.

Lemma store_all_tiers key (pairs : list (string * @DataLoader R)) d d' tiers keys :
  NoDup (map fst pairs) ->
  (forall t, In t tiers -> In t (map fst pairs)) ->
  store_all key pairs d = Ok d' ->
  tiers_by_session tiers keys d ->
  tiers_by_session tiers (keys ++ [key]) d'.
Proof.
  intros Hnd Hfst H [Hk Hall].
  destruct (store_all_ok _ _ _ _ Hnd H) as (Hkeys & Hin & _).
  split; [congruence|].
  intros tier inner' Hget.
  assert (Ht : In tier (map fst pairs)).
  { apply Hfst. rewrite <- Hk, <- Hkeys. apply dict_get_in_keys. eauto. }
  apply in_map_iff in Ht. destruct Ht as ([t l] & Et & Hl). simpl in Et. subst t.
  destruct (Hin _ _ Hl) as (inner & Hg & Hg').
  rewrite Hg' in Hget. inversion Hget. subst.
  apply one_per_session_step. eauto.
Qed.

Lemma store_all_loaders (P : @DataLoader R -> Prop) key
    (pairs : list (string * @DataLoader R)) d d' :
  NoDup (map fst pairs) ->
  store_all key pairs d = Ok d' ->
  all_loaders P d ->
  (forall tier l, In (tier, l) pairs -> P l) ->
  all_loaders P d'.
Proof.
  intros Hnd H Hold Hnew tier inner' k l Hget Hl.
  destruct (store_all_ok _ _ _ _ Hnd H) as (_ & Hin & Hout).
  destruct (in_dec string_dec tier (map fst pairs)) as [Ht | Ht].
  - apply in_map_iff in Ht. destruct Ht as ([t l0] & Et & Hl0). simpl in Et. subst t.
    destruct (Hin _ _ Hl0) as (inner & Hg & Hg').
    rewrite Hg' in Hget. inversion Hget. subst.
    destruct (string_dec key k) as [-> | Hne].
    + rewrite dict_get_set_eq in Hl. inversion Hl. subst. eauto.
    + rewrite dict_get_set_neq in Hl by assumption. eapply Hold; eauto.
  - rewrite (Hout _ Ht) in Hget. eapply Hold; eauto.
Qed.

Lemma closed_loaders_tiers a (cs : @closed_session R) tids tresp vids vresp original tc tec t :
  In t (closed_tiers a) ->
  In t (map fst (closed_loaders a cs tids tresp vids vresp original tc tec)).
Proof.
  unfold closed_loaders, closed_tiers.
  destruct (c_include_mei_training a || c_include_control_training a); simpl; tauto.
Qed.

Lemma closed_loaders_nodup a (cs : @closed_session R) tids tresp vids vresp original tc tec :
  NoDup (map fst (closed_loaders a cs tids tresp vids vresp original tc tec)).
Proof.
  unfold closed_loaders.
  destruct (c_include_mei_training a || c_include_control_training a); simpl;
    repeat (constructor; [simpl; intuition discriminate|]); constructor.
Qed.

Lemma closed_dataloaders_tiers a :
  tiers_by_session (closed_tiers a) [] (@closed_dataloaders R a).
Proof.
  unfold closed_dataloaders, closed_tiers.
  destruct (c_include_mei_training a || c_include_control_training a); simpl;
    (split; [reflexivity|]);
    intros tier inner H; simpl in H;
    repeat match type of H with
           | (if ?b then _ else _) = _ => destruct b
           end; inversion H; apply one_per_session_nil.
Qed.

(** *** One session of the closed-loop loader *)

Lemma closed_prepare_ok a bins fracs offset i path w (cs : @closed_session R) w' :
  closed_prepare a bins fracs offset i path w = (Ok cs, w') ->
  w' = w /\ file_session_key w path = Some (sd_key (cs_data cs)).
Proof.
  unfold closed_prepare. intros H.
  apply bindM_ok in H. destruct H as (raw & w1 & Hraw & H).
  apply load_raw_ok in Hraw. destruct Hraw as [Hf ->].
  minv. split; [reflexivity|]. simpl. unfold file_session_key. rewrite Hf.
  match goal with Hk : raw_session raw = Ok _ |- _ => now rewrite Hk end.
Qed.

Lemma closed_session_step_ok a bins fracs locs crop cp offset tr va mean std
    i path st w st' w' :
  closed_session_step a bins fracs locs crop cp offset tr va mean std i path st w
    = (Ok st', w') ->
  exists (cs : @closed_session R) ids1 resp1 ids resp tids tresp vids vresp m1 m2
         original location test_crop train_cache test_cache,
    closed_prepare a bins fracs offset i path w = (Ok cs, w) /\
    extend_training (c_include_control_training a)
      (cs_control_cropped_ids cs) (cs_control_uncropped_ids cs)
      (cs_control_cropped cs) (cs_control_uncropped cs)
      (sd_training_ids (cs_data cs)) (sd_responses_train (cs_data cs))
      = Ok (ids1, resp1) /\
    extend_training (c_include_mei_training a)
      (cs_mei_cropped_ids cs) (cs_mei_uncropped_ids cs)
      (cs_mei_cropped cs) (cs_mei_uncropped cs) ids1 resp1 = Ok (ids, resp) /\
    split_ids ids resp tr va = Ok (tids, tresp, vids, vresp, m1, m2) /\
    (if c_include_mei_training a || c_include_control_training a
     then exists t1 t2 v_ids v_resp n1 n2,
            split_ids (sd_training_ids (cs_data cs)) (sd_responses_train (cs_data cs))
              tr va = Ok (t1, t2, v_ids, v_resp, n1, n2) /\
            original = Some (v_ids, v_resp)
     else original = None) /\
    nth_error locs i = Some location /\
    test_crop_of crop (get_crop_from_stimulus_location location crop (457 # 100))
      = Ok test_crop /\
    train_cache = length (caches w) /\
    st_train_caches st'
      = dict_set (sd_key (cs_data cs)) train_cache (st_train_caches st) /\
    match mean with
    | PyNone =>
        length (caches w') = S (length (caches w)) /\
        st_test_caches st' = st_test_caches st /\
        dict_get (sd_key (cs_data cs)) (st_test_caches st) = Some test_cache
    | _ =>
        caches w'
          = (caches w ++
             session_caches a cp
               (get_crop_from_stimulus_location location crop (457 # 100))
               test_crop mean std)%list /\
        test_cache = S (length (caches w)) /\
        st_test_caches st'
          = dict_set (sd_key (cs_data cs)) test_cache (st_test_caches st)
    end /\
    store_all (sd_key (cs_data cs))
      (closed_loaders a cs tids tresp vids vresp original train_cache test_cache)
      (st_dataloaders st) = Ok (st_dataloaders st').
Proof.
  intros H. unfold closed_session_step in H.
  apply bindM_ok in H. destruct H as (cs & w1 & Hp & H).
  destruct (closed_prepare_ok _ _ _ _ _ _ _ _ _ Hp) as [-> _].
  minv.
  match goal with
  | Hl : match nth_error locs i with _ => _ end = Ok ?x |- _ =>
      destruct (nth_error locs i) as [location|] eqn:Eloc; [|discriminate Hl];
      inversion Hl; subst x; clear Hl
  end.
  match goal with
  | Ho : (if ?b then _ else _) w = (Ok ?o, ?w2) |- _ =>
      assert (Horig : w2 = w /\
                (if b
                 then exists t1 t2 v_ids v_resp n1 n2,
                        split_ids (sd_training_ids (cs_data cs))
                          (sd_responses_train (cs_data cs)) tr va
                        = Ok (t1, t2, v_ids, v_resp, n1, n2) /\
                        o = Some (v_ids, v_resp)
                 else o = None));
      [destruct b; minv; [split; [reflexivity|]; do 6 eexists; split;
                          [eassumption|reflexivity]
                         |split; reflexivity]
      |clear Ho; destruct Horig as [-> Horig]]
  end.
  match goal with
  | Hc : match mean with _ => _ end w = (Ok (?tcs, ?tecs), ?w3),
    Ht : dict_item _ ?tcs = Ok ?tc, Hte : dict_item _ ?tecs = Ok ?tec,
    Hcrop : test_crop_of _ _ = Ok ?tcrop |- _ =>
      assert (Hcaches :
        tc = length (caches w) /\
        tcs = dict_set (sd_key (cs_data cs)) tc (st_train_caches st) /\
        match mean with
        | PyNone =>
            length (caches w3) = S (length (caches w)) /\
            tecs = st_test_caches st /\
            dict_get (sd_key (cs_data cs)) (st_test_caches st) = Some tec
        | _ =>
            caches w3
              = (caches w ++
                 session_caches a cp
                   (get_crop_from_stimulus_location location crop (457 # 100))
                   tcrop mean std)%list /\
            tec = S (length (caches w)) /\
            tecs = dict_set (sd_key (cs_data cs)) tec (st_test_caches st)
        end);
      [|clear Hc]
  end.
  { unfold dict_item in *.
    destruct mean; minv;
      repeat match goal with
             | Hn : new_cache _ _ = (Ok _, _) |- _ =>
                 apply new_cache_ok in Hn; destruct Hn as [-> Hn]
             | Hz : zscore_images _ _ = (Ok _, _) |- _ =>
                 apply zscore_ok in Hz
             end;
      repeat match goal with
             | Hg : match dict_get ?k (dict_set ?k ?v ?d0) with _ => _ end = Ok _ |- _ =>
                 rewrite dict_get_set_eq in Hg; inversion Hg; subst; clear Hg
             end.
    - split; [reflexivity|]. split; [reflexivity|]. split; [|split; [reflexivity|]].
      + match goal with
        | Hz : length (caches _) = length (caches ?w2), Hn : caches ?w2 = _ |- _ =>
            rewrite Hz, Hn, length_app; simpl; lia
        end.
      + match goal with
        | Hg : match dict_get ?k ?d0 with _ => _ end = Ok ?v |- _ =>
            destruct (dict_get k d0); inversion Hg; reflexivity
        end.
    - split; [reflexivity|]. split; [reflexivity|]. split; [|split; [|reflexivity]];
      match goal with
      | Hn2 : caches _ = (caches ?w2 ++ _)%list, Hn : caches ?w2 = _ |- _ =>
          rewrite ?Hn2, Hn, <- ?app_assoc, ?length_app; simpl; try reflexivity; try lia
      end.
    - split; [reflexivity|]. split; [reflexivity|]. split; [|split; [|reflexivity]];
      match goal with
      | Hn2 : caches _ = (caches ?w2 ++ _)%list, Hn : caches ?w2 = _ |- _ =>
          rewrite ?Hn2, Hn, <- ?app_assoc, ?length_app; simpl; try reflexivity; try lia
      end.
    - split; [reflexivity|]. split; [reflexivity|]. split; [|split; [|reflexivity]];
      match goal with
      | Hn2 : caches _ = (caches ?w2 ++ _)%list, Hn : caches ?w2 = _ |- _ =>
          rewrite ?Hn2, Hn, <- ?app_assoc, ?length_app; simpl; try reflexivity; try lia
      end.
    - split; [reflexivity|]. split; [reflexivity|]. split; [|split; [|reflexivity]];
      match goal with
      | Hn2 : caches _ = (caches ?w2 ++ _)%list, Hn : caches ?w2 = _ |- _ =>
          rewrite ?Hn2, Hn, <- ?app_assoc, ?length_app; simpl; try reflexivity; try lia
      end.
    - split; [reflexivity|]. split; [reflexivity|]. split; [|split; [|reflexivity]];
      match goal with
      | Hn2 : caches _ = (caches ?w2 ++ _)%list, Hn : caches ?w2 = _ |- _ =>
          rewrite ?Hn2, Hn, <- ?app_assoc, ?length_app; simpl; try reflexivity; try lia
      end. }
  destruct Hcaches as (-> & -> & Hm).
  assert (Hstore :
    store_all (sd_key (cs_data cs))
      (closed_loaders a cs l4 n2 l3 n1 x (length (caches w)) x5)
      (st_dataloaders st) = Ok x22 /\ x23 = x6).
  { unfold closed_loaders.
    destruct (c_include_mei_training a || c_include_control_training a);
      minv; (split; [|reflexivity]); cbn [store_all app];
      repeat match goal with
             | Hs : set_loader _ _ _ _ = Ok _ |- _ =>
                 rewrite Hs; clear Hs; cbn [Py.bind]
             end; reflexivity. }
  destruct Hstore as [Hstore ->].
  do 16 eexists.
  split; [exact Hp|]. split; [eassumption|]. split; [eassumption|].
  split; [eassumption|]. split; [exact Horig|]. split; [reflexivity|].
  split; [eassumption|]. split; [reflexivity|]. split; [reflexivity|].
  split; [exact Hm|]. exact Hstore.
Qed.

Lemma extend_training_ids include ids_c ids_u (c u : ndarray R) ids resp ids' resp' :
  extend_training include ids_c ids_u c u ids resp = Ok (ids', resp') ->
  ids' = extended_ids include ids_c ids_u ids /\
  (include = false -> resp' = resp).
Proof.
  unfold extend_training, extended_ids. destruct include.
  - intros H. repeat (apply bind_ok in H; destruct H as (? & _ & H)).
    inversion H. split; [reflexivity | discriminate].
  - intros H. inversion H. auto.
Qed.

Lemma closed_loaders_cache a (cs : @closed_session R) tids tresp vids vresp original
    tc tec tier l :
  In (tier, l) (closed_loaders a cs tids tresp vids vresp original tc tec) ->
  dl_image_cache l = if training_tier tier then tc else tec.
Proof.
  unfold closed_loaders. intros H. apply in_app_or in H. destruct H as [H | H].
  - simpl in H.
    repeat (destruct H as [H | H];
            [inversion H; subst; try reflexivity;
             destruct original as [[? ?]|]; reflexivity|]).
    destruct H.
  - destruct (c_include_mei_training a || c_include_control_training a);
      [|destruct H].
    destruct H as [H | []]. inversion H. reflexivity.
Qed.

Lemma stored_under_unique key (pairs : list (string * @DataLoader R)) d d' tier l l0 :
  NoDup (map fst pairs) ->
  store_all key pairs d = Ok d' ->
  In (tier, l0) pairs -> stored_under tier key l d' -> l = l0.
Proof.
  intros Hnd H Hin (inner' & Hg & Hl).
  destruct (store_all_ok _ _ _ _ Hnd H) as (_ & Hall & _).
  destruct (Hall _ _ Hin) as (inner & _ & Hg').
  rewrite Hg' in Hg. inversion Hg. subst.
  rewrite dict_get_set_eq in Hl. now inversion Hl.
Qed.

(** A session of the closed-loop loader splits the extended training set
    for the train loader, and the training set of the file for the
    validation loader: the test images that [include_mei_training] or
    [include_control_training] appends can reach the training loader and
    the loader of the tier ['validation_extended'], never the validation
    loader. *)
Theorem closed_loop_validation_is_split_from_the_file :
  forall a bins fracs locs crop cp offset tr va mean std i path st w st' w',
    closed_session_step a bins fracs locs crop cp offset tr va mean std i path st w
      = (Ok st', w') ->
    exists (cs : @closed_session R) ids resp lt lv,
      closed_prepare a bins fracs offset i path w = (Ok cs, w) /\
      ids = extended_ids (c_include_mei_training a)
              (cs_mei_cropped_ids cs) (cs_mei_uncropped_ids cs)
              (extended_ids (c_include_control_training a)
                 (cs_control_cropped_ids cs) (cs_control_uncropped_ids cs)
                 (sd_training_ids (cs_data cs))) /\
      (c_include_mei_training a || c_include_control_training a = false ->
       resp = sd_responses_train (cs_data cs)) /\
      stored_under "train" (sd_key (cs_data cs)) lt (st_dataloaders st') /\
      selects tr ids resp (dl_image_ids lt) (dl_responses lt) /\
      stored_under "validation" (sd_key (cs_data cs)) lv (st_dataloaders st') /\
      selects va (sd_training_ids (cs_data cs)) (sd_responses_train (cs_data cs))
        (dl_image_ids lv) (dl_responses lv) /\
      (forall x, In x (dl_image_ids lv) -> In x (sd_training_ids (cs_data cs))) /\
      (c_include_mei_training a || c_include_control_training a = true ->
       exists lx,
         stored_under "validation_extended" (sd_key (cs_data cs)) lx
           (st_dataloaders st') /\
         selects va ids resp (dl_image_ids lx) (dl_responses lx)).
Proof.
  intros a bins fracs locs crop cp offset tr va mean std i path st w st' w' H.
  apply closed_session_step_ok in H.
  destruct H as (cs & ids1 & resp1 & ids & resp & tids & tresp & vids & vresp & m1 & m2
                 & original & location & test_crop & tc & tec
                 & Hp & He1 & He2 & Hsplit & Horig & _ & _ & _ & _ & _ & Hstore).
  apply extend_training_ids in He1. destruct He1 as [-> Hr1].
  apply extend_training_ids in He2. destruct He2 as [-> Hr2].
  apply LoadersSpec.split_ids_ok in Hsplit. destruct Hsplit as [Ht Hv].
  pose proof (closed_loaders_nodup a cs tids tresp vids vresp original tc tec) as Hnd.
  assert (Hval : exists lv,
            In ("validation", lv)
              (closed_loaders a cs tids tresp vids vresp original tc tec) /\
            selects va (sd_training_ids (cs_data cs)) (sd_responses_train (cs_data cs))
              (dl_image_ids lv) (dl_responses lv)).
  { unfold closed_loaders.
    destruct (c_include_mei_training a || c_include_control_training a) eqn:E.
    - destruct Horig as (t1 & t2 & v_ids & v_resp & n1 & n2 & Hs & ->).
      apply LoadersSpec.split_ids_ok in Hs. destruct Hs as [_ Hs].
      eexists. split; [simpl; right; left; reflexivity|]. exact Hs.
    - subst original. apply orb_false_elim in E. destruct E as [Em Ec].
      rewrite Em, Ec in *. simpl in Hv. rewrite Hr2, Hr1 in Hv by reflexivity.
      eexists. split; [simpl; right; left; reflexivity|]. exact Hv. }
  destruct Hval as (lv & Hinv & Hselv).
  exists cs. eexists. exists resp,
    (mkLoader tids tresp [] (Some (c_batch_size a)) Default tc Default), lv.
  split; [exact Hp|]. split; [reflexivity|]. split.
  { intros E. apply orb_false_elim in E. destruct E as [Em Ec].
    rewrite Hr2, Hr1 by assumption. reflexivity. }
  split.
  { eapply store_all_stored; [exact Hnd | exact Hstore |].
    unfold closed_loaders. simpl. left. reflexivity. }
  split; [exact Ht|]. split.
  { eapply store_all_stored; [exact Hnd | exact Hstore | exact Hinv]. }
  split; [exact Hselv|]. split.
  { intros x Hx. apply (LoadersSpec.selects_members _ _ _ _ _ x Hselv) in Hx. tauto. }
  intros E. eexists. split.
  - eapply store_all_stored; [exact Hnd | exact Hstore |].
    unfold closed_loaders. rewrite E. apply in_or_app. right. left. reflexivity.
  - exact Hv.
Qed.

(** A session of the closed-loop loader constructs two image caches of its
    own, one with the crop around the stimulus location of the session and
    one with the test crop, both normalized with the image statistics of
    the call.  The loaders of the tiers ['train'], ['validation'] and
    ['validation_extended'] read the first, the five test loaders the
    second. *)
Theorem closed_loop_session_constructs_two_caches :
  forall a bins fracs locs crop cp offset tr va mean std i path st w st' w',
    mean <> PyNone ->
    closed_session_step a bins fracs locs crop cp offset tr va mean std i path st w
      = (Ok st', w') ->
    exists (cs : @closed_session R) location test_crop,
      closed_prepare a bins fracs offset i path w = (Ok cs, w) /\
      nth_error locs i = Some location /\
      test_crop_of crop (get_crop_from_stimulus_location location crop (457 # 100))
        = Ok test_crop /\
      caches w'
        = (caches w ++
           session_caches a cp
             (get_crop_from_stimulus_location location crop (457 # 100))
             test_crop mean std)%list /\
      forall tier l,
        In tier (closed_tiers a) ->
        stored_under tier (sd_key (cs_data cs)) l (st_dataloaders st') ->
        dl_image_cache l
        = if training_tier tier then length (caches w) else S (length (caches w)).
Proof.
  intros a bins fracs locs crop cp offset tr va mean std i path st w st' w' Hmean H.
  apply closed_session_step_ok in H.
  destruct H as (cs & ids1 & resp1 & ids & resp & tids & tresp & vids & vresp & m1 & m2
                 & original & location & test_crop & tc & tec
                 & Hp & _ & _ & _ & _ & Hloc & Hcrop & -> & _ & Hm & Hstore).
  exists cs, location, test_crop.
  split; [exact Hp|]. split; [exact Hloc|]. split; [exact Hcrop|].
  assert (Hm' : caches w'
                = (caches w ++
                   session_caches a cp
                     (get_crop_from_stimulus_location location crop (457 # 100))
                     test_crop mean std)%list /\
                tec = S (length (caches w))).
  { destruct mean; [congruence| | | | |]; destruct Hm as (? & ? & _); auto. }
  destruct Hm' as [Hc ->]. split; [exact Hc|].
  intros tier l Htier Hst.
  pose proof (closed_loaders_nodup a cs tids tresp vids vresp original
                (length (caches w)) (S (length (caches w)))) as Hnd.
  apply (closed_loaders_tiers a cs tids tresp vids vresp original
           (length (caches w)) (S (length (caches w)))) in Htier.
  apply in_map_iff in Htier. destruct Htier as ([t l0] & Et & Hl0). simpl in Et. subst t.
  rewrite (stored_under_unique _ _ _ _ _ _ _ Hnd Hstore Hl0 Hst).
  eapply closed_loaders_cache. exact Hl0.
Qed.

(** *** The whole call *)

Lemma all_loaders_closed_empty (P : @DataLoader R -> Prop) a :
  all_loaders P (closed_dataloaders a).
Proof.
  intros tier inner k l Hget Hl.
  destruct (closed_dataloaders_tiers a) as [_ Hall].
  destruct (Hall _ _ Hget) as (_ & Hiff & _).
  assert (Hin : In k (dict_keys inner)) by (apply dict_get_in_keys; eauto).
  apply Hiff in Hin. destruct Hin.
Qed.

Lemma all_loaders_weaken (P Q : @DataLoader R -> Prop) d :
  (forall l, P l -> Q l) -> all_loaders P d -> all_loaders Q d.
Proof. intros HPQ H tier inner k l Hg Hl. eauto. Qed.

(** the references of a dictionary of caches lie in [(n0, n)] *)
Definition references_within (n0 n : nat) (cs : dict nat) : Prop :=
  forall k c, dict_get k cs = Some c -> n0 < c < n.

Lemma references_set n0 n k c cs :
  n0 < c < n -> references_within n0 n cs -> references_within n0 n (dict_set k c cs).
Proof.
  intros Hc H k' c' Hg. destruct (string_dec k k') as [-> | Hne].
  - rewrite dict_get_set_eq in Hg. inversion Hg. now subst.
  - rewrite dict_get_set_neq in Hg by assumption. eauto.
Qed.

Lemma references_grow n0 n n' cs :
  n <= n' -> references_within n0 n cs -> references_within n0 n' cs.
Proof. intros Hn H k c Hg. specialize (H _ _ Hg). lia. Qed.

(** what holds after the sessions of the files [done], for the world [w0]
    in which the first cache of the call, with the reference [n0], was
    constructed *)
Definition closed_sessions_done (a : closed_loop_args) (w0 : @World R) (n0 : nat)
    (done : list string) (st : @closed_state R) (w : @World R) : Prop :=
  files w = files w0 /\
  n0 < length (caches w) /\
  (exists keys,
     map (file_session_key w0) done = map Some keys /\
     tiers_by_session (closed_tiers a) keys (st_dataloaders st)) /\
  all_loaders (fun l => n0 < dl_image_cache l < length (caches w)) (st_dataloaders st) /\
  references_within n0 (length (caches w)) (st_train_caches st) /\
  references_within n0 (length (caches w)) (st_test_caches st).

Lemma closed_sessions_step a bins fracs locs crop cp offset tr va mean std w0 n0
    i path st w st' w' done :
  closed_sessions_done a w0 n0 done st w ->
  closed_session_step a bins fracs locs crop cp offset tr va mean std i path st w
    = (Ok st', w') ->
  closed_sessions_done a w0 n0 (done ++ [path]) st' w'.
Proof.
  intros (Hf & Hn0 & (keys & Hkeys & Htiers) & Hall & Htr & Hte) H.
  pose proof (closed_session_fs _ _ _ _ _ _ _ _ _ _ _ _ _ _ _ _ _ H) as [Hfs _].
  apply closed_session_step_ok in H.
  destruct H as (cs & ids1 & resp1 & ids & resp & tids & tresp & vids & vresp & m1 & m2
                 & original & location & test_crop & tc & tec
                 & Hp & _ & _ & _ & _ & _ & _ & -> & Htc & Hm & Hstore).
  apply closed_prepare_ok in Hp. destruct Hp as [_ Hkey].
  pose proof (closed_loaders_nodup a cs tids tresp vids vresp original
                (length (caches w)) tec) as Hnd.
  assert (Hlen : S (length (caches w)) <= length (caches w') /\
                 n0 < tec < length (caches w') /\
                 references_within n0 (length (caches w')) (st_test_caches st')).
  { destruct mean;
      [destruct Hm as (Hl & Ht & Hg); rewrite Hl, Ht;
       split; [lia|]; split;
       [specialize (Hte _ _ Hg); lia
       |eapply references_grow; [|exact Hte]; lia]
      | | | | |];
      destruct Hm as (Hc & -> & Ht); rewrite Hc, Ht, length_app; simpl;
      (split; [lia|]); (split; [lia|]);
      (apply references_set; [lia|]);
      (eapply references_grow; [|exact Hte]; lia). }
  destruct Hlen as (Hlen & Htec & Hte').
  split; [congruence|]. split; [lia|]. split; [|split; [|split]].
  - exists (keys ++ [sd_key (cs_data cs)])%list. split.
    + rewrite !map_app, Hkeys. simpl. f_equal.
      rewrite <- Hkey. f_equal. apply file_session_key_same. symmetry. exact Hf.
    + eapply store_all_tiers; [exact Hnd | | exact Hstore | exact Htiers].
      intros t. apply closed_loaders_tiers.
  - eapply store_all_loaders; [exact Hnd | exact Hstore | |].
    + eapply all_loaders_weaken; [|exact Hall]. intros l Hl. simpl in Hl. lia.
    + intros tier l Hl. rewrite (closed_loaders_cache _ _ _ _ _ _ _ _ _ _ _ Hl).
      destruct (training_tier tier); lia.
  - rewrite Htc. apply references_set; [lia|].
    eapply references_grow; [|exact Htr]. lia.
  - exact Hte'.
Qed.

(** Every call of [monkey_static_loader_closed_loop] with
    [return_data_info=False] that returns, returns a nested dictionary with
    exactly the seven tiers of lines 547-553, and ['validation_extended']
    after them when test images are included into the training.  Under
    each tier there is exactly one dataloader per session id of the
    neuronal data files.  No loader reads the image cache that the call
    constructs first: every loader reads a cache that a session
    constructed. *)
Theorem closed_loop_returns_tiers_by_session :
  forall (a : closed_loop_args) w r w',
    c_return_data_info a = false ->
    monkey_static_loader_closed_loop a w = (Ok r, w') ->
    exists d keys,
      r = Dataloaders d /\
      map (file_session_key w) (c_neuronal_data_files a) = map Some keys /\
      tiers_by_session (closed_tiers a) keys d /\
      all_loaders
        (fun l => length (caches w) < dl_image_cache l < length (caches w')) d.
Proof.
  intros a w r w' Hri H. unfold monkey_static_loader_closed_loop in H.
  destruct (c_include_mei_training a && c_include_control_training a);
    [discriminate H|].
  apply bindM_ok in H. destruct H as (bins & w0 & Hb & H).
  apply lift_ok in Hb. destruct Hb as [_ ->].
  eapply (with_cache_ok (normalize_crop (c_crop a))) in H;
    [| intros; reflexivity | apply cache_from_args_one; intros; reflexivity].
  destruct H as [(Hret & _) | (c & mean & std & w1 & Hc & Hf & _ & Hrun)];
    [congruence|].
  unfold closed_run in Hrun.
  apply bindM_ok in Hrun. destruct Hrun as (o & w2 & Ho & Hrun).
  apply deref_ok in Ho. destruct Ho as [-> _].
  apply bindM_ok in Hrun. destruct Hrun as (st & w3 & Hloop & Hfin).
  pose proof (finish_same_caches _ _ _ _ _ _ _ _ _ _ Hfin) as Hsame.
  apply finish_ok in Hfin. destruct Hfin as (info & ->). rewrite Hri.
  assert (Hdone : closed_sessions_done a w1 (length (caches w))
                    ([] ++ c_neuronal_data_files a) st w3).
  { eapply (for_files_ok_invariant _
              (fun done s wc => closed_sessions_done a w1 (length (caches w)) done s wc));
      [| |exact Hloop].
    - intros i x s wc s' wc' done Hinv Hb. eapply closed_sessions_step; eauto.
    - split; [reflexivity|]. split; [rewrite Hc, length_app; simpl; lia|].
      split; [exists []; split; [reflexivity | apply closed_dataloaders_tiers]|].
      split; [apply all_loaders_closed_empty|].
      split; intros k c0 Hg; discriminate Hg. }
  destruct Hdone as (_ & _ & (keys & Hkeys & Htiers) & Hall & _).
  exists (st_dataloaders st), keys. split; [reflexivity|]. split; [|split].
  - rewrite <- Hkeys. symmetry. now apply session_keys_same.
  - exact Htiers.
  - unfold same_caches in Hsame. rewrite Hsame. exact Hall.
Qed.

End Steps.
End ClosedLoop.

(* ------------------------------------------------------------------ *)
(** ** One session of the static and of the multi-unit loader          *)
(* ------------------------------------------------------------------ *)

Module SessionFacts.
Import Loaders PyFacts LoadersFacts LoadersWorld LoadersFiles ClosedLoop.

Section Sessions.
Context {R : Type} `{D : @Deps R}.
Implicit Types w : @World R.

Lemma raw_ids_ok (raw : dict (@raw_value R)) k offset l :
  raw_ids raw k offset = Ok l ->
  exists ids, dict_get k raw = Some (RawIds ids) /\
              l = map (fun x => (x - offset)%Z) ids.
Proof.
  unfold raw_ids. destruct (dict_get k raw) as [[s|v|ids|arr]|];
    intros H; inversion H. eauto.
Qed.

Lemma store_loaders_test key (lt lv lte : @DataLoader R) d d' :
  store_loaders key (lt, lv, lte) d = Ok d' -> stored_under "test" key lte d'.
Proof.
  unfold store_loaders. intros H.
  apply bind_ok in H. destruct H as (d1 & _ & H).
  apply bind_ok in H. destruct H as (d2 & _ & H).
  apply set_loader_ok in H. destruct H as (inner & _ & Hg & _).
  exists (dict_set key lte inner). split; [exact Hg | apply dict_get_set_eq].
Qed.

(** The test loader of a session holds every testing image id of the
    session file, shifted by the image id offset of the data set and in the
    order of the file; it is not split, its batch size is [None], and the
    image ids are its repeat condition. *)
Theorem test_loader_holds_every_test_image :
  (forall (a : static_args) bins fracs offset tr va cache i path st w st' w',
     static_session a bins fracs offset tr va cache i path st w = (Ok st', w') ->
     exists raw ids key l,
       files w path = Some (PickledRaw raw) /\
       dict_get "testing_image_ids" raw = Some (RawIds ids) /\
       raw_session raw = Ok key /\
       stored_under "test" key l (snd st') /\
       dl_image_ids l = map (fun x => (x - offset)%Z) ids /\
       dl_repeat_condition l = Given (dl_image_ids l) /\
       dl_batch_size l = None /\
       dl_shuffle l = Given (Some false) /\
       dl_image_cache l = cache) /\
  (forall (a : mua_args) bins offset tr va cache i path dls w dls' w',
     mua_session a bins offset tr va cache i path dls w = (Ok dls', w') ->
     exists raw ids key l,
       files w path = Some (PickledRaw raw) /\
       dict_get "testing_image_ids" raw = Some (RawIds ids) /\
       raw_session raw = Ok key /\
       stored_under "test" key l dls' /\
       dl_image_ids l = map (fun x => (x - offset)%Z) ids /\
       dl_repeat_condition l = Given (dl_image_ids l) /\
       dl_batch_size l = None /\
       dl_shuffle l = Given None /\
       dl_image_cache l = cache) /\
  (forall ds, snd (dataset_params ds) = if String.eqb ds plos then 1%Z else 0%Z).
Proof.
  split; [|split].
  - intros a bins fracs offset tr va cache i path st w st' w' H.
    apply static_session_ok in H. destruct H as (sd & [[lt lv] lte] & Hp & Hl & Hs).
    unfold static_prepare in Hp.
    apply bindM_ok in Hp. destruct Hp as (raw & w1 & Hraw & Hp).
    apply load_raw_ok in Hraw. destruct Hraw as [Hf ->].
    minv.
    match goal with
    | Hi : raw_ids raw "testing_image_ids" offset = Ok _ |- _ =>
        apply raw_ids_ok in Hi; destruct Hi as (ids & Hids & ->)
    end.
    unfold static_loaders in Hl. apply bind_ok in Hl.
    destruct Hl as ([[[[[a1 a2] a3] a4] a5] a6] & _ & Hl). simpl in Hl.
    inversion Hl. subst. clear Hl.
    apply store_loaders_test in Hs. simpl in Hs.
    exists raw, ids. do 2 eexists.
    split; [exact Hf|]. split; [exact Hids|]. split; [eassumption|].
    split; [exact Hs|]. simpl. repeat split.
  - intros a bins offset tr va cache i path dls w dls' w' H.
    apply mua_session_ok in H.
    destruct H as (sd & eye & [[lt lv] lte] & Hp & Hl & Hs).
    unfold mua_prepare in Hp.
    apply bindM_ok in Hp. destruct Hp as (raw & w1 & Hraw & Hp).
    apply load_raw_ok in Hraw. destruct Hraw as [Hf ->].
    minv.
    match goal with
    | Hi : raw_ids raw "testing_image_ids" offset = Ok _ |- _ =>
        apply raw_ids_ok in Hi; destruct Hi as (ids & Hids & ->)
    end.
    unfold mua_loaders in Hl.
    repeat (apply bind_ok in Hl; destruct Hl as (? & _ & Hl)).
    match type of Hl with (let '(_, _) := ?p in _) = _ => destruct p as [[? ?] ?] end.
    repeat (apply bind_ok in Hl; destruct Hl as (? & _ & Hl)).
    simpl in Hl. inversion Hl. subst. clear Hl.
    apply store_loaders_test in Hs. simpl in Hs.
    exists raw, ids. do 2 eexists.
    split; [exact Hf|]. split; [exact Hids|]. split; [eassumption|].
    split; [exact Hs|]. simpl. repeat split.
  - intros ds. unfold dataset_params. destruct (String.eqb ds plos); reflexivity.
Qed.

(** *** Responses without a neuron axis *)


(** *** The multi-unit file of a session *)








End Sessions.
End SessionFacts.

(* ------------------------------------------------------------------ *)
(** ** More properties of the readouts                                 *)
(* ------------------------------------------------------------------ *)

Module ReadoutsFacts.
Import Readouts PyFacts ReadoutsSpec ReadoutsMore.

Section Containers.
Context {R Core KW : Type} `{T : Torch R Core KW}.

(** *** The forward pass on a key that is not registered *)

(** [forward] with a [data_key] under which nothing is registered raises a
    [KeyError] for this key, and so does [forward] without a [data_key] on
    a container that does not hold exactly one module, for the key [None].
    [MultipleSharedMultiHeadAttention2d.forward] looks the key up only
    after it has built the key and the value: an input that cannot be
    embedded raises its own exception, whatever the [data_key]. *)
Theorem forward_raises_key_error :
  (forall (self : module_dict) (args : list (ndarray R)) (kwargs : KW) (k : string),
     dict_get k (modules self) = None ->
     MultiReadout_forward self args (Some k) kwargs = Raise (KeyError k) /\
     MultipleGaussian2d_forward self args (Some k) kwargs = Raise (KeyError k) /\
     MultipleSelfAttention2d_forward self args (Some k) kwargs = Raise (KeyError k) /\
     MultipleMultiHeadAttention2d_forward self args (Some k) kwargs
       = Raise (KeyError k)) /\
  (forall (self : module_dict) (args : list (ndarray R)) (kwargs : KW),
     length (modules self) <> 1 ->
     MultiReadout_forward self args None kwargs = Raise (KeyError "None") /\
     MultipleGaussian2d_forward self args None kwargs = Raise (KeyError "None") /\
     MultipleSelfAttention2d_forward self args None kwargs = Raise (KeyError "None") /\
     MultipleMultiHeadAttention2d_forward self args None kwargs
       = Raise (KeyError "None")) /\
  (forall (kwargs0 kwargs : KW) (self : shared_attention) (x key value : ndarray R)
          (k : string),
     key_value self x kwargs0 = Ok (key, value) ->
     dict_get k (sa_modules self) = None ->
     MultipleSharedMultiHeadAttention2d_forward kwargs0 self x (Some k) kwargs
       = Raise (KeyError k)) /\
  (forall (kwargs0 kwargs : KW) (self : shared_attention) (x : ndarray R)
          (data_key : option string) (e : exn),
     key_value self x kwargs0 = Raise e ->
     MultipleSharedMultiHeadAttention2d_forward kwargs0 self x data_key kwargs
       = Raise e).
Proof.
  split; [|split; [|split]].
  - intros self args kwargs k Hget.
    unfold MultiReadout_forward, MultipleGaussian2d_forward,
      MultipleSelfAttention2d_forward, MultipleMultiHeadAttention2d_forward.
    simpl. unfold dict_item. rewrite Hget. simpl. auto.
  - intros self args kwargs Hlen.
    unfold MultiReadout_forward, MultipleGaussian2d_forward,
      MultipleSelfAttention2d_forward, MultipleMultiHeadAttention2d_forward.
    apply Nat.eqb_neq in Hlen. rewrite Hlen. simpl. auto.
  - intros kwargs0 kwargs self x key value k Hkv Hget.
    unfold MultipleSharedMultiHeadAttention2d_forward.
    rewrite Hkv. simpl. unfold dict_item. rewrite Hget. reflexivity.
  - intros kwargs0 kwargs self x data_key e Hkv.
    unfold MultipleSharedMultiHeadAttention2d_forward. rewrite Hkv. reflexivity.
Qed.

(** *** What the loop over the sessions keeps *)

(** a loop body that sets the key of its turn and nothing else *)
Definition setting {St} (proj : St -> dict module)
    (body : nat -> string -> St -> res St) : Prop :=
  forall i k s s', body i k s = Ok s' ->
    exists m, proj s' = dict_set k m (proj s).

Lemma setting_loop {St} (proj : St -> dict module) body keys i (s s' : St) :
  setting proj body ->
  for_enumerate body i keys s = Ok s' ->
  (forall name, In name (dict_keys (proj s)) -> In name (dict_keys (proj s'))) /\
  (forall k, In k keys -> In k (dict_keys (proj s'))) /\
  (forall name, ~ In name keys -> dict_get name (proj s') = dict_get name (proj s)).
Proof.
  intros Hbody Hloop.
  change keys with ([] ++ keys)%list.
  eapply (for_enumerate_invariant body
            (fun done st =>
               (forall name, In name (dict_keys (proj s)) -> In name (dict_keys (proj st))) /\
               (forall k, In k done -> In k (dict_keys (proj st))) /\
               (forall name, ~ In name done ->
                  dict_get name (proj st) = dict_get name (proj s))));
    [| |exact Hloop].
  - intros i0 k st st' done (H1 & H2 & H3) Hb.
    destruct (Hbody _ _ _ _ Hb) as (m & ->). split; [|split].
    + intros name Hn. apply dict_keys_set_iff. right. auto.
    + intros k' Hk'. apply dict_keys_set_iff. apply in_app_or in Hk'.
      destruct Hk' as [Hk' | [-> | []]]; [right; auto | left; reflexivity].
    + intros name Hn. rewrite dict_get_set_neq.
      * apply H3. intros Hd. apply Hn. apply in_or_app. now left.
      * intros ->. apply Hn. apply in_or_app. right. left. reflexivity.
  - split; [auto|]. split; [intros k []|]. reflexivity.
Qed.

Lemma two_keys {A} (l : list A) (a b : A) :
  In a l -> In b l -> a <> b -> 2 <= length l.
Proof.
  destruct l as [|x [|y l]]; simpl; intros Ha Hb Hne; try tauto; [|lia].
  destruct Ha as [-> | []], Hb as [-> | []]. congruence.
Qed.

(** *** The shared attention readout *)

Lemma shared_init_ok core isd nnd bias gf gq ge use_pos_enc learned_pos heads scale
    key_embedding value_embedding temperature dropout_pos layer_norm
    stack_pos_encoding n_pos_channels embed_out_dim self :
  MultipleSharedMultiHeadAttention2d_init core isd nnd bias gf gq ge use_pos_enc
    learned_pos heads scale key_embedding value_embedding temperature dropout_pos
    layer_norm stack_pos_encoding n_pos_channels embed_out_dim = Ok self ->
  exists k0 c w h mods,
    list_first (dict_keys isd) = Ok k0 /\
    session_in_shape core isd k0 = Ok [c; w; h] /\
    (forall name, In name (dict_keys
                             (shared_layers c w h use_pos_enc learned_pos dropout_pos
                                layer_norm stack_pos_encoding n_pos_channels
                                embed_out_dim key_embedding value_embedding)) ->
                  In name (dict_keys mods)) /\
    (forall k, In k (dict_keys nnd) -> In k (dict_keys mods)) /\
    (forall name, ~ In name (dict_keys nnd) ->
       dict_get name mods
       = dict_get name (shared_layers c w h use_pos_enc learned_pos dropout_pos
                          layer_norm stack_pos_encoding n_pos_channels
                          embed_out_dim key_embedding value_embedding)) /\
    self = mkSharedAttention mods (length nnd) heads key_embedding value_embedding
             use_pos_enc (negb layer_norm) gf gq ge.
Proof.
  unfold MultipleSharedMultiHeadAttention2d_init. intros H.
  destruct (xorb (truthy n_pos_channels) stack_pos_encoding); [discriminate|].
  apply bind_ok in H. destruct H as (k0 & Hk0 & H).
  apply bind_ok in H. destruct H as (in_shape & Hshape & H).
  apply bind_ok in H. destruct H as ([[c w] h] & Hcwh & H).
  destruct in_shape as [|c1 [|w1 [|h1 [|]]]]; try discriminate.
  inversion Hcwh. subst c1 w1 h1. clear Hcwh.
  apply bind_ok in H. destruct H as (mods & Hloop & H).
  inversion H. subst self. clear H.
  exists k0, c, w, h, mods.
  split; [exact Hk0|]. split; [exact Hshape|].
  apply (setting_loop (fun m => m)) in Hloop.
  - destruct Hloop as (H1 & H2 & H3). repeat split; assumption.
  - intros i k s s' Hb. inv_res.
    match goal with
    | Hreg : register _ _ _ _ = Ok _ |- _ => apply register_ok in Hreg
    end.
    eauto.
Qed.

Lemma shared_layers_get c w h pe lp dp ln st np eo ke ve :
  let c' := embedded_channels c np st in
  let mods := shared_layers c w h pe lp dp ln st np eo ke ve in
  dict_get "position_embedding" mods
    = (if pe
       then Some (PositionalEncoding2D
                    (if truthy np then match np with Some n => n | None => 0 end else c')
                    w h lp dp st)
       else None) /\
  dict_get "norm" mods = (if ln then Some (LayerNorm [c'; w * h]) else None) /\
  dict_get "to_kv" mods
    = (if ke && ve then Some (Linear c' (embedding_out c' eo * 2)) else None) /\
  dict_get "to_key" mods
    = (if ke && negb ve then Some (Linear c' (embedding_out c' eo)) else None).
Proof.
  unfold shared_layers. destruct pe, ln, ke, ve; simpl; auto.
Qed.

(** [MultipleSharedMultiHeadAttention2d] registers its shared layers as
    submodules next to the session readouts, so that [len(self)] counts
    them.  With a positional encoding (the default), a layer norm or a key
    embedding, a container is never of length one, and [forward] without a
    [data_key] raises the [KeyError] for [None] even when there is only one
    session. *)
Theorem shared_forward_needs_a_data_key :
  forall (kwargs0 kwargs : KW) core isd nnd bias gf gq ge use_pos_enc learned_pos
         heads scale key_embedding value_embedding temperature dropout_pos
         layer_norm stack_pos_encoding n_pos_channels embed_out_dim self
         (x key value : ndarray R),
    MultipleSharedMultiHeadAttention2d_init core isd nnd bias gf gq ge use_pos_enc
      learned_pos heads scale key_embedding value_embedding temperature dropout_pos
      layer_norm stack_pos_encoding n_pos_channels embed_out_dim = Ok self ->
    use_pos_enc || layer_norm || key_embedding = true ->
    (exists k, In k (dict_keys nnd) /\ ~ In k shared_layer_names) ->
    key_value self x kwargs0 = Ok (key, value) ->
    2 <= length (sa_modules self) /\
    MultipleSharedMultiHeadAttention2d_forward kwargs0 self x None kwargs
      = Raise (KeyError "None").
Proof.
  intros kwargs0 kwargs core isd nnd bias gf gq ge pe lp heads scale ke ve temp dp
         ln st np eo self x key value Hinit Hflags (k & Hk & Hnot) Hkv.
  apply shared_init_ok in Hinit.
  destruct Hinit as (k0 & c & w & h & mods & _ & _ & Hlayers & Hkeys & _ & ->).
  assert (Hlayer : exists name,
            In name shared_layer_names /\
            In name (dict_keys (shared_layers c w h pe lp dp ln st np eo ke ve))).
  { exists (if pe then "position_embedding" else if ln then "norm"
            else if ve then "to_kv" else "to_key").
    unfold shared_layers, shared_layer_names.
    destruct pe, ln, ke, ve; simpl in Hflags; try discriminate Hflags;
      simpl; tauto. }
  destruct Hlayer as (name & Hname & Hin).
  assert (Hlen : 2 <= length mods).
  { assert (H2 : 2 <= length (dict_keys mods)).
    { apply (two_keys _ name k);
        [apply Hlayers; exact Hin | apply Hkeys; exact Hk | intros ->; tauto]. }
    unfold dict_keys in H2. now rewrite length_map in H2. }
  simpl. split; [exact Hlen|].
  unfold MultipleSharedMultiHeadAttention2d_forward. rewrite Hkv. simpl.
  destruct (length mods =? 1) eqn:E; [apply Nat.eqb_eq in E; lia|]. reflexivity.
Qed.

(** The shared layers of [MultipleSharedMultiHeadAttention2d] are sized
    by the core output [(c, w, h)] of the first session of [in_shape_dict],
    with the channels of the positional encoding added to [c] when they are
    stacked, whatever the other sessions look like.  Every layer that
    [forward] and [embedding_l1] read is registered by [__init__]; it is
    the layer itself unless a session is named like it, and
    [embedding_l1] reads [to_kv] with both embeddings, [to_key] with the
    key embedding alone, and no layer without a key embedding. *)
Theorem shared_layers_are_sized_by_the_first_session :
  forall core isd nnd bias gf gq ge use_pos_enc learned_pos
         heads scale key_embedding value_embedding temperature dropout_pos
         layer_norm stack_pos_encoding n_pos_channels embed_out_dim self,
    MultipleSharedMultiHeadAttention2d_init core isd nnd bias gf gq ge use_pos_enc
      learned_pos heads scale key_embedding value_embedding temperature dropout_pos
      layer_norm stack_pos_encoding n_pos_channels embed_out_dim = Ok self ->
    exists k0 c w h,
      list_first (dict_keys isd) = Ok k0 /\
      session_in_shape core isd k0 = Ok [c; w; h] /\
      let c' := embedded_channels c n_pos_channels stack_pos_encoding in
      (forall name,
         In name (dict_keys
                    (shared_layers c w h use_pos_enc learned_pos dropout_pos layer_norm
                       stack_pos_encoding n_pos_channels embed_out_dim
                       key_embedding value_embedding)) ->
         exists m, getattr_module self name = Ok m) /\
      (use_pos_enc = true -> ~ In "position_embedding" (dict_keys nnd) ->
       getattr_module self "position_embedding"
       = Ok (PositionalEncoding2D
               (if truthy n_pos_channels
                then match n_pos_channels with Some n => n | None => 0 end
                else c')
               w h learned_pos dropout_pos stack_pos_encoding)) /\
      (layer_norm = true -> ~ In "norm" (dict_keys nnd) ->
       getattr_module self "norm" = Ok (LayerNorm [c'; w * h])) /\
      (key_embedding = true -> value_embedding = true ->
       ~ In "to_kv" (dict_keys nnd) ->
       embedding_l1 self = Ok (Some (Linear c' (embedding_out c' embed_out_dim * 2)))) /\
      (key_embedding = true -> value_embedding = false ->
       ~ In "to_key" (dict_keys nnd) ->
       embedding_l1 self = Ok (Some (Linear c' (embedding_out c' embed_out_dim)))) /\
      (key_embedding = false -> embedding_l1 self = Ok None) /\
      (exists layer, embedding_l1 self = Ok layer).
Proof.
  intros core isd nnd bias gf gq ge pe lp heads scale ke ve temp dp
         ln st np eo self Hinit.
  apply shared_init_ok in Hinit.
  destruct Hinit as (k0 & c & w & h & mods & Hk0 & Hshape & Hlayers & _ & Hget & ->).
  exists k0, c, w, h. split; [exact Hk0|]. split; [exact Hshape|].
  destruct (shared_layers_get c w h pe lp dp ln st np eo ke ve)
    as (Hpe & Hln & Hkv & Hkey).
  assert (Hreg : forall name,
            In name (dict_keys (shared_layers c w h pe lp dp ln st np eo ke ve)) ->
            exists m, getattr_module
                        (mkSharedAttention mods (length nnd) heads ke ve pe (negb ln)
                           gf gq ge) name = Ok m).
  { intros name Hin. apply Hlayers in Hin. apply dict_get_in_keys in Hin.
    destruct Hin as (m & Hm). exists m. unfold getattr_module. simpl. now rewrite Hm. }
  cbv zeta. split; [exact Hreg|].
  split; [|split; [|split; [|split; [|split]]]].
  - intros -> Hn. unfold getattr_module. simpl. now rewrite (Hget _ Hn), Hpe.
  - intros -> Hn. unfold getattr_module. simpl. now rewrite (Hget _ Hn), Hln.
  - intros -> -> Hn. unfold embedding_l1, getattr_module. simpl.
    now rewrite (Hget _ Hn), Hkv.
  - intros -> -> Hn. unfold embedding_l1, getattr_module. simpl.
    now rewrite (Hget _ Hn), Hkey.
  - intros ->. reflexivity.
  - unfold embedding_l1. simpl.
    destruct ke, ve; simpl; try (eexists; reflexivity).
    + destruct (Hreg "to_kv") as (m & ->); [|simpl; eauto].
      unfold shared_layers. simpl. apply dict_keys_set_iff. now left.
    + destruct (Hreg "to_key") as (m & ->); [|simpl; eauto].
      unfold shared_layers. simpl. apply dict_keys_set_iff. now left.
Qed.

(** *** When a factory constructs its container *)



Lemma add_module_usable k m mods :
  class_attr k = false -> str_contains "." k = false -> String.eqb k "" = false ->
  add_module [] k m mods = Ok (dict_set k m mods).
Proof. unfold add_module. intros -> -> ->. reflexivity. Qed.

End Containers.



Section Plain.
Context {R Core KW : Type} `{T : Torch R Core KW}.



End Plain.

(** *** Sharing *)

Section Sharing.
Context {R Core KW : Type} `{T : Torch R Core KW}.









End Sharing.

(** *** When a factory constructs its container, and what it then holds *)

Section Construction.
Context {R Core KW : Type} `{T : Torch R Core KW}.



Lemma register_usable core isd k r mods :
  (forall r, construct r = Ok tt) ->
  usable_session core isd k ->
  register [] k r mods = Ok (dict_set k (Readout r) mods).
Proof.
  intros Hcons [_ (Hc & Hd & He)]. unfold register. rewrite Hcons. simpl.
  now apply add_module_usable.
Qed.









End Construction.

(** *** The dense readout *)

Section Dense.
Context {R Core KW : Type} `{T : Torch R Core KW} `{O : TensorOps R}.

(** [DenseReadout] flattens every image of the batch and multiplies it
    with its weight matrix: for a readout constructed for the input shape
    [(c0, w0, h0)], whose linear layer therefore has [c0*w0*h0] inputs,
    [forward] on a batch of shape [(b, c, w, h)] returns a tensor of shape
    [(b, outdims)] whenever [c*w*h = c0*w0*h0], whether or not [(c, w, h)]
    is the input shape itself, and otherwise raises torch's
    [RuntimeError]; an input that is not four-dimensional is a
    [ValueError]. *)
Theorem dense_forward_checks_the_size_only :
  forall in_shape outdims bias noise r i o (self : dense_readout),
    DenseReadout_init in_shape outdims bias noise = Ok (r, Linear i o) ->
    shape (dn_weight self) = [o; i] ->
    (exists c0 w0 h0, in_shape = [c0; w0; h0] /\ i = c0 * w0 * h0 /\ o = outdims) /\
    (forall (x : ndarray R) b c w h,
       shape x = [b; c; w; h] ->
       (c * w * h = i ->
        exists y,
          DenseReadout_forward self true x = Done y /\
          shape y = [b; outdims] /\
          forall p q,
            item y [p; q]
            = let product :=
                dot (map (fun k => item x [p; k / (w * h); (k / h) mod w; k mod h])
                       (seq 0 i))
                    (map (fun k => item (dn_weight self) [q; k]) (seq 0 i)) in
              match dn_bias self with
              | Some bs => add product (item bs [q])
              | None => product
              end) /\
       (c * w * h <> i ->
        exists msg, DenseReadout_forward self true x = RuntimeError msg) /\
       (exists msg, DenseReadout_forward self false x = RuntimeError msg)) /\
    (forall (x : ndarray R) viewable,
       length (shape x) <> 4 ->
       exists msg, DenseReadout_forward self viewable x = Fails (ValueError msg)).
Proof.
  intros in_shape outdims bias noise r i o self Hinit Hw.
  unfold DenseReadout_init in Hinit.
  destruct in_shape as [|c0 [|w0 [|h0 [|]]]]; try discriminate.
  inversion Hinit. subst. clear Hinit.
  split; [exists c0, w0, h0; auto|]. split.
  - intros x b c w h Hx. unfold DenseReadout_forward. rewrite Hx, Hw. simpl.
    split; [|split].
    + intros E. rewrite E, Nat.eqb_refl.
      eexists. split; [reflexivity|]. split; reflexivity.
    + intros E. apply Nat.eqb_neq in E. rewrite E. eauto.
    + eauto.
  - intros x viewable Hlen. unfold DenseReadout_forward.
    destruct (shape x) as [|b [|c [|w [|h [|]]]]]; simpl in Hlen; try lia; eauto.
Qed.

End Dense.

(** *** The joint readout *)

Section Joint.
Context {R Core KW : Type} `{T : Torch R Core KW} `{O : TensorOps R}.

Lemma list_eq_dec_refl (l : list nat) :
  (if list_eq_dec Nat.eq_dec l l then true else false) = true.
Proof. destruct (list_eq_dec Nat.eq_dec l l); congruence. Qed.

Lemma cat1_ok (a b : ndarray R) s0 ca cb rest :
  shape a = s0 :: ca :: rest -> shape b = s0 :: cb :: rest ->
  exists f,
    cat1 a b = Done f /\ shape f = s0 :: (ca + cb) :: rest /\
    forall i j r, item f (i :: j :: r)
                  = if j <? ca then item a (i :: j :: r) else item b (i :: (j - ca) :: r).
Proof.
  intros Ha Hb. unfold cat1. rewrite Ha, Hb.
  rewrite Nat.eqb_refl, list_eq_dec_refl. simpl.
  destruct s0 as [|s0]; [| ]; (eexists; split; [reflexivity|]; simpl; auto).
Qed.

(** The features of a joint readout keep the channel layout of the new
    readout: with [readout_split] ['first'] the pretrained features are
    the first channels and the channels after them are those of the new
    readout at the same positions (or zero with [init_features_zeros]);
    with ['second'] the pretrained features are the last channels.  This
    holds when the pretrained features have at most as many channels as
    the new readout; a pretrained readout with more channels is not
    rejected, and the features then have more channels than the readout.
    Any other [readout_split] is a [ValueError]. *)
Theorem joint_features_keep_the_channel_layout :
  forall (existing pretrained : ndarray R) s0 c n rest rg1 rg2 zeros,
    shape existing = s0 :: c :: rest ->
    shape pretrained = s0 :: n :: rest ->
    (n <= c ->
     (exists f1 f2 f,
        split_features c existing pretrained "first" rg1 rg2 zeros
          = Ok ((f1, rg1), (f2, rg2)) /\
        cat1 f1 f2 = Done f /\ shape f = shape existing /\
        forall a j r,
          item f (a :: j :: r)
          = if j <? n then item pretrained (a :: j :: r)
            else if zeros then zero else item existing (a :: j :: r)) /\
     (exists f1 f2 f,
        split_features c existing pretrained "second" rg1 rg2 zeros
          = Ok ((f1, rg1), (f2, rg2)) /\
        cat1 f1 f2 = Done f /\ shape f = shape existing /\
        forall a j r,
          item f (a :: j :: r)
          = if j <? c - n then (if zeros then zero else item existing (a :: j :: r))
            else item pretrained (a :: (j - (c - n)) :: r))) /\
    (c < n ->
     (exists f1 f2 f,
        split_features c existing pretrained "first" rg1 rg2 zeros
          = Ok ((f1, rg1), (f2, rg2)) /\
        cat1 f1 f2 = Done f /\ shape f = s0 :: n :: rest) /\
     (exists f1 f2 f,
        split_features c existing pretrained "second" rg1 rg2 zeros
          = Ok ((f1, rg1), (f2, rg2)) /\
        cat1 f1 f2 = Done f /\ shape f = s0 :: (2 * c - n + n) :: rest)) /\
    (forall split,
       split <> "first" -> split <> "second" ->
       split_features c existing pretrained split rg1 rg2 zeros
       = Raise (ValueError readout_split_error)).
Proof.
  intros existing pretrained s0 c n rest rg1 rg2 zeros He Hp.
  assert (Hfirst : exists f2,
            split_features c existing pretrained "first" rg1 rg2 zeros
              = Ok ((pretrained, rg1), (f2, rg2)) /\
            shape f2 = s0 :: (c - n) :: rest /\
            forall a j r, item f2 (a :: j :: r)
                          = if zeros then zero else item existing (a :: (j + n) :: r)).
  { unfold split_features, dim1, slice_from1. rewrite Hp, He. simpl.
    destruct zeros; eexists; (split; [reflexivity|]); simpl; auto. }
  assert (Hsecond : exists f1,
            split_features c existing pretrained "second" rg1 rg2 zeros
              = Ok ((f1, rg1), (pretrained, rg2)) /\
            shape f1 = s0 :: (if (Z.of_nat c - Z.of_nat n <? 0)%Z
                              then 2 * c - n else c - n) :: rest /\
            forall idx, item f1 idx = if zeros then zero else item existing idx).
  { unfold split_features, dim1, slice_to1. rewrite Hp, He. simpl.
    assert (Hk : (if (Z.of_nat c - Z.of_nat n <? 0)%Z
                  then Z.to_nat (Z.max 0 (Z.of_nat c + (Z.of_nat c - Z.of_nat n)))
                  else Nat.min (Z.to_nat (Z.of_nat c - Z.of_nat n)) c)
                 = (if (Z.of_nat c - Z.of_nat n <? 0)%Z then 2 * c - n else c - n)).
    { destruct (Z.of_nat c - Z.of_nat n <? 0)%Z eqn:E.
      - apply Z.ltb_lt in E. lia.
      - apply Z.ltb_ge in E. lia. }
    destruct zeros; eexists; (split; [reflexivity|]); simpl; rewrite Hk; auto. }
  destruct Hfirst as (f2 & Hsplit1 & Hs2 & Hi2).
  destruct Hsecond as (f1 & Hsplit2 & Hs1 & Hi1).
  split; [|split].
  - intros Hle. split.
    + destruct (cat1_ok pretrained f2 s0 n (c - n) rest Hp Hs2) as (f & Hcat & Hsf & Hif).
      exists pretrained, f2, f. split; [exact Hsplit1|]. split; [exact Hcat|]. split.
      * rewrite Hsf, He. do 2 f_equal. lia.
      * intros a j r. rewrite Hif. destruct (j <? n) eqn:E; [reflexivity|].
        rewrite Hi2. apply Nat.ltb_ge in E.
        replace (j - n + n) with j by lia. reflexivity.
    + assert (E : (Z.of_nat c - Z.of_nat n <? 0)%Z = false) by (apply Z.ltb_ge; lia).
      rewrite E in Hs1.
      destruct (cat1_ok f1 pretrained s0 (c - n) n rest Hs1 Hp) as (f & Hcat & Hsf & Hif).
      exists f1, pretrained, f. split; [exact Hsplit2|]. split; [exact Hcat|]. split.
      * rewrite Hsf, He. do 2 f_equal. lia.
      * intros a j r. rewrite Hif. destruct (j <? c - n); [apply Hi1 | reflexivity].
  - intros Hlt. split.
    + destruct (cat1_ok pretrained f2 s0 n (c - n) rest Hp Hs2) as (f & Hcat & Hsf & _).
      exists pretrained, f2, f. split; [exact Hsplit1|]. split; [exact Hcat|].
      rewrite Hsf. do 2 f_equal. lia.
    + assert (E : (Z.of_nat c - Z.of_nat n <? 0)%Z = true) by (apply Z.ltb_lt; lia).
      rewrite E in Hs1.
      destruct (cat1_ok f1 pretrained s0 (2 * c - n) n rest Hs1 Hp)
        as (f & Hcat & Hsf & _).
      exists f1, pretrained, f. split; [exact Hsplit2|]. split; [exact Hcat|]. exact Hsf.
  - intros split H1 H2. unfold split_features, dim1. rewrite Hp. simpl.
    apply String.eqb_neq in H1. apply String.eqb_neq in H2. now rewrite H1, H2.
Qed.

(** lines 627-628 set the data of an attribute that exists: they leave
    the split features, [_features] and [has_pretrained] as they are *)
Definition keeps_features {L : Type}
    (assign_data : string -> ndarray R -> @joint_readout R L -> res (@joint_readout R L))
    : Prop :=
  forall field v s s',
    field <> "_features" ->
    assign_data field v s = Ok s' ->
    jr_features_1 s' = jr_features_1 s /\ jr_features_2 s' = jr_features_2 s /\
    jr_features s' = jr_features s /\ jr_has_pretrained s' = jr_has_pretrained s.

Lemma dict_get_filter {V} (keep : string -> bool) (k : string) (d : dict V) :
  dict_get k (filter (fun kv => keep (fst kv)) d)
  = if keep k then dict_get k d else None.
Proof.
  induction d as [|[k' v] d IH]; simpl.
  - now destruct (keep k).
  - destruct (keep k') eqn:Ek'; simpl.
    + destruct (String.eqb k k') eqn:E.
      * apply String.eqb_eq in E. subst. now rewrite Ek'.
      * exact IH.
    + destruct (String.eqb k k') eqn:E.
      * apply String.eqb_eq in E. subst. rewrite Ek' in *. exact IH.
      * exact IH.
Qed.

Lemma nodup_filter_keys {V} (keep : string * V -> bool) (d : dict V) :
  NoDup (dict_keys d) -> NoDup (dict_keys (filter keep d)).
Proof.
  unfold dict_keys. induction d as [|[k v] d IH]; simpl; intros H; [constructor|].
  inversion H as [|? ? Hn Hd]. subst.
  destruct (keep (k, v)); simpl; auto.
  constructor; auto.
  intros Hin. apply Hn. apply in_map_iff in Hin. destruct Hin as ([k' v'] & E & Hin).
  apply filter_In in Hin. apply in_map_iff. exists (k', v'). tauto.
Qed.

Lemma init_loop {L : Type}
    (assign_data : string -> ndarray R -> @joint_readout R L -> res (@joint_readout R L))
    c existing split rg1 rg2 zeros :
  keeps_features assign_data ->
  forall items self0 self,
    NoDup (dict_keys items) ->
    for_items (fun field v self =>
        if String.eqb field "_features" then
          Py.bind (split_features c existing v split rg1 rg2 zeros)
            (fun '(f1, f2) =>
               Ok (mkJoint (jr_features self) (jr_features_requires_grad self)
                     (Some f1) (Some f2) (jr_has_pretrained self) (jr_lib self)))
        else assign_data field v self)
      items self0 = Ok self ->
    jr_features self = jr_features self0 /\
    jr_has_pretrained self = jr_has_pretrained self0 /\
    match dict_get "_features" items with
    | Some p =>
        exists f1 f2,
          split_features c existing p split rg1 rg2 zeros = Ok (f1, f2) /\
          jr_features_1 self = Some f1 /\ jr_features_2 self = Some f2
    | None =>
        jr_features_1 self = jr_features_1 self0 /\
        jr_features_2 self = jr_features_2 self0
    end.
Proof.
  intros Hkeep. induction items as [|[k v] items IH];
    cbn [for_items dict_get]; intros self0 self Hnd Hrun.
  - inversion Hrun. subst. auto.
  - inversion Hnd as [|? ? Hn Hd]. subst.
    destruct (String.eqb k "_features") eqn:Ek.
    + apply String.eqb_eq in Ek. subst k. rewrite String.eqb_refl.
      destruct (split_features c existing v split rg1 rg2 zeros) as [[f1 f2]|] eqn:Es;
        simpl in Hrun; [|discriminate].
      destruct (IH _ _ Hd Hrun) as (Hf & Hp & Hparts).
      assert (Hnone : dict_get "_features" items = None).
      { destruct (dict_get "_features" items) eqn:Eg; [|reflexivity].
        exfalso. apply Hn. apply dict_get_in_keys. eauto. }
      rewrite Hnone in Hparts. simpl in *. destruct Hparts as (H1 & H2).
      split; [exact Hf|]. split; [exact Hp|]. exists f1, f2. auto.
    + assert (Ek' : String.eqb "_features" k = false)
        by (rewrite String.eqb_sym; exact Ek).
      rewrite Ek'.
      destruct (assign_data k v self0) as [s1|] eqn:Ea; [|discriminate].
      apply String.eqb_neq in Ek.
      destruct (Hkeep _ _ _ _ Ek Ea) as (K1 & K2 & K3 & K4).
      destruct (IH _ _ Hd Hrun) as (Hf & Hp & Hparts).
      rewrite K3 in Hf. rewrite K4 in Hp. split; [exact Hf|]. split; [exact Hp|].
      destruct (dict_get "_features" items); [exact Hparts|].
      now rewrite K1, K2 in Hparts.
Qed.

(** lines 627-628 succeed for every field other than ['_features'] *)
Definition copies_fields {L : Type}
    (assign_data : string -> ndarray R -> @joint_readout R L -> res (@joint_readout R L))
    : Prop :=
  forall field v s, field <> "_features" -> exists s', assign_data field v s = Ok s'.

Lemma init_loop_returns {L : Type}
    (assign_data : string -> ndarray R -> @joint_readout R L -> res (@joint_readout R L))
    c existing split rg1 rg2 zeros :
  copies_fields assign_data ->
  forall items self0,
    NoDup (dict_keys items) ->
    (forall p, dict_get "_features" items = Some p ->
               exists f, split_features c existing p split rg1 rg2 zeros = Ok f) ->
    exists self,
      for_items (fun field v self =>
          if String.eqb field "_features" then
            Py.bind (split_features c existing v split rg1 rg2 zeros)
              (fun '(f1, f2) =>
                 Ok (mkJoint (jr_features self) (jr_features_requires_grad self)
                       (Some f1) (Some f2) (jr_has_pretrained self) (jr_lib self)))
          else assign_data field v self)
        items self0 = Ok self.
Proof.
  intros Hcopy. induction items as [|[k v] items IH];
    cbn [for_items dict_get]; intros self0 Hnd Hsplit; [eauto|].
  inversion Hnd as [|? ? Hn Hd]. subst.
  destruct (String.eqb k "_features") eqn:Ek.
  - apply String.eqb_eq in Ek. subst k. rewrite String.eqb_refl in Hsplit.
    destruct (Hsplit v eq_refl) as ([f1 f2] & ->). simpl.
    apply IH; [exact Hd|].
    intros p Hp. exfalso. apply Hn. apply dict_get_in_keys. eauto.
  - assert (Ek' : String.eqb "_features" k = false)
      by (rewrite String.eqb_sym; exact Ek).
    rewrite Ek' in Hsplit. apply String.eqb_neq in Ek.
    destruct (Hcopy k v self0 Ek) as (s1 & ->).
    apply IH; assumption.
Qed.

(** What the property [features] of a joint readout returns after
    [__init__].  Without a pretrained state the readout has the features
    of the library's readout, set to zero with [init_features_zeros]; this
    needs ['_features'] to be left out of [fields_to_initialize], and with
    the default list, which has it, [__init__] raises.  With a pretrained
    state, [features] is the concatenation of the two split features when
    ['_features'] is listed and the state has it, whatever other fields
    are copied; when it is not listed or the state lacks it, [features]
    raises an [AttributeError].  In both cases the parameter [_features]
    stays in the readout, with the data the library gave it unless it was
    set to zero.  With a pretrained state the constructor does succeed when
    the features have a channel axis, lines 627-628 succeed for the other
    fields, and the pretrained features, if they are listed and present,
    can be split. *)
Theorem joint_features_come_from_the_pretrained_state :
  forall (L : Type)
         (assign_data : string -> ndarray R -> @joint_readout R L -> res (@joint_readout R L))
         (existing : ndarray R) (lib : L) state split rg1 rg2 fields zeros,
    keeps_features assign_data ->
    let listed := existsb (String.eqb "_features") fields in
    let init := JointReadout_init assign_data existing lib state split rg1 rg2
                  fields zeros in
    (forall self,
       init = Ok self ->
       jr_features self
       = (if listed then existing
          else if zeros then zeros_like existing else existing) /\
       match state with
       | None => listed = false /\ joint_features self = Done (jr_features self)
       | Some d =>
           NoDup (dict_keys d) ->
           match (if listed then dict_get "_features" d else None) with
           | Some p =>
               exists c f1 f2,
                 dim1 existing = Ok c /\
                 split_features c existing p split rg1 rg2 zeros = Ok (f1, f2) /\
                 joint_features self = cat1 (fst f1) (fst f2)
           | None =>
               joint_features self
               = Fails (AttributeError (no_attribute "_features_1"))
           end
       end) /\
    (state = None -> listed = true ->
     init = Raise (match dim1 existing with
                   | Ok _ => AttributeError "'NoneType' object has no attribute 'items'"
                   | Raise e => e
                   end)) /\
    (state = None -> listed = false -> exists self, init = Ok self) /\
    (forall d c,
       state = Some d -> NoDup (dict_keys d) ->
       dim1 existing = Ok c ->
       copies_fields assign_data ->
       (forall p, (if listed then dict_get "_features" d else None) = Some p ->
                  exists f, split_features c existing p split rg1 rg2 zeros = Ok f) ->
       exists self, init = Ok self).
Proof.
  intros L assign_data existing lib state split rg1 rg2 fields zeros Hkeep listed init.
  subst init. unfold JointReadout_init. fold listed.
  split; [|split; [|split]].
  - intros self Hinit. destruct state as [d|].
    + cbv zeta in Hinit.
      replace (negb listed && negb true) with false in Hinit
        by (now destruct listed).
      cbv iota in Hinit.
      destruct (dim1 existing) as [c|] eqn:Ec; [|discriminate]. simpl in Hinit.
      assert (Hloop := init_loop assign_data c existing split rg1 rg2 zeros Hkeep).
      match type of Hinit with
      | for_items _ ?items ?s0 = _ =>
          assert (Hfilter : NoDup (dict_keys d) -> NoDup (dict_keys items))
            by (apply nodup_filter_keys);
          pose proof (fun H => Hloop items s0 self (Hfilter H) Hinit) as Hself;
          pose proof (dict_get_filter (V:=ndarray R)
                        (fun k => existsb (String.eqb k) fields) "_features" d) as Hget
      end.
      cbv beta in Hget. fold listed in Hget.
      split.
      * (* the parameter is not touched; this part does not need the keys
           to be distinct, as the loop only assigns to other attributes *)
        clear Hself Hget Hfilter.
        assert (Hf : forall items s0 s,
                   for_items (fun field v self =>
                       if String.eqb field "_features" then
                         Py.bind (split_features c existing v split rg1 rg2 zeros)
                           (fun '(f1, f2) =>
                              Ok (mkJoint (jr_features self)
                                    (jr_features_requires_grad self)
                                    (Some f1) (Some f2) (jr_has_pretrained self)
                                    (jr_lib self)))
                       else assign_data field v self) items s0 = Ok s ->
                   jr_features s = jr_features s0).
        { induction items as [|[k v] items IH]; simpl; intros s0 s Hrun.
          - now inversion Hrun.
          - destruct (String.eqb k "_features") eqn:Ek.
            + destruct (split_features c existing v split rg1 rg2 zeros)
                as [[f1 f2]|]; simpl in Hrun; [|discriminate].
              now rewrite (IH _ _ Hrun).
            + destruct (assign_data k v s0) as [s1|] eqn:Ea; [|discriminate].
              apply String.eqb_neq in Ek.
              destruct (Hkeep _ _ _ _ Ek Ea) as (_ & _ & K3 & _).
              now rewrite (IH _ _ Hrun). }
        rewrite (Hf _ _ _ Hinit). now destruct listed.
      * intros Hnd. destruct (Hself Hnd) as (_ & Hp & Hparts).
        rewrite Hget in Hparts.
        assert (Hpre : jr_has_pretrained self = true)
          by (rewrite Hp; now destruct listed).
        unfold joint_features. rewrite Hpre. simpl. revert Hparts.
        destruct (if listed then dict_get "_features" d else None) as [p|];
          intros Hparts.
        -- destruct Hparts as ([f1 g1] & [f2 g2] & Hs & H1 & H2).
           exists c, (f1, g1), (f2, g2). rewrite H1, H2. auto.
        -- destruct Hparts as (H1 & _). rewrite H1.
           now destruct listed.
    + cbv zeta in Hinit. destruct listed; simpl in Hinit.
      * destruct (dim1 existing); discriminate.
      * inversion Hinit. subst. simpl. destruct zeros; auto.
  - intros -> Hl. rewrite Hl. simpl. now destruct (dim1 existing).
  - intros -> Hl. rewrite Hl. simpl. eauto.
  - intros d c -> Hnd Hc Hcopy Hsplit. cbv zeta.
    replace (negb listed && negb true) with false by (now destruct listed).
    cbv iota. rewrite Hc. simpl.
    apply (init_loop_returns assign_data c existing split rg1 rg2 zeros Hcopy).
    + now apply nodup_filter_keys.
    + intros p Hp. apply Hsplit. rewrite <- Hp. symmetry.
      exact (dict_get_filter (fun k => existsb (String.eqb k) fields) "_features" d).
Qed.

End Joint.
End ReadoutsFacts.

(* ------------------------------------------------------------------ *)
(** ** The further properties on concrete calls                        *)
(* ------------------------------------------------------------------ *)

Module MoreRuns.
Import Readouts ReadoutsMore Loaders LoadersWorld Examples LoaderExamples MoreExamples.
Import LoadersFacts LoadersFiles ClosedLoop SessionFacts ReadoutsFacts.

Lemma returns {A} (dflt : A) (r : res A) :
  is_ok r = true -> r = Ok (match r with Ok x => x | Raise _ => dflt end).
Proof. destruct r; simpl; [reflexivity | discriminate]. Qed.


(** *** The loaders *)

(** The static loader over two sessions touches no file but its
    statistics. *)
Lemma writes_only_statistics_witness :
  let call := static_call_with two_sessions (TbInt 2) false true 1 in
  wrote_at_most (static_stats_path call) lab (snd (monkey_static_loader call lab)).
Proof.
  intros call.
  apply (proj1 loaders_write_only_their_statistics call lab
           (fst (monkey_static_loader call lab))).
  apply surjective_pairing.
Defined.

(** With the statistics in place the call over two sessions writes
    nothing. *)
Lemma nothing_written_witness :
  let call := static_call_with two_sessions (TbInt 2) false true 1 in
  same_fs lab_with_stats (snd (monkey_static_loader call lab_with_stats)).
Proof.
  intros call.
  apply (proj1 nothing_written_without_new_statistics call lab_with_stats
           (fst (monkey_static_loader call lab_with_stats))).
  - right. reflexivity.
  - apply surjective_pairing.
Defined.

(** The first call over two sessions stores the statistics that a second
    call returns. *)
Lemma round_trip_witness :
  let call := static_call_with two_sessions (TbInt 2) true true 1 in
  let run := monkey_static_loader call lab in
  exists info c,
    files (snd run) (static_stats_path call) = Some (PickledInfo info) /\
    caches (snd run) = (caches lab ++ [c])%list /\
    statistics_of c info /\
    (return_data_info call = true -> returned run = Stored (PickledInfo info)) /\
    forall a' : static_args,
      static_stats_path a' = static_stats_path call ->
      return_data_info a' = true ->
      time_bins_sum a' <> TbNone ->
      monkey_static_loader a' (snd run) = (Ok (Stored (PickledInfo info)), snd run).
Proof.
  intros call run.
  apply (proj1 stored_statistics_round_trip call lab (returned run) (snd run)).
  - reflexivity.
  - reflexivity.
  - apply (LoadersRuns.run_returns (Dataloaders [])). vm_compute. reflexivity.
Defined.

(** Without [time_bins_sum] the call raises before it reads a file. *)
Lemma time_bins_none_witness :
  exists msg,
    monkey_static_loader (static_call_with two_sessions TbNone false true 1) lab
    = (Raise (TypeError msg), lab).
Proof.
  apply (proj1 time_bins_none_is_a_type_error
           (static_call_with two_sessions TbNone false true 1) lab).
  reflexivity.
Defined.

(** A call without session files that is to store the statistics raises. *)
Lemma no_session_files_witness :
  fst (monkey_static_loader (static_call_with [] (TbInt 2) false true 1) lab)
  = Raise (IndexError "list index out of range").
Proof.
  apply (proj1 no_session_files (static_call_with [] (TbInt 2) false true 1) lab).
  - reflexivity.
  - discriminate.
  - reflexivity.
Defined.

(** Without [store_data_info] the call over two sessions returns an empty
    dictionary. *)
Lemma data_info_empty_witness :
  returned (monkey_static_loader
              (static_call_with two_sessions (TbInt 2) true false 1) lab)
  = Stored (PickledInfo []).
Proof.
  apply (proj1 data_info_is_empty_unless_stored
           (static_call_with two_sessions (TbInt 2) true false 1) lab _
           (snd (monkey_static_loader
                   (static_call_with two_sessions (TbInt 2) true false 1) lab))).
  - reflexivity.
  - reflexivity.
  - reflexivity.
  - apply (LoadersRuns.run_returns (Dataloaders [])). vm_compute. reflexivity.
Defined.

(** Without multi-unit files the multi-unit loader returns only when the
    statistics are in place. *)
Lemma mua_file_witness :
  let call := mua_call_with two_sessions [] (TbSeq [0; 2]%Z) true true in
  let run := monkey_mua_sua_loader call lab_with_stats in
  returned_stored_statistics (m_return_data_info call) (mua_stats_path call)
    lab_with_stats (returned run) (snd run).
Proof.
  intros call run.
  apply (mua_loader_needs_a_mua_file call lab_with_stats (returned run) (snd run)).
  - reflexivity.
  - discriminate.
  - apply (LoadersRuns.run_returns (Dataloaders [])). vm_compute. reflexivity.
Defined.

(** The closed-loop loader with half of the images returns only when the
    statistics are in place. *)
Lemma closed_subsample_witness :
  let call := closed_call_with closed_sessions (TbInt 2) true true (1 # 2) false false in
  let run := monkey_static_loader_closed_loop call lab_with_stats in
  returned_stored_statistics (c_return_data_info call) (closed_stats_path call)
    lab_with_stats (returned run) (snd run).
Proof.
  intros call run.
  apply (closed_loop_cannot_subsample_at_random call lab_with_stats (returned run)
           (snd run) (1 # 2)).
  - reflexivity.
  - reflexivity.
  - reflexivity.
  - discriminate.
  - apply (LoadersRuns.run_returns (Dataloaders [])). vm_compute. reflexivity.
Defined.

(** The static loader with half of the images and no selection seed
    returns only when the statistics are in place. *)
Lemma static_subsample_witness :
  let call := static_call_with two_sessions (TbInt 2) true true (1 # 2) in
  let run := monkey_static_loader call lab_with_stats in
  returned_stored_statistics (return_data_info call) (static_stats_path call)
    lab_with_stats (returned run) (snd run).
Proof.
  intros call run.
  apply (static_subsampling_needs_a_seed call lab_with_stats (returned run)
           (snd run) 0 (1 # 2)).
  - reflexivity.
  - reflexivity.
  - simpl. lia.
  - reflexivity.
  - reflexivity.
  - apply (LoadersRuns.run_returns (Dataloaders [])). vm_compute. reflexivity.
Defined.

(** *** The closed-loop loader *)

(** The first closed-loop session with the MEIs in the training set: the
    validation set is split from the images of the file. *)
Lemma closed_validation_witness :
  let run := first_closed_session (PyFloat (1 # 2)) in
  let st' := match fst run with Ok s => s | Raise _ => no_closed_state end in
  exists (cs : @closed_session Z) ids resp lt lv,
    closed_prepare mei_call [0; 1]%Z [1; 1]%Q 0%Z 0 "data/c.pickle" closed_lab
      = (Ok cs, closed_lab) /\
    ids = extended_ids (c_include_mei_training mei_call)
            (cs_mei_cropped_ids cs) (cs_mei_uncropped_ids cs)
            (extended_ids (c_include_control_training mei_call)
               (cs_control_cropped_ids cs) (cs_control_uncropped_ids cs)
               (sd_training_ids (cs_data cs))) /\
    (c_include_mei_training mei_call || c_include_control_training mei_call = false ->
     resp = sd_responses_train (cs_data cs)) /\
    stored_under "train" (sd_key (cs_data cs)) lt (st_dataloaders st') /\
    selects [0; 1; 2; 3; 4; 5; 6; 7]%Z ids resp (dl_image_ids lt) (dl_responses lt) /\
    stored_under "validation" (sd_key (cs_data cs)) lv (st_dataloaders st') /\
    selects [8; 9]%Z (sd_training_ids (cs_data cs)) (sd_responses_train (cs_data cs))
      (dl_image_ids lv) (dl_responses lv) /\
    (forall x, In x (dl_image_ids lv) -> In x (sd_training_ids (cs_data cs))) /\
    (c_include_mei_training mei_call || c_include_control_training mei_call = true ->
     exists lx,
       stored_under "validation_extended" (sd_key (cs_data cs)) lx
         (st_dataloaders st') /\
       selects [8; 9]%Z ids resp (dl_image_ids lx) (dl_responses lx)).
Proof.
  intros run st'.
  apply (closed_loop_validation_is_split_from_the_file mei_call [0; 1]%Z [1; 1]%Q
           [PyNone; PyNone] [(10, 10); (10, 10)]%Z "images/individual" 0%Z
           [0; 1; 2; 3; 4; 5; 6; 7]%Z [8; 9]%Z (PyFloat (1 # 2)) (PyFloat (1 # 4)) 0
           "data/c.pickle" (mkClosedState (closed_dataloaders mei_call) [] [])
           closed_lab st' (snd run)).
  apply (LoadersRuns.run_returns no_closed_state). vm_compute. reflexivity.
Defined.

(** The first closed-loop session with given statistics constructs the
    cache of the training tiers and the cache of the test tiers. *)
Lemma closed_caches_witness :
  let run := first_closed_session (PyFloat (1 # 2)) in
  let st' := match fst run with Ok s => s | Raise _ => no_closed_state end in
  exists (cs : @closed_session Z) location test_crop,
    closed_prepare mei_call [0; 1]%Z [1; 1]%Q 0%Z 0 "data/c.pickle" closed_lab
      = (Ok cs, closed_lab) /\
    nth_error [PyNone; PyNone] 0 = Some location /\
    test_crop_of [(10, 10); (10, 10)]%Z
      (get_crop_from_stimulus_location location [(10, 10); (10, 10)]%Z (457 # 100))
      = Ok test_crop /\
    caches (snd run)
      = (caches closed_lab ++
         session_caches mei_call "images/individual"
           (get_crop_from_stimulus_location location [(10, 10); (10, 10)]%Z (457 # 100))
           test_crop (PyFloat (1 # 2)) (PyFloat (1 # 4)))%list /\
    forall tier l,
      In tier (closed_tiers mei_call) ->
      stored_under tier (sd_key (cs_data cs)) l (st_dataloaders st') ->
      dl_image_cache l
      = if training_tier tier then length (caches closed_lab)
        else S (length (caches closed_lab)).
Proof.
  intros run st'.
  apply (closed_loop_session_constructs_two_caches mei_call [0; 1]%Z [1; 1]%Q
           [PyNone; PyNone] [(10, 10); (10, 10)]%Z "images/individual" 0%Z
           [0; 1; 2; 3; 4; 5; 6; 7]%Z [8; 9]%Z (PyFloat (1 # 2)) (PyFloat (1 # 4)) 0
           "data/c.pickle" (mkClosedState (closed_dataloaders mei_call) [] [])
           closed_lab st' (snd run)).
  - discriminate.
  - apply (LoadersRuns.run_returns no_closed_state). vm_compute. reflexivity.
Defined.

(** The closed-loop loader over two sessions returns eight tiers of two
    loaders. *)
Lemma closed_tiers_witness :
  let run := monkey_static_loader_closed_loop mei_call closed_lab in
  exists d keys,
    returned run = Dataloaders d /\
    map (file_session_key closed_lab) (c_neuronal_data_files mei_call)
      = map Some keys /\
    tiers_by_session (closed_tiers mei_call) keys d /\
    all_loaders
      (fun l => length (caches closed_lab) < dl_image_cache l
                < length (caches (snd run))) d.
Proof.
  intros run.
  apply (closed_loop_returns_tiers_by_session mei_call closed_lab (returned run)
           (snd run)).
  - reflexivity.
  - apply (LoadersRuns.run_returns (Dataloaders [])). vm_compute. reflexivity.
Defined.

Example closed_run_tiers :
  let d := dataloaders_of (monkey_static_loader_closed_loop mei_call closed_lab) in
  tier_sizes d
  = [("train", 2); ("validation", 2); ("test", 2); ("test_mei_uncropped", 2);
     ("test_control_uncropped", 2); ("test_mei_cropped", 2);
     ("test_control_cropped", 2); ("validation_extended", 2)] /\
  loader_at "train" "3631896544452" d = [0; 3; 4]%Z /\
  loader_at "validation" "3631896544452" d = [8]%Z /\
  loader_at "validation_extended" "3631896544452" d = [8; 9]%Z.
Proof. vm_compute. auto. Qed.

(** *** One session *)

(** The first session of the static call: the test loader holds the two
    test images of the file. *)
Lemma test_loader_witness :
  let call := static_call two_sessions (CropInt 10) false in
  let run := static_session call [0; 1]%Z [1; 1]%Q 0%Z
               [0; 1; 2; 3; 4; 5; 6; 7]%Z [8; 9]%Z 0 0 "data/a.pickle"
               (None, empty_dataloaders) lab in
  let st' := match fst run with Ok s => s | Raise _ => (None, []) end in
  exists raw ids key l,
    files lab "data/a.pickle" = Some (PickledRaw raw) /\
    dict_get "testing_image_ids" raw = Some (RawIds ids) /\
    raw_session raw = Ok key /\
    stored_under "test" key l (snd st') /\
    dl_image_ids l = map (fun x => (x - 0)%Z) ids /\
    dl_repeat_condition l = Given (dl_image_ids l) /\
    dl_batch_size l = None /\
    dl_shuffle l = Given (Some false) /\
    dl_image_cache l = 0.
Proof.
  intros call run st'.
  apply (proj1 test_loader_holds_every_test_image call [0; 1]%Z [1; 1]%Q 0%Z
           [0; 1; 2; 3; 4; 5; 6; 7]%Z [8; 9]%Z 0 0 "data/a.pickle"
           (None, empty_dataloaders) lab st' (snd run)).
  apply (LoadersRuns.run_returns (None, [])). vm_compute. reflexivity.
Defined.




(** *** The readouts *)

(** Nothing is registered under the name of a session that the dense
    container was not built for. *)
Lemma key_error_witness :
  MultiReadout_forward dense_container [features] (Some "3633364677437") tt
    = Raise (KeyError "3633364677437") /\
  MultipleGaussian2d_forward dense_container [features] (Some "3633364677437") tt
    = Raise (KeyError "3633364677437") /\
  MultipleSelfAttention2d_forward dense_container [features] (Some "3633364677437") tt
    = Raise (KeyError "3633364677437") /\
  MultipleMultiHeadAttention2d_forward dense_container [features]
    (Some "3633364677437") tt
    = Raise (KeyError "3633364677437").
Proof.
  apply (proj1 forward_raises_key_error dense_container [features] tt "3633364677437").
  reflexivity.
Defined.

(** The shared attention readout of one session holds two modules, and
    [forward] without a [data_key] raises. *)
Lemma single_session_witness :
  2 <= length (sa_modules single_shared) /\
  MultipleSharedMultiHeadAttention2d_forward tt single_shared features None tt
    = Raise (KeyError "None").
Proof.
  apply (shared_forward_needs_a_data_key tt tt tt one_in_shape one_n_neurons
           (PyBool true) (PyInt 0) (PyInt 0) (PyInt 0) true (PyBool false) 2
           (PyBool false) false false (PyPair (PyBool false) (PyFloat 1))
           (PyFloat (1 # 10)) false false None None single_shared features
           (fst (key_value_of single_shared features))
           (snd (key_value_of single_shared features))).
  - reflexivity.
  - reflexivity.
  - exists "3631896544452". split; [left; reflexivity|].
    simpl. intros [H | [H | [H | [H | []]]]]; discriminate H.
  - rewrite <- surjective_pairing.
    apply (returns (features, features)). reflexivity.
Defined.

(** The shared layers of the container with both embeddings and a layer
    norm are sized by the first of the two sessions. *)
Lemma shared_layers_witness :
  exists k0 c w h,
    list_first (dict_keys two_in_shapes) = Ok k0 /\
    session_in_shape tt two_in_shapes k0 = Ok [c; w; h] /\
    let c' := embedded_channels c None false in
    (forall name,
       In name (dict_keys
                  (shared_layers c w h true (PyBool false) (PyFloat (1 # 10)) true
                     false None None true true)) ->
       exists m, getattr_module shared_kv name = Ok m) /\
    (true = true -> ~ In "position_embedding" (dict_keys two_n_neurons) ->
     getattr_module shared_kv "position_embedding"
     = Ok (PositionalEncoding2D
             (if truthy (@None nat)
              then match @None nat with Some n => n | None => 0 end
              else c')
             w h (PyBool false) (PyFloat (1 # 10)) false)) /\
    (true = true -> ~ In "norm" (dict_keys two_n_neurons) ->
     getattr_module shared_kv "norm" = Ok (LayerNorm [c'; w * h])) /\
    (true = true -> true = true ->
     ~ In "to_kv" (dict_keys two_n_neurons) ->
     embedding_l1 shared_kv = Ok (Some (Linear c' (embedding_out c' None * 2)))) /\
    (true = true -> true = false ->
     ~ In "to_key" (dict_keys two_n_neurons) ->
     embedding_l1 shared_kv = Ok (Some (Linear c' (embedding_out c' None)))) /\
    (true = false -> embedding_l1 shared_kv = Ok None) /\
    (exists layer, embedding_l1 shared_kv = Ok layer).
Proof.
  apply (shared_layers_are_sized_by_the_first_session tt two_in_shapes
           two_n_neurons (PyBool true) (PyInt 0) (PyInt 0) (PyInt 0) true
           (PyBool false) 2 (PyBool false) true true
           (PyPair (PyBool false) (PyFloat 1)) (PyFloat (1 # 10)) true false
           None None shared_kv).
  reflexivity.
Defined.



(** A dense readout for eight channels on a 2 x 2 grid answers to a batch
    of the same size in another arrangement. *)
Lemma dense_forward_witness :
  (exists c0 w0 h0, [8; 2; 2] = [c0; w0; h0] /\ 32 = c0 * w0 * h0 /\ 3 = 3) /\
  (forall (x : ndarray nat) b c w h,
     shape x = [b; c; w; h] ->
     (c * w * h = 32 ->
      exists y,
        DenseReadout_forward dense_toy true x = Done y /\
        shape y = [b; 3] /\
        forall p q,
          item y [p; q]
          = let product :=
              dot (map (fun k => item x [p; k / (w * h); (k / h) mod w; k mod h])
                     (seq 0 32))
                  (map (fun k => item (dn_weight dense_toy) [q; k]) (seq 0 32)) in
            match dn_bias dense_toy with
            | Some bs => add product (item bs [q])
            | None => product
            end) /\
     (c * w * h <> 32 ->
      exists msg, DenseReadout_forward dense_toy true x = RuntimeError msg) /\
     (exists msg, DenseReadout_forward dense_toy false x = RuntimeError msg)) /\
  (forall (x : ndarray nat) viewable,
     length (shape x) <> 4 ->
     exists msg, DenseReadout_forward dense_toy viewable x = Fails (ValueError msg)).
Proof.
  apply (dense_forward_checks_the_size_only [8; 2; 2] 3 (PyBool false)
           (PyFloat (1 # 1000))
           (plain_readout DenseReadout [8; 2; 2] 3
              [("bias", PyBool false); ("init_noise", PyFloat (1 # 1000))])
           32 3 dense_toy).
  - reflexivity.
  - reflexivity.
Defined.

Example dense_forward_run :
  match DenseReadout_forward dense_toy true features_reshaped with
  | Done y => (shape y, map (fun q => item y [0; q]) [0; 1; 2])
  | _ => ([], [])
  end = ([1; 3], [1; 2; 3]).
Proof. vm_compute. reflexivity. Qed.

(** Two pretrained channels and a new readout of five channels. *)
Lemma joint_layout_witness :
  (2 <= 5 ->
   (exists f1 f2 f,
      split_features 5 new_features pretrained_features "first" true false false
        = Ok ((f1, true), (f2, false)) /\
      cat1 f1 f2 = Done f /\ shape f = shape new_features /\
      forall a j r,
        item f (a :: j :: r)
        = if j <? 2 then item pretrained_features (a :: j :: r)
          else if false then zero else item new_features (a :: j :: r)) /\
   (exists f1 f2 f,
      split_features 5 new_features pretrained_features "second" true false false
        = Ok ((f1, true), (f2, false)) /\
      cat1 f1 f2 = Done f /\ shape f = shape new_features /\
      forall a j r,
        item f (a :: j :: r)
        = if j <? 5 - 2 then (if false then zero else item new_features (a :: j :: r))
          else item pretrained_features (a :: (j - (5 - 2)) :: r))) /\
  (5 < 2 ->
   (exists f1 f2 f,
      split_features 5 new_features pretrained_features "first" true false false
        = Ok ((f1, true), (f2, false)) /\
      cat1 f1 f2 = Done f /\ shape f = [1; 2; 1; 3]) /\
   (exists f1 f2 f,
      split_features 5 new_features pretrained_features "second" true false false
        = Ok ((f1, true), (f2, false)) /\
      cat1 f1 f2 = Done f /\ shape f = [1; 2 * 5 - 2 + 2; 1; 3])) /\
  (forall split,
     split <> "first" -> split <> "second" ->
     split_features 5 new_features pretrained_features split true false false
     = Raise (ValueError readout_split_error)).
Proof.
  apply (joint_features_keep_the_channel_layout new_features pretrained_features
           1 5 2 [1; 3] true false false).
  - reflexivity.
  - reflexivity.
Defined.

Lemma assign_parameter_keeps : keeps_features assign_parameter.
Proof.
  intros field v s s' _ H. unfold assign_parameter in H. inversion H.
  destruct (dict_mem field (jr_lib s)); auto.
Qed.

(** A joint readout initialised from a pretrained state of which only
    ['_mu'] is listed: the constructor succeeds, and [features] finds no
    split features. *)
Lemma joint_init_witness :
  let init := JointReadout_init assign_parameter new_features new_parameters
                (Some pretrained_state) "first" true false ["_mu"] false in
  (forall self,
     init = Ok self ->
     jr_features self
     = (if existsb (String.eqb "_features") ["_mu"] then new_features
        else if false then zeros_like new_features else new_features) /\
     (NoDup (dict_keys pretrained_state) ->
      match (if existsb (String.eqb "_features") ["_mu"]
             then dict_get "_features" pretrained_state else None) with
      | Some p =>
          exists c f1 f2,
            dim1 new_features = Ok c /\
            split_features c new_features p "first" true false false = Ok (f1, f2) /\
            joint_features self = cat1 (fst f1) (fst f2)
      | None =>
          joint_features self = Fails (AttributeError (no_attribute "_features_1"))
      end)) /\
  (Some pretrained_state = None ->
   existsb (String.eqb "_features") ["_mu"] = true ->
   init = Raise (match dim1 new_features with
                 | Ok _ => AttributeError "'NoneType' object has no attribute 'items'"
                 | Raise e => e
                 end)) /\
  (Some pretrained_state = None ->
   existsb (String.eqb "_features") ["_mu"] = false ->
   exists self, init = Ok self) /\
  (forall d c,
     Some pretrained_state = Some d -> NoDup (dict_keys d) ->
     dim1 new_features = Ok c ->
     copies_fields assign_parameter ->
     (forall p, (if existsb (String.eqb "_features") ["_mu"]
                 then dict_get "_features" d else None) = Some p ->
                exists f, split_features c new_features p "first" true false false
                          = Ok f) ->
     exists self, init = Ok self).
Proof.
  apply (joint_features_come_from_the_pretrained_state (dict (ndarray nat))
           assign_parameter new_features new_parameters (Some pretrained_state)
           "first" true false ["_mu"] false).
  exact assign_parameter_keeps.
Defined.

Example joint_unlisted_run :
  match JointReadout_init assign_parameter new_features new_parameters
          (Some pretrained_state) "first" true false ["_mu"] false with
  | Ok self =>
      (jr_has_pretrained self,
       map (fun kv => shape (snd kv)) (jr_lib self),
       match joint_features self with
       | Fails e => Some e
       | _ => None
       end)
  | Raise _ => (false, [], None)
  end = (true, [[1; 3; 1; 2]], Some (AttributeError (no_attribute "_features_1"))).
Proof. vm_compute. reflexivity. Qed.

Example joint_init_run :
  match JointReadout_init assign_nothing new_features tt (Some pretrained_state)
          "first" true false ["_features"] false with
  | Ok self =>
      match joint_features self with
      | Done f => (shape f, map (fun c => item f [0; c; 0; 1]) [0; 1; 2; 3; 4])
      | _ => ([], [])
      end
  | Raise _ => ([], [])
  end = ([1; 5; 1; 3], [1; 11; 121; 131; 141]).
Proof. vm_compute. reflexivity. Qed.

(** *** The factories *)




End MoreRuns.
